(* ===== verification/_CoqProject ===== *)
-Q . S2P
Prelude.v
Mat.v
OpenCV.v
Io.v
Format.v
Capture.v
Letterbox.v
FisheyeCamera.v
Main.v
Preprocessor.v
