(* ===== verification/Prelude.v ===== *)
(** * A verification development of the fisheye-camera YOLOv8 example

    The program (src/examples/yolov8_kaylor/cpp/) reads one frame from a
    fisheye camera, removes the lens distortion with precomputed remap
    tables, letterboxes it into a 640x640 RGB buffer, runs a YOLOv8 model
    on it and draws the detections.  It has two parts:

    - the class [FisheyeCamera] (fisheye_camera.h, fisheye_camera.cpp): a
      [cv::VideoCapture] member [capture_], the remap tables [map1_],
      [map2_] and the capture size [size_]; a constructor that opens and
      configures the device and computes the tables, a destructor, the
      preview loop [Refresh] and the two overloads of [GetRgbFrame];
    - [main] (main.cc): builds the camera, checks the command line,
      initialises the model, grabs one letterboxed frame, runs inference
      and draws boxes and labels for each detection.

    They interact through calls only: [main] owns the camera object and
    calls [GetRgbFrame(640)] once; the camera owns the capture device.
    OpenCV, the camera driver and the RKNN model runtime are libraries the
    sources only call.

    ** Files

    - [Prelude] (this file): the outcome type [res] of a C++ computation
      (a value, [exit(code)], an uncaught [cv::Exception] that aborts the
      process, or undefined behaviour), the state-and-outcome monad [M]
      with its [do] notation, C [int] arithmetic at 32 bits with signed
      overflow as undefined behaviour, the hint database [fisheye] and
      the tactics shared by all files.
    - [Mat]: [cv::Mat] of 8-bit 3-channel pixels as a record of its
      dimensions and a pixel function, the setoid [≡] of matrices that
      agree inside their bounds, and the OpenCV operations the program
      calls whose semantics is fixed by their documentation
      ([Mat::zeros], [cvtColor(COLOR_BGR2RGB)], ROI [copyTo]).
    - [OpenCV]: the interface [CvOps]/[CvLaws] (a typeclass) of the
      numeric parts of OpenCV that the program only calls (bilinear
      sampling in [remap] and [resize], the fisheye undistortion maps,
      the value of [getOptimalNewCameraMatrix]), the operations [remap],
      [resize], [getOptimalNewCameraMatrix] and
      [fisheye::initUndistortRectifyMap] built on it with their
      assertions, and a
      nearest-neighbour instance used to evaluate witnesses.
    - [Io]: the observable effects (log lines, image files, windows,
      standard output, drawing calls) as a trace, and the key stream read
      by [waitKey].
    - [Format]: the length of [printf("%.1f", x)] and the [sprintf] of a
      detection's label into [char text[256]] (main.cc, lines 98 and
      111-112), undefined behaviour when the label does not fit.
    - [Capture]: [cv::VideoCapture] as a state machine (open, set, get,
      read, release) over a device that yields one grab result per read,
      accepts or refuses a FOURCC, and settles width, height and frame
      rate on the modes it has.
    - [Letterbox]: lines 79-104 of [GetRgbFrame(int&&)]: scaled width and
      height with C [int] arithmetic, centring offsets, the resize, the
      black square, the copy into the centred ROI and the RGB conversion.
    - [FisheyeCamera]: the class: constructor, destructor, [Refresh],
      [GetRgbFrame()], [GetRgbFrame(int&&)], the object invariant
      [cam_wf], and the sequences of method calls an owner can make.  The
      destructor ends the object: it returns only the released capture,
      so no method can be called after it.
    - [Main]: [main] over an abstract YOLOv8 runtime ([Yolov8Api]).
    - [Preprocessor]: the specification's Frame Preprocessor as an
      interface ([FramePreprocessor], [meets_contract]), the instance of
      [FisheyeCamera], and the refinement theorems.

    ** Theorems (PROJECT.json lists them in order, C1 to C38)

    - Refinement ([Preprocessor]): [GetRgbFrame(int&&)] implements the
      specification's acquire-and-letterbox(640) on every well-formed
      object with the constructor's tables, and implements
      acquire-and-letterbox(S) for no other [S]: its argument is never
      read.  [letterbox] meets the letterbox contract for every size.
      Composed with [main], the buffer handed to inference on the success
      path is that letterbox of the first frame, undistorted with the
      tables of the camera [main] builds.
    - Behaviour of the methods ([FisheyeCamera]): the letterboxed frame is
      always 640x640, black outside rows 140-499 on 1920x1080 tables; a
      failed grab gives [nullptr] on both overloads; [GetRgbFrame()]
      returns the tables' size whatever the grabbed size (below the
      [SHRT_MAX] bound of [cv::remap]); the constructor yields a
      well-formed open object with 1920x1080 tables and warns exactly
      when MJPG is refused, but leaves the capture in whatever mode the
      driver settled on, never reading it back; the destructor leaves
      only the released capture, a terminal state; the
      specification's gray-frame scenario; the output depends only on the
      tables and the grab, so on a static stream a second call returns
      exactly what the first returned.
    - Invariant and termination: no sequence of calls changes the tables,
      and every sequence drives the capture only through its state
      machine, on the same device, never moving back; [Refresh] returns at
      the first failed grab or key press, having shown exactly the
      undistorted frame of every iteration that grabbed one, and never
      returns when neither happens.
    - Geometry and bounds ([Letterbox]): every pixel of the letterbox; the
      offsets of lines 97-98 centre the scaled image, the left/top margin
      never larger and at most one pixel smaller; the aspect ratio is kept with the
      shorter side rounded down; the [int] product overflows exactly when
      the shorter side exceeds 3355443 pixels; a frame more than 640:1
      aborts in [cv::resize].
    - [main] ([Main]): it dereferences [nullptr] when the first grab
      fails; it never releases the model on success; it builds the camera
      before it checks its arguments; with a wrong [argc] it prints the
      usage and returns -1; every inference receives a 640x640 buffer of
      the size it declares;
      when the model set-up or the inference fails it releases the model
      and calls [exit] without running the camera's destructor.
    - Round trip, type and errors: reading the content rectangle back
      out of the letterbox through an ROI and converting it back gives
      the resized image; neither overload ever returns an empty frame;
      the constructor aborts exactly when the intrinsics fail
      [intrinsics_ok], on the first failed assertion: [K] then [D] in
      [getOptimalNewCameraMatrix] (line 25), then the [D] length in
      [fisheye::initUndistortRectifyMap] (line 26); the [double] FOURCC
      stored in an [int] on line 21 is undefined behaviour above
      [INT_MAX].
    - The drawing loop ([Main], [Format]): with confidences in [0, 1]
      and class names of at most 248 characters every label fits
      [text[256]] and the loop completes; a name of 251 characters or
      more is a write past the end of [text].

    ** Bounds and fuel

    [int] is 32 bits ([INT_MIN] .. [INT_MAX]).  [Refresh] loops on a device
    stream that may be infinite; it is modelled with explicit fuel, one
    unit per iteration, and the theorems say exactly how much fuel makes
    it return (one more than the index of the first failed grab or key
    press) and that no fuel suffices when neither ever happens.

    The integer part of a [%.1f] conversion is counted with 320 steps
    of fuel: a [double] is below [10^309], so the fuel never runs out on
    a value [printf] can be given.

    ** Not modelled

    The pixel arithmetic inside OpenCV (bilinear weights, the fisheye
    projection, JPEG decoding) is left abstract in [CvOps]; the RKNN
    runtime and post-processing are abstract in [Yolov8Api]; the logger's
    formatting and the drawing primitives are recorded as calls in the
    trace, not executed: [Io] records each call with its arguments, in
    order, which is what the theorems about traces need.

    [cv::remap] asserts that the sides of its source and destination are
    below [SHRT_MAX]; [remap] leaves that assertion out, because the
    theorems about every grabbed frame are stated for frames a V4L2
    capture delivers, far below the bound.  The one theorem whose point
    is an arbitrary frame size, on [GetRgbFrame()], assumes [remap_fits].
    The V4L2 negotiation of width, height and frame rate is one function
    per property ([dev_adjust]); a real driver settles them together.
    [cv::VideoWriter::fourcc] is exact on the one code the program
    packs, "MJPG"; its [int] shift overflow for a last character of
    128 or more is not modelled.  The depth checks of OpenCV's
    assertions (CV_32F or CV_64F) always hold for the [double] matrices
    of the program and are not modelled. *)

From Stdlib Require Import ZArith Lia String.
From stdpp Require Import base decidable.

Declare Scope fe_scope.
Delimit Scope fe_scope with fe.
Open Scope Z_scope.

Create HintDb fisheye discriminated.

(** ** Outcomes of a C++ computation *)

(** A computation returns a value, calls [exit(code)], aborts on an
    uncaught [cv::Exception] (a failed [CV_Assert]), or reaches
    undefined behaviour (null dereference, signed overflow). *)
Inductive res (A : Type) : Type :=
| Ok (a : A)
| Exit (code : Z)
| Abort (what : string)
| Undefined (what : string).
Arguments Ok {A} a.
Arguments Exit {A} code.
Arguments Abort {A} what.
Arguments Undefined {A} what.

Definition is_ok {A} (r : res A) : bool :=
  match r with Ok _ => true | _ => false end.

(** The value of an outcome, or [d]. *)
Definition value_or {A} (d : A) (r : res A) : A :=
  match r with Ok a => a | _ => d end.

(** A monad, in the style of a class with its instances: [bind] runs
    a computation and passes its value on, [ret] returns a value. *)
Class Monad (m : Type -> Type) : Type := {
  bind : forall {X Y : Type}, m X -> (X -> m Y) -> m Y;
  ret : forall {X : Type}, X -> m X
}.

(** [do x <- c ; k] and [do 'pat <- c ; k], which destructures the value. *)
Notation "'do' v <- c ; k" := (bind c (fun v => k))
  (at level 60, v name, c at next level, right associativity) : fe_scope.
Notation "'do' ' pat <- c ; k" :=
  (bind c (fun p => match p with pat => k end))
  (at level 60, pat pattern, c at next level, right associativity) : fe_scope.
Open Scope fe_scope.

Definition res_bind {A B} (r : res A) (k : A -> res B) : res B :=
  match r with
  | Ok a => k a
  | Exit c => Exit c
  | Abort w => Abort w
  | Undefined w => Undefined w
  end.

#[export] Instance res_monad : Monad res := {
  ret := fun _ a => Ok a;
  bind := fun _ _ => res_bind
}.

(** [M S A]: a computation over a state [S] that ends in an outcome.  The
    state is returned in every outcome: the effects performed before an
    [exit] or an abort are observable. *)
Definition M (S A : Type) : Type := S -> res A * S.

Definition M_bind {S A B} (c : M S A) (k : A -> M S B) : M S B :=
  fun s =>
    match c s with
    | (Ok a, s') => k a s'
    | (Exit n, s') => (Exit n, s')
    | (Abort w, s') => (Abort w, s')
    | (Undefined w, s') => (Undefined w, s')
    end.

#[export] Instance M_monad (S : Type) : Monad (M S) := {
  ret := fun _ a s => (Ok a, s);
  bind := fun _ _ => M_bind
}.

(** Lift a pure outcome into [M]. *)
Definition lift {S A} (r : res A) : M S A := fun s => (r, s).

(** ** C [int] arithmetic *)

Definition INT_MIN : Z := - 2 ^ 31.
Definition INT_MAX : Z := 2 ^ 31 - 1.

Definition in_int (z : Z) : bool := (INT_MIN <=? z) && (z <=? INT_MAX).

(** The value of an [int] expression: signed overflow is undefined. *)
Definition c_int (z : Z) : res Z :=
  if in_int z then Ok z else Undefined "signed integer overflow".

(** The conversion of an integral [double] to [int] (C11 6.3.1.4): a
    value outside the range of [int] is undefined behaviour. *)
Definition double_to_int (z : Z) : res Z :=
  if in_int z then Ok z else Undefined "double to int conversion out of range".

Definition c_add (a b : Z) : res Z := c_int (a + b).
Definition c_sub (a b : Z) : res Z := c_int (a - b).
Definition c_mul (a b : Z) : res Z := c_int (a * b).

(** [a / b] on [int] truncates toward zero; division by zero and
    [INT_MIN / -1] are undefined. *)
Definition c_div (a b : Z) : res Z :=
  if b =? 0 then Undefined "division by zero" else c_int (Z.quot a b).

(** ** Tactics *)

(** Case on every integer comparison of the goal. *)
Ltac zcase :=
  repeat match goal with
  | |- context [?a <=? ?b] => destruct (Z.leb_spec a b)
  | |- context [?a <? ?b] => destruct (Z.ltb_spec a b)
  | |- context [?a =? ?b] => destruct (Z.eqb_spec a b)
  | |- context [?a >? ?b] => rewrite (Z.gtb_ltb a b); destruct (Z.ltb_spec b a)
  end.

Ltac zcase_in H :=
  repeat match type of H with
  | context [?a <=? ?b] => destruct (Z.leb_spec a b)
  | context [?a <? ?b] => destruct (Z.ltb_spec a b)
  | context [?a =? ?b] => destruct (Z.eqb_spec a b)
  | context [?a >? ?b] => rewrite (Z.gtb_ltb a b) in H; destruct (Z.ltb_spec b a)
  end.

(** Invert an equation between outcomes or pairs of outcomes. *)
Ltac res_inv :=
  repeat match goal with
  | H : Ok _ = Ok _ |- _ => injection H as H
  | H : (_, _) = (_, _) |- _ => injection H as H
  | H : Ok _ = Exit _ |- _ => discriminate H
  | H : Ok _ = Abort _ |- _ => discriminate H
  | H : Ok _ = Undefined _ |- _ => discriminate H
  | H : Exit _ = Ok _ |- _ => discriminate H
  | H : Abort _ = Ok _ |- _ => discriminate H
  | H : Undefined _ = Ok _ |- _ => discriminate H
  end; subst.

(** ** Generic lemmas *)

Lemma in_int_spec z : in_int z = true <-> INT_MIN <= z <= INT_MAX.
Proof. unfold in_int. rewrite andb_true_iff, !Z.leb_le. tauto. Qed.

Lemma c_int_ok z : INT_MIN <= z <= INT_MAX -> c_int z = Ok z.
Proof. intros H. unfold c_int. apply in_int_spec in H. now rewrite H. Qed.

Lemma c_int_in z : in_int z = true -> c_int z = Ok z.
Proof. intros H. unfold c_int. now rewrite H. Qed.

Lemma c_int_ok_inv z v : c_int z = Ok v -> v = z /\ INT_MIN <= z <= INT_MAX.
Proof.
  unfold c_int. destruct (in_int z) eqn:E; intros H; res_inv.
  split; [reflexivity | now apply in_int_spec].
Qed.

Lemma double_to_int_ok z : INT_MIN <= z <= INT_MAX -> double_to_int z = Ok z.
Proof. intros H. unfold double_to_int. now rewrite (proj2 (in_int_spec z) H). Qed.

Lemma double_to_int_undef z :
  ~ (INT_MIN <= z <= INT_MAX) -> double_to_int z = Undefined "double to int conversion out of range".
Proof.
  intros H. unfold double_to_int. destruct (in_int z) eqn:E; [|reflexivity].
  apply in_int_spec in E. contradiction.
Qed.

Lemma double_to_int_cases z :
  double_to_int z = Ok z \/ double_to_int z = Undefined "double to int conversion out of range".
Proof. unfold double_to_int. destruct (in_int z); auto. Qed.

Lemma c_int_undef z : ~ (INT_MIN <= z <= INT_MAX) -> c_int z = Undefined "signed integer overflow".
Proof.
  intros H. unfold c_int. destruct (in_int z) eqn:E; [|reflexivity].
  apply in_int_spec in E. contradiction.
Qed.

Lemma c_mul_ok a b : INT_MIN <= a * b <= INT_MAX -> c_mul a b = Ok (a * b).
Proof. apply c_int_ok. Qed.

Lemma c_sub_ok a b : INT_MIN <= a - b <= INT_MAX -> c_sub a b = Ok (a - b).
Proof. apply c_int_ok. Qed.

Lemma c_div_ok a b :
  b <> 0 -> INT_MIN <= Z.quot a b <= INT_MAX -> c_div a b = Ok (Z.quot a b).
Proof.
  intros Hb H. unfold c_div. destruct (Z.eqb_spec b 0); [contradiction|].
  now apply c_int_ok.
Qed.

(** On non-negative operands C division is Euclidean division. *)
Lemma quot_nonneg a b : 0 <= a -> 0 < b -> Z.quot a b = a / b.
Proof. intros. apply Z.quot_div_nonneg; lia. Qed.

(** The floor bracket of a quotient. *)
Lemma div_bracket a b : 0 < b -> b * (a / b) <= a < b * (a / b) + b.
Proof.
  intros Hb. pose proof (Z.div_mod a b ltac:(lia)).
  pose proof (Z.mod_pos_bound a b Hb). lia.
Qed.

Lemma div_le_self a b : 0 <= a -> 0 < b -> 0 <= a / b <= a.
Proof.
  intros Ha Hb. split; [now apply Z.div_pos|].
  apply Z.div_le_upper_bound; nia.
Qed.

(** Halving a non-negative gap splits it into two parts that differ by
    at most one, the smaller one first. *)
Lemma half_split g : 0 <= g -> 0 <= g / 2 /\ g / 2 <= g - g / 2 <= g / 2 + 1.
Proof. intros Hg. pose proof (div_bracket g 2 ltac:(lia)). lia. Qed.

(** C division of non-negative [int]s never overflows. *)
Lemma c_div_nonneg a b : 0 <= a <= INT_MAX -> 0 < b -> c_div a b = Ok (a / b).
Proof.
  intros Ha Hb. unfold c_div. destruct (Z.eqb_spec b 0); [lia|].
  rewrite quot_nonneg by lia. apply c_int_ok.
  pose proof (div_le_self a b). unfold INT_MIN, INT_MAX in *. lia.
Qed.

Lemma c_mul_nonneg a b : 0 <= a -> 0 <= b -> a * b <= INT_MAX -> c_mul a b = Ok (a * b).
Proof. intros. apply c_int_ok. unfold INT_MIN, INT_MAX in *. nia. Qed.

Lemma c_sub_le a b : 0 <= b <= a -> a <= INT_MAX -> c_sub a b = Ok (a - b).
Proof. intros. apply c_int_ok. unfold INT_MIN, INT_MAX in *. lia. Qed.

Lemma bind_Ok {A B} (a : A) (k : A -> res B) : res_bind (Ok a) k = k a.
Proof. reflexivity. Qed.

Lemma M_bind_Ok {S A B} (c : M S A) (k : A -> M S B) s a s' :
  c s = (Ok a, s') -> M_bind c k s = k a s'.
Proof. intros H. unfold M_bind. now rewrite H. Qed.

#[export] Hint Resolve c_int_ok c_mul_ok c_sub_ok quot_nonneg c_div_nonneg c_mul_nonneg c_sub_le : fisheye.
