(* ===== verification/Mat.v ===== *)
(** * [cv::Mat] of 8-bit 3-channel pixels

    A matrix is its dimensions and a pixel function; two matrices are
    equivalent ([≡]) when they have the same dimensions and agree inside
    them.  This file also gives the OpenCV operations whose result the
    OpenCV documentation fixes exactly: [Mat::zeros], [Mat::empty],
    [cvtColor] with [COLOR_BGR2RGB], and [copyTo] into a [Rect] region of
    interest, each with the assertion it makes. *)

From Stdlib Require Import ZArith Lia String Morphisms.
From stdpp Require Import base decidable numbers.
From S2P Require Import Prelude.

Open Scope Z_scope.

(** [cv::Vec3b]: channels 0, 1 and 2 (blue, green, red for a BGR frame). *)
Record pixel := Pixel { ch0 : Z; ch1 : Z; ch2 : Z }.

#[export] Instance pixel_eq_dec : EqDecision pixel.
Proof. solve_decision. Defined.

(** The value of [Mat::zeros]: every channel 0. *)
Definition black : pixel := Pixel 0 0 0.

Record mat := Mat { rows : Z; cols : Z; px : Z -> Z -> pixel }.

(** A default-constructed [cv::Mat]: what [capture >> frame] leaves when
    no frame was grabbed. *)
Definition empty_mat : mat := Mat 0 0 (fun _ _ => black).

(** [Mat::empty()]: [total() == 0]. *)
Definition mat_empty (m : mat) : bool := rows m * cols m =? 0.

Definition in_bounds (m : mat) (r c : Z) : Prop := 0 <= r < rows m /\ 0 <= c < cols m.

#[export] Instance in_bounds_dec m r c : Decision (in_bounds m r c).
Proof. unfold in_bounds. apply _. Defined.

(** ** The setoid of matrices *)

#[export] Instance mat_equiv : Equiv mat := fun a b =>
  rows a = rows b /\ cols a = cols b /\
  forall r c, in_bounds a r c -> px a r c = px b r c.

#[export] Instance mat_equivalence : Equivalence (≡@{mat}).
Proof.
  split.
  - intros a. repeat split; auto.
  - intros a b (Hr & Hc & Hp). repeat split; auto.
    intros r c [H1 H2]. symmetry. apply Hp. unfold in_bounds. lia.
  - intros a b d (Hr & Hc & Hp) (Hr' & Hc' & Hp'). repeat split; try congruence.
    intros r c Hin. rewrite Hp by exact Hin. apply Hp'.
    unfold in_bounds in *. lia.
Qed.

#[export] Instance rows_proper : Proper ((≡) ==> eq) rows.
Proof. intros a b (H & _). exact H. Qed.

#[export] Instance cols_proper : Proper ((≡) ==> eq) cols.
Proof. intros a b (_ & H & _). exact H. Qed.

#[export] Instance mat_empty_proper : Proper ((≡) ==> eq) mat_empty.
Proof. intros a b (Hr & Hc & _). unfold mat_empty. now rewrite Hr, Hc. Qed.

(** Outcomes up to [≡] on their value. *)
Definition res_equiv {A} (R : relation A) (x y : res A) : Prop :=
  match x, y with
  | Ok a, Ok b => R a b
  | _, _ => x = y
  end.

#[export] Instance res_equiv_refl {A} (R : relation A) `{!Reflexive R} :
  Reflexive (res_equiv R).
Proof. intros [a| | |]; simpl; auto. Qed.

(** ** Fixed-semantics operations *)

(** [cv::Mat::zeros(rows, cols, type)]. *)
Definition zeros (h w : Z) : mat := Mat h w (fun _ _ => black).

(** [COLOR_BGR2RGB] swaps channels 0 and 2. *)
Definition swap_rb (p : pixel) : pixel := Pixel (ch2 p) (ch1 p) (ch0 p).

(** [cv::cvtColor(src, dst, COLOR_BGR2RGB)]: asserts a non-empty source. *)
Definition cvtColor_BGR2RGB (src : mat) : res mat :=
  if mat_empty src then Abort "cvtColor: !_src.empty()"
  else Ok (Mat (rows src) (cols src) (fun r c => swap_rb (px src r c))).

(** [cv::Rect(x, y, width, height)]. *)
Record rect := Rect { rx : Z; ry : Z; rw : Z; rh : Z }.

#[export] Instance rect_eq_dec : EqDecision rect.
Proof. solve_decision. Defined.

(** The assertion of [Mat::Mat(const Mat&, const Rect&)]. *)
Definition roi_inside (m : mat) (R : rect) : bool :=
  (0 <=? rx R) && (0 <=? rw R) && (rx R + rw R <=? cols m) &&
  (0 <=? ry R) && (0 <=? rh R) && (ry R + rh R <=? rows m).

Definition in_rect (R : rect) (r c : Z) : bool :=
  (ry R <=? r) && (r <? ry R + rh R) && (rx R <=? c) && (c <? rx R + rw R).

(** [src.copyTo(dst(R))]: building the ROI header asserts that [R] lies
    inside [dst]; [copyTo] writes through the header when [src] has the
    ROI's size, and otherwise reallocates the header and leaves [dst]
    untouched. *)
Definition copyTo_roi (src dst : mat) (R : rect) : res mat :=
  if roi_inside dst R then
    if (rows src =? rh R) && (cols src =? rw R) then
      Ok (Mat (rows dst) (cols dst)
             (fun r c => if in_rect R r c then px src (r - ry R) (c - rx R) else px dst r c))
    else Ok dst
  else Abort "Mat(const Mat&, const Rect&): roi inside m".

(** [m(R)], the ROI header [Mat::Mat(const Mat&, const Rect&)]: a view
    of the pixels of [m] inside [R]. *)
Definition roi (m : mat) (R : rect) : res mat :=
  if roi_inside m R then Ok (Mat (rh R) (rw R) (fun r c => px m (r + ry R) (c + rx R)))
  else Abort "Mat(const Mat&, const Rect&): roi inside m".

(** ** Lemmas *)

Lemma res_bind_equiv {A B} (R : relation A) (R' : relation B) x y (f g : A -> res B) :
  res_equiv R x y -> (forall a b, R a b -> res_equiv R' (f a) (g b)) ->
  res_equiv R' (res_bind x f) (res_bind y g).
Proof. destruct x, y; simpl; intros Hxy Hfg; try discriminate; auto; congruence. Qed.

Lemma mat_empty_false m : 0 < rows m -> 0 < cols m -> mat_empty m = false.
Proof. intros. unfold mat_empty. apply Z.eqb_neq. nia. Qed.

Lemma empty_mat_empty : mat_empty empty_mat = true.
Proof. reflexivity. Qed.

Lemma cvtColor_ok src :
  mat_empty src = false ->
  cvtColor_BGR2RGB src = Ok (Mat (rows src) (cols src) (fun r c => swap_rb (px src r c))).
Proof. intros H. unfold cvtColor_BGR2RGB. now rewrite H. Qed.

Lemma cvtColor_nonempty src dst :
  cvtColor_BGR2RGB src = Ok dst -> mat_empty dst = false.
Proof.
  unfold cvtColor_BGR2RGB. destruct (mat_empty src) eqn:E; intros H; [discriminate|].
  injection H as <-. exact E.
Qed.

Lemma swap_rb_involutive p : swap_rb (swap_rb p) = p.
Proof. now destruct p. Qed.

Lemma swap_rb_black : swap_rb black = black.
Proof. reflexivity. Qed.

Lemma roi_inside_spec m R :
  roi_inside m R = true <->
  0 <= rx R /\ 0 <= rw R /\ rx R + rw R <= cols m /\
  0 <= ry R /\ 0 <= rh R /\ ry R + rh R <= rows m.
Proof. unfold roi_inside. rewrite !andb_true_iff, !Z.leb_le. tauto. Qed.

Lemma in_rect_spec R r c :
  in_rect R r c = true <-> ry R <= r < ry R + rh R /\ rx R <= c < rx R + rw R.
Proof. unfold in_rect. rewrite !andb_true_iff, !Z.leb_le, !Z.ltb_lt. tauto. Qed.

Lemma copyTo_roi_ok src dst R :
  roi_inside dst R = true -> rows src = rh R -> cols src = rw R ->
  copyTo_roi src dst R =
  Ok (Mat (rows dst) (cols dst)
         (fun r c => if in_rect R r c then px src (r - ry R) (c - rx R) else px dst r c)).
Proof.
  intros Hin Hr Hc. unfold copyTo_roi. rewrite Hin, Hr, Hc, !Z.eqb_refl. reflexivity.
Qed.

#[export] Instance cvtColor_proper : Proper ((≡) ==> res_equiv (≡)) cvtColor_BGR2RGB.
Proof.
  intros a b Hab. unfold cvtColor_BGR2RGB. rewrite Hab.
  destruct (mat_empty b); simpl; [reflexivity|].
  destruct Hab as (Hr & Hc & Hp). repeat split; simpl; auto.
  intros r c Hin. now rewrite Hp.
Qed.

#[export] Instance copyTo_roi_proper :
  Proper ((≡) ==> (≡) ==> eq ==> res_equiv (≡)) copyTo_roi.
Proof.
  intros a a' Ha d d' Hd R ? <-. unfold copyTo_roi.
  destruct Ha as (Har & Hac & Hap). pose proof Hd as (Hdr & Hdc & Hdp).
  assert (Hroi : roi_inside d R = roi_inside d' R) by (unfold roi_inside; now rewrite Hdr, Hdc).
  rewrite Hroi, Har, Hac.
  destruct (roi_inside d' R); simpl; [|reflexivity].
  destruct ((rows a' =? rh R) && (cols a' =? rw R)) eqn:E2; simpl; [|exact Hd].
  repeat split; auto. intros r c Hin. unfold in_bounds in Hin; simpl in Hin |- *.
  destruct (in_rect R r c) eqn:Er; [|apply Hdp; exact Hin].
  apply in_rect_spec in Er. apply andb_true_iff in E2 as [E2 E3].
  apply Z.eqb_eq in E2, E3. apply Hap. unfold in_bounds. lia.
Qed.

#[export] Hint Resolve mat_empty_false cvtColor_ok copyTo_roi_ok : fisheye.
