(* ===== verification/OpenCV.v ===== *)
(** * The numeric parts of OpenCV the program calls

    [CvOps] is the interface of what the program only calls and this
    development leaves abstract: the bilinear sample of [cv::remap], the
    pixels of a bilinear [cv::resize], [cv::getOptimalNewCameraMatrix]
    and the source point of the fisheye undistortion.  [CvLaws] states
    what every implementation promises: samples read a matrix only inside
    its bounds, a constant image samples to its constant, and the new
    camera matrix is 3x3.  [remap], [resize] and
    [fisheye_initUndistortRectifyMap] are built on the interface with the
    size rules and assertions of OpenCV, as is
    [getOptimalNewCameraMatrix] on its abstract value.  [cv_nearest] is an instance
    (nearest-neighbour sampling, identity undistortion) that discharges
    the laws and lets witnesses compute. *)

From Stdlib Require Import ZArith QArith Qround Lia String Morphisms List.
From stdpp Require Import base decidable numbers.
From S2P Require Import Prelude Mat.

Open Scope Z_scope.

(** A [CV_32FC1] matrix: a remap table. *)
Record fmat := FMat { frows : Z; fcols : Z; fpx : Z -> Z -> Q }.

Definition fmat_empty (m : fmat) : bool := frows m * fcols m =? 0.

(** A [cv::Mat_<double>] given row by row. *)
Record dmat := DMat { drows : Z; dcols : Z; dvals : list Q }.

Definition dtotal (m : dmat) : Z := drows m * dcols m.

(** [cv::Size(width, height)]. *)
Record size := Size { width : Z; height : Z }.

#[export] Instance size_eq_dec : EqDecision size.
Proof. solve_decision. Defined.

Class CvOps := {
  (** [INTER_LINEAR] sample of [src] at column [x], row [y], with
      [BORDER_CONSTANT] 0 outside. *)
  sample_linear : mat -> Q -> Q -> pixel;
  (** Pixel [(r, c)] of [cv::resize(src, Size(w, h))] ([INTER_LINEAR]). *)
  resize_linear : mat -> Z -> Z -> Z -> Z -> pixel;
  (** [cv::getOptimalNewCameraMatrix(K, D, size, alpha, newSize, center)]. *)
  optimal_new_camera_matrix : dmat -> dmat -> size -> Q -> size -> bool -> dmat;
  (** Column and row of the distorted source of undistorted pixel
      [(r, c)] under [cv::fisheye] with [K], [D], rectification [R] and
      projection [P]. *)
  fisheye_source_point : dmat -> dmat -> dmat -> dmat -> Z -> Z -> Q * Q
}.

Definition constant_on (m : mat) (p : pixel) : Prop :=
  forall r c, in_bounds m r c -> px m r c = p.

Class CvLaws `{CvOps} := {
  sample_linear_proper : Proper ((≡) ==> eq ==> eq ==> eq) sample_linear;
  resize_linear_proper :
    Proper ((≡) ==> eq ==> eq ==> eq ==> eq ==> eq) resize_linear;
  sample_linear_const : forall src p (x y : Q),
    constant_on src p ->
    (0 <= x <= inject_Z (cols src - 1))%Q -> (0 <= y <= inject_Z (rows src - 1))%Q ->
    sample_linear src x y = p;
  resize_linear_const : forall src p h w r c,
    constant_on src p -> 0 < rows src -> 0 < cols src ->
    0 <= r < h -> 0 <= c < w -> resize_linear src h w r c = p;
  optimal_new_camera_matrix_3x3 : forall K D s a s' b,
    drows (optimal_new_camera_matrix K D s a s' b) = 3 /\
    dcols (optimal_new_camera_matrix K D s a s' b) = 3
}.

(** [SHRT_MAX], the bound of [cv::remap]'s sizes. *)
Definition SHRT_MAX : Z := 32767.

(** The sides [cv::remap] accepts: below [SHRT_MAX] for the source and
    the table (whose size is the destination's). *)
Definition remap_fits (src : mat) (map1 : fmat) : Prop :=
  rows src < SHRT_MAX /\ cols src < SHRT_MAX /\ frows map1 < SHRT_MAX /\ fcols map1 < SHRT_MAX.

Section Operations.
Context `{CvOps}.

(** [cv::remap(src, dst, map1, map2, INTER_LINEAR)] with two [CV_32FC1]
    tables: asserts a non-empty [map1] and a [map2] of its size; [dst] is
    created with [map1]'s size.  OpenCV also asserts that the sides of
    [src] and [dst] are below [SHRT_MAX]; that assertion is not part of
    this definition, and the theorems that depend on it assume
    [remap_fits]. *)
Definition remap (src : mat) (map1 map2 : fmat) : res mat :=
  if fmat_empty map1 then Abort "remap: map1.size().area() > 0"
  else if (frows map2 =? frows map1) && (fcols map2 =? fcols map1) then
    Ok (Mat (frows map1) (fcols map1)
           (fun r c => sample_linear src (fpx map1 r c) (fpx map2 r c)))
  else Abort "remap: map2.size() == map1.size()".

(** [cv::resize(src, dst, Size(w, h))]: asserts a non-empty source; an
    empty [dsize] ([w <= 0] or [h <= 0]) with the default scale factors
    0 fails the assertion [inv_scale_x > 0]. *)
Definition resize (src : mat) (w h : Z) : res mat :=
  if mat_empty src then Abort "resize: !ssize.empty()"
  else if (w <=? 0) || (h <=? 0) then Abort "resize: inv_scale_x > 0"
  else Ok (Mat h w (resize_linear src h w)).

(** [cv::getOptimalNewCameraMatrix(K, D, size, alpha, newSize,
    centerPrincipalPoint)], line 25: it undistorts points of the image
    border with [cv::undistortPoints], which asserts a 3x3 camera matrix
    and then, for a non-empty [D], a row or column vector of 4, 5, 8, 12
    or 14 coefficients (an empty [D] is no distortion). *)
Definition dist_coeffs_ok (D : dmat) : bool :=
  (dtotal D =? 0) ||
  (((drows D =? 1) || (dcols D =? 1)) && existsb (Z.eqb (dtotal D)) [4; 5; 8; 12; 14]).

Definition getOptimalNewCameraMatrix (K D : dmat) (s : size) (alpha : Q) (s' : size) (center : bool)
  : res dmat :=
  if negb ((drows K =? 3) && (dcols K =? 3))
  then Abort "undistortPoints: cameraMatrix is 3x3"
  else if negb (dist_coeffs_ok D)
  then Abort "undistortPoints: distCoeffs is a vector of 4, 5, 8, 12 or 14 coefficients"
  else Ok (optimal_new_camera_matrix K D s alpha s' center).

(** [cv::fisheye::initUndistortRectifyMap(K, D, R, P, size, CV_32FC1,
    map1, map2)]: one assertion for a 3x3 [K] and an empty [D] or one of
    four coefficients, then an empty, 3x3 or 3-vector [R] and an empty,
    3x3 or 3x4 [P]; both tables have [size]. *)
Definition fisheye_initUndistortRectifyMap (K D R P : dmat) (s : size)
  : res (fmat * fmat) :=
  if negb ((drows K =? 3) && (dcols K =? 3) && ((dtotal D =? 0) || (dtotal D =? 4)))
  then Abort "initUndistortRectifyMap: K.size() == Size(3, 3) && (D.empty() || D.total() == 4)"
  else if negb ((dtotal R =? 0) || ((drows R =? 3) && (dcols R =? 3)) || (dtotal R =? 3))
  then Abort "initUndistortRectifyMap: R.empty() || R.size() == Size(3, 3) || R.total() * R.channels() == 3"
  else if negb ((dtotal P =? 0) || ((drows P =? 3) && ((dcols P =? 3) || (dcols P =? 4))))
  then Abort "initUndistortRectifyMap: P.empty() || P.size() == Size(3, 3) || P.size() == Size(4, 3)"
  else
    Ok (FMat (height s) (width s) (fun r c => fst (fisheye_source_point K D R P r c)),
        FMat (height s) (width s) (fun r c => snd (fisheye_source_point K D R P r c))).

End Operations.

(** ** A computable instance: nearest-neighbour sampling *)

Definition round_half (q : Q) : Z := Qfloor (q + (1 # 2)).

Definition nearest_sample (src : mat) (x y : Q) : pixel :=
  let c := round_half x in
  let r := round_half y in
  if decide (in_bounds src r c) then px src r c else black.

(** [INTER_NEAREST] resize: destination pixel [(r, c)] reads source pixel
    [(r * rows / h, c * cols / w)]. *)
Definition nearest_resize (src : mat) (h w r c : Z) : pixel :=
  let i := r * rows src / h in
  let j := c * cols src / w in
  if decide (in_bounds src i j) then px src i j else black.

Definition cv_nearest : CvOps := {|
  sample_linear := nearest_sample;
  resize_linear := nearest_resize;
  optimal_new_camera_matrix := fun K _ _ _ _ _ => DMat 3 3 (dvals K);
  fisheye_source_point := fun _ _ _ _ r c => (inject_Z c, inject_Z r)
|}.

(** ** Lemmas on the operations *)

Section OperationLemmas.
Context `{CvOps}.

Lemma remap_ok src map1 map2 :
  fmat_empty map1 = false -> frows map2 = frows map1 -> fcols map2 = fcols map1 ->
  remap src map1 map2 =
  Ok (Mat (frows map1) (fcols map1) (fun r c => sample_linear src (fpx map1 r c) (fpx map2 r c))).
Proof.
  intros He Hr Hc. unfold remap. rewrite He, Hr, Hc, !Z.eqb_refl. reflexivity.
Qed.

Lemma resize_ok src w h :
  mat_empty src = false -> 0 < w -> 0 < h ->
  resize src w h = Ok (Mat h w (resize_linear src h w)).
Proof.
  intros He Hw Hh. unfold resize. rewrite He.
  destruct (Z.leb_spec w 0); [lia|]. destruct (Z.leb_spec h 0); [lia|]. reflexivity.
Qed.

Lemma resize_abort_dsize src w h :
  mat_empty src = false -> (w <= 0 \/ h <= 0) ->
  resize src w h = Abort "resize: inv_scale_x > 0".
Proof.
  intros He Hwh. unfold resize. rewrite He.
  destruct (Z.leb_spec w 0), (Z.leb_spec h 0); simpl; try reflexivity; lia.
Qed.

Lemma fisheye_maps_ok K D R P s :
  drows K = 3 -> dcols K = 3 -> dtotal D = 4 -> dtotal R = 0 -> drows P = 3 -> dcols P = 3 ->
  fisheye_initUndistortRectifyMap K D R P s =
  Ok (FMat (height s) (width s) (fun r c => fst (fisheye_source_point K D R P r c)),
      FMat (height s) (width s) (fun r c => snd (fisheye_source_point K D R P r c))).
Proof.
  intros HK1 HK2 HD HR HP1 HP2. unfold fisheye_initUndistortRectifyMap, dtotal in *.
  rewrite HK1, HK2, HD, HR, HP1, HP2. reflexivity.
Qed.

Lemma dist_coeffs_ok_4 D :
  dtotal D = 4 -> drows D = 1 \/ dcols D = 1 -> dist_coeffs_ok D = true.
Proof. unfold dist_coeffs_ok. intros -> [-> | ->]; rewrite ?orb_true_r; reflexivity. Qed.

Lemma fisheye_maps_size K D R P s m1 m2 :
  fisheye_initUndistortRectifyMap K D R P s = Ok (m1, m2) ->
  frows m1 = height s /\ fcols m1 = width s.
Proof.
  unfold fisheye_initUndistortRectifyMap.
  repeat match goal with |- context [if ?b then _ else _] => destruct b end;
    intros E; res_inv; split; reflexivity.
Qed.

Lemma getOptimalNewCameraMatrix_ok K D s a s' b :
  drows K = 3 -> dcols K = 3 -> dist_coeffs_ok D = true ->
  getOptimalNewCameraMatrix K D s a s' b = Ok (optimal_new_camera_matrix K D s a s' b).
Proof. intros HK1 HK2 HD. unfold getOptimalNewCameraMatrix. now rewrite HK1, HK2, HD. Qed.

Context `{!CvLaws}.

#[export] Instance remap_proper :
  Proper ((≡) ==> eq ==> eq ==> res_equiv (≡)) remap.
Proof.
  intros a b Hab m1 ? <- m2 ? <-. unfold remap.
  destruct (fmat_empty m1); simpl; [reflexivity|].
  destruct (_ && _); simpl; [|reflexivity].
  repeat split; auto. intros r c _. simpl. now apply sample_linear_proper.
Qed.

#[export] Instance resize_proper :
  Proper ((≡) ==> eq ==> eq ==> res_equiv (≡)) resize.
Proof.
  intros a b Hab w ? <- h ? <-. unfold resize. rewrite Hab.
  destruct (mat_empty b); simpl; [reflexivity|].
  destruct (_ || _); simpl; [reflexivity|].
  repeat split; auto. intros r c _. simpl. now apply resize_linear_proper.
Qed.

End OperationLemmas.

#[export] Hint Resolve remap_ok resize_ok fisheye_maps_ok : fisheye.

Lemma round_half_range (q : Q) (n : Z) :
  (0 <= q <= inject_Z (n - 1))%Q -> 0 <= round_half q <= n - 1.
Proof.
  intros [H1 H2]. unfold round_half. split.
  - change 0 with (Qfloor (1 # 2)). apply Qfloor_resp_le.
    rewrite <- (Qplus_0_l (1 # 2)) at 1. now apply Qplus_le_compat; [|apply Qle_refl].
  - assert (Hlt : (q + (1 # 2) < inject_Z n)%Q).
    { apply Qle_lt_trans with (inject_Z (n - 1) + (1 # 2))%Q.
      - apply Qplus_le_compat; [exact H2 | apply Qle_refl].
      - unfold Qlt, Qplus, inject_Z; simpl. lia. }
    pose proof (Qfloor_le (q + (1 # 2))) as Hf.
    assert (Hz : (inject_Z (Qfloor (q + (1 # 2))) < inject_Z n)%Q)
      by (eapply Qle_lt_trans; eauto).
    rewrite <- Zlt_Qlt in Hz. lia.
Qed.

Lemma nearest_resize_in src h w r c :
  0 < rows src -> 0 < cols src -> 0 <= r < h -> 0 <= c < w ->
  in_bounds src (r * rows src / h) (c * cols src / w).
Proof.
  intros Hr Hc Hrh Hcw. split; split.
  - apply Z.div_pos; nia.
  - apply Z.div_lt_upper_bound; nia.
  - apply Z.div_pos; nia.
  - apply Z.div_lt_upper_bound; nia.
Qed.

Lemma cv_nearest_laws : @CvLaws cv_nearest.
Proof.
  split.
  - intros a b (Hr & Hc & Hp) x ? <- y ? <-. simpl. unfold nearest_sample.
    destruct (decide (in_bounds a _ _)) as [Hin|Hin];
      destruct (decide (in_bounds b _ _)) as [Hin'|Hin']; auto;
      unfold in_bounds in *; rewrite ?Hr, ?Hc in *; tauto.
  - intros a b (Hr & Hc & Hp) h ? <- w ? <- r ? <- c ? <-. simpl.
    unfold nearest_resize. rewrite <- Hr, <- Hc.
    destruct (decide (in_bounds a _ _)) as [Hin|Hin];
      destruct (decide (in_bounds b _ _)) as [Hin'|Hin']; auto;
      unfold in_bounds in *; rewrite ?Hr, ?Hc in *; tauto.
  - intros src p x y Hc Hx Hy. simpl. unfold nearest_sample.
    pose proof (round_half_range x (cols src) Hx).
    pose proof (round_half_range y (rows src) Hy).
    destruct (decide _) as [Hin|Hin]; [now apply Hc|].
    exfalso. apply Hin. split; lia.
  - intros src p h w r c Hc Hr Hcc Hrh Hcw. simpl. unfold nearest_resize.
    destruct (decide _) as [Hin|Hin]; [now apply Hc|].
    exfalso. now apply Hin, nearest_resize_in.
  - intros. simpl. split; reflexivity.
Qed.
