(* ===== verification/Io.v ===== *)
(** * Observable effects

    What the program does to the world besides computing: log lines of the
    [KAYLORDUT_LOG_*] macros, [cv::imwrite] and [cv::imshow],
    [cv::destroyAllWindows], [printf], the drawing calls of
    image_drawing.h, [write_image], and the calls into the YOLOv8 runtime
    (model set-up and release, post-processing tables, inference with the
    image buffer it is given).  They are recorded, in order, in the
    trace [out] of the state [io]; [io] also holds the stream of results of
    [cv::waitKey] (-1 when no key was pressed). *)

From Stdlib Require Import ZArith QArith Lia String List.
From stdpp Require Import base decidable numbers.
From S2P Require Import Prelude Mat.

Import ListNotations.
Open Scope Z_scope.

Inductive level := INFO | WARN | ERROR.

#[export] Instance level_eq_dec : EqDecision level.
Proof. solve_decision. Defined.

(** An argument of a [printf]-style format. *)
Inductive carg := CStr (s : string) | CInt (z : Z) | CDbl (q : Q).

(** The colours of image_drawing.h used by [main]. *)
Inductive color := COLOR_BLUE | COLOR_RED.

#[export] Instance color_eq_dec : EqDecision color.
Proof. solve_decision. Defined.

Inductive event :=
| Log (lvl : level) (msg : string)
| ImWrite (file : string) (img : mat)
| ImShow (win : string) (img : mat)
| DestroyAllWindows
| Printf (fmt : string) (args : list carg)
| DrawRectangle (x y w h : Z) (c : color) (thickness : Z)
| DrawText (fmt : string) (args : list carg) (x y : Z) (c : color) (font_size : Z)
| WriteImage (file : string)
| RuntimeCall (f : string)
| Inference (width height size : Z) (img : mat).

#[projections(primitive)]
Record io := Io { out : list event; keys : nat -> Z; keypos : nat }.

(** Perform an effect. *)
Definition emit (e : event) : M io unit :=
  fun s => (Ok tt, Io (out s ++ [e]) (keys s) (keypos s)).

(** [cv::waitKey(delay)]: the next result of the key stream. *)
Definition waitKey (delay : Z) : M io Z :=
  fun s => (Ok (keys s (keypos s)), Io (out s) (keys s) (S (keypos s))).

(** [exit(code)]. *)
Definition exit_ {A} (code : Z) : M io A := fun s => (Exit code, s).

Definition EXIT_FAILURE : Z := 1.

(** Run the monadic plumbing of a computation on a concrete state. *)
Ltac mrun := repeat progress (cbn [bind ret M_monad res_monad M_bind res_bind emit waitKey
                                   exit_ lift out keys keypos fst snd]; simpl).

(** Expose the first steps of a computation whose callees are opaque
    to [simpl]. *)
Ltac mstart := cbv zeta; cbn [bind M_monad]; unfold M_bind; cbv beta.

(** ** What a computation emits *)

(** [emits_only P c]: every run of [c] only appends events satisfying
    [P] to the trace, whatever its outcome. *)
Definition emits_only (P : event -> Prop) {A} (c : M io A) : Prop :=
  forall s, exists l, out (snd (c s)) = out s ++ l /\ Forall P l.

(** [returns Q c]: every normal return of [c] satisfies [Q]. *)
Definition returns {A} (Q : A -> Prop) (c : M io A) : Prop :=
  forall s a s', c s = (Ok a, s') -> Q a.

(** The effects of the camera class: logs, image files, windows. *)
Definition camera_event (e : event) : Prop :=
  match e with
  | Log _ _ | ImWrite _ _ | ImShow _ _ | DestroyAllWindows => True
  | _ => False
  end.

(** The effects of the drawing loop of [main]. *)
Definition drawing_event (e : event) : Prop :=
  match e with
  | Printf _ _ | DrawRectangle _ _ _ _ _ _ | DrawText _ _ _ _ _ _ => True
  | _ => False
  end.

Section EmitsOnly.
Variable P : event -> Prop.

Lemma emit_only e : P e -> emits_only P (emit e).
Proof. intros He s. exists [e]. split; [reflexivity | now constructor]. Qed.

Lemma waitKey_only d : emits_only P (waitKey d).
Proof. intros s. exists []. simpl. split; [now rewrite app_nil_r | constructor]. Qed.

Lemma ret_only {A} (a : A) : emits_only P (ret a).
Proof. intros s. exists []. simpl. split; [now rewrite app_nil_r | constructor]. Qed.

Lemma exit_only {A} n : emits_only P (@exit_ A n).
Proof. intros s. exists []. simpl. split; [now rewrite app_nil_r | constructor]. Qed.

Lemma lift_only {A} (r : res A) : emits_only P (lift r).
Proof. intros s. exists []. simpl. split; [now rewrite app_nil_r | constructor]. Qed.

Lemma bind_only {A B} (c : M io A) (k : A -> M io B) :
  emits_only P c -> (forall a, emits_only P (k a)) -> emits_only P (bind c k).
Proof.
  intros Hc Hk s. simpl. unfold M_bind. destruct (Hc s) as (l1 & E1 & F1).
  destruct (c s) as [[a| | |] s'] eqn:E; simpl in *; [|exists l1; auto..].
  pose proof (Hk a s') as (l2 & E2 & F2). exists (l1 ++ l2).
  rewrite E2, E1, app_assoc. split; [reflexivity | now apply Forall_app].
Qed.

Lemma only_weaken (Q : event -> Prop) {A} (c : M io A) :
  (forall e, P e -> Q e) -> emits_only P c -> emits_only Q c.
Proof.
  intros HPQ Hc s. destruct (Hc s) as (l & E & F). exists l. split; [exact E|].
  eapply Forall_impl; eauto.
Qed.

Lemma bind_only_post {A B} (Q : A -> Prop) (c : M io A) (k : A -> M io B) :
  emits_only P c -> returns Q c -> (forall a, Q a -> emits_only P (k a)) ->
  emits_only P (bind c k).
Proof.
  intros Hc HQ Hk s. simpl. unfold M_bind. destruct (Hc s) as (l1 & E1 & F1).
  destruct (c s) as [[a| | |] s'] eqn:E; simpl in *; [|exists l1; auto..].
  pose proof (Hk a (HQ _ _ _ E) s') as (l2 & E2 & F2). exists (l1 ++ l2).
  rewrite E2, E1, app_assoc. split; [reflexivity | now apply Forall_app].
Qed.

End EmitsOnly.

Lemma lift_returns {A} (r : res A) : returns (fun a => r = Ok a) (lift r).
Proof. intros s a s' E. now injection E as -> _. Qed.

(** Prove [emits_only] of straight-line code by its structure. *)
Ltac emits_tac :=
  repeat match goal with
  | |- emits_only _ (let _ := _ in _) => cbv zeta
  | |- emits_only _ (bind _ _) => apply bind_only; [|intros ?]
  | |- emits_only _ (if ?b then _ else _) => destruct b
  | |- emits_only _ (match ?x with _ => _ end) => destruct x
  | |- emits_only _ (emit _) => apply emit_only; simpl; auto
  | |- emits_only _ (ret _) => apply ret_only
  | |- emits_only _ (exit_ _) => apply exit_only
  | |- emits_only _ (lift _) => apply lift_only
  | |- emits_only _ (waitKey _) => apply waitKey_only
  end.

Create HintDb emits discriminated.
#[export] Hint Resolve emit_only waitKey_only ret_only exit_only lift_only bind_only : emits.

Lemma emit_run e s : emit e s = (Ok tt, Io (out s ++ [e]) (keys s) (keypos s)).
Proof. reflexivity. Qed.
