(* ===== verification/Format.v ===== *)
(** * The label of the drawing loop: [sprintf] into [char text[256]]

    Lines 98 and 111-112 of main.cc format each detection's label with
    [sprintf(text, "%s %.1f%%", name, prop * 100)] into a 256-byte stack
    buffer.  [sprintf] writes the whole string and its terminating NUL
    whatever the size of [text], so a label of 256 bytes or more is a
    write past the end of the array: undefined behaviour.

    [fixed1_len x] is the number of characters [printf("%.1f", x)]
    produces: a sign for a negative value, the decimal digits of the
    integer part of [|x|] rounded to one decimal (ties to even, as glibc
    rounds the exact value in the default rounding mode), the point and
    one digit.  The value is a rational: the rounding of the [float]
    product [prop * 100] is not modelled, which does not matter for the
    bound proved here since [100] and every smaller product are exact or
    rounded below [100]. *)

From Stdlib Require Import ZArith QArith Qround Qabs Lia String.
From S2P Require Import Prelude.

Open Scope Z_scope.

(** [q] rounded to the nearest integer, ties to even. *)
Definition round_even (q : Q) : Z :=
  let f := Qfloor q in
  match Qcompare (q - inject_Z f) (1 # 2) with
  | Lt => f
  | Gt => f + 1
  | Eq => if Z.even f then f else f + 1
  end.

(** The decimal digits of [n >= 0]; [fuel] bounds the recursion. *)
Fixpoint digits_fuel (fuel : nat) (n : Z) : Z :=
  match fuel with
  | O => 1
  | S f => if n <? 10 then 1 else 1 + digits_fuel f (n / 10)
  end.

(** A [double] is below [2^1024 < 10^309]: 320 steps are enough for the
    integer part of any value [printf] can be given. *)
Definition dec_digits (n : Z) : Z := digits_fuel 320 n.

(** The length of [printf("%.1f", x)]. *)
Definition fixed1_len (x : Q) : Z :=
  let tenths := round_even (Qabs x * 10) in
  (if Qle_bool 0 x then 0 else 1) + dec_digits (tenths / 10) + 2.

(** [char text[256]], line 98. *)
Definition TEXT_SIZE : Z := 256.

(** Lines 111-112: [sprintf(text, "%s %.1f%%", name, x)] returns the
    number of characters written, the NUL not counted; the write must
    fit [text]. *)
Definition sprintf_label (name : string) (x : Q) : res Z :=
  let n := Z.of_nat (String.length name) + 1 + fixed1_len x + 1 in
  if n + 1 <=? TEXT_SIZE then Ok n
  else Undefined "sprintf writes past the end of text[256]".

(** ** Lemmas *)

Lemma digits_fuel_le fuel k n :
  (1 <= k)%nat -> (k <= fuel)%nat -> 0 <= n < 10 ^ Z.of_nat k -> digits_fuel fuel n <= Z.of_nat k.
Proof.
  revert k n. induction fuel as [|fuel IH]; intros k n Hk Hkf Hn; [lia|].
  cbn [digits_fuel]. destruct (Z.ltb_spec n 10); [lia|].
  destruct k as [|[|k]]; [lia| simpl in Hn; lia|].
  assert (0 <= n / 10 < 10 ^ Z.of_nat (S k)).
  { rewrite Nat2Z.inj_succ, Z.pow_succ_r in Hn by lia.
    split; [apply Z.div_pos; lia|]. apply Z.div_lt_upper_bound; lia. }
  pose proof (IH (S k) (n / 10) ltac:(lia) ltac:(lia) H0). lia.
Qed.

Lemma dec_digits_3 n : 0 <= n <= 100 -> dec_digits n <= 3.
Proof. intros Hn. apply (digits_fuel_le 320 3); simpl; lia. Qed.

Lemma round_even_le (q : Q) (m : Z) : (q <= inject_Z m)%Q -> round_even q <= m.
Proof.
  intros Hq. unfold round_even.
  assert (Hf : Qfloor q <= m) by (apply Z.le_trans with (Qfloor (inject_Z m));
                                  [apply Qfloor_resp_le; exact Hq | rewrite Qfloor_Z; lia]).
  destruct (Z.eq_dec (Qfloor q) m) as [E|N]; [|destruct (_ ?= _)%Q; try destruct (Z.even _); lia].
  (* [q] is the integer [m] itself: its fractional part is 0 *)
  assert (Hfr : (q - inject_Z (Qfloor q) == 0)%Q).
  { pose proof (Qfloor_le q). rewrite E in *. apply Qle_antisym.
    - apply (Qplus_le_l _ _ (inject_Z m)). ring_simplify. exact Hq.
    - apply (Qplus_le_l _ _ (inject_Z m)). ring_simplify. exact H. }
  rewrite (Qcompare_comp _ _ Hfr _ _ (Qeq_refl (1 # 2))). simpl. lia.
Qed.

(** [Qabs] of a non-negative rational is that rational, not only [==] to it. *)
Lemma Qabs_nonneg_eq (x : Q) : (0 <= x)%Q -> Qabs x = x.
Proof.
  destruct x as [n d]. unfold Qle, Qabs. simpl. intros H. rewrite Z.abs_eq by lia. reflexivity.
Qed.

(** A percentage between 0 and 100 prints in at most 5 characters
    ("100.0"). *)
Lemma fixed1_len_percent (x : Q) : (0 <= x <= 100)%Q -> fixed1_len x <= 5.
Proof.
  intros [H0 H1]. unfold fixed1_len.
  replace (Qle_bool 0 x) with true by (symmetry; now apply Qle_bool_iff).
  rewrite Qabs_nonneg_eq by exact H0.
  assert (Ht : 0 <= round_even (x * 10) <= 1000).
  { split.
    - unfold round_even. pose proof (Qfloor_resp_le 0 (x * 10)) as Hf.
      assert (0 <= x * 10)%Q by (apply Qmult_le_0_compat; [exact H0 | discriminate]).
      specialize (Hf H). change (Qfloor 0) with 0 in Hf. destruct (_ ?= _)%Q; try destruct (Z.even _); lia.
    - apply round_even_le. change (inject_Z 1000) with (100 * 10)%Q.
      apply Qmult_le_compat_r; [exact H1 | discriminate]. }
  pose proof (dec_digits_3 (round_even (x * 10) / 10)
                ltac:(split; [apply Z.div_pos | apply Z.div_le_upper_bound]; lia)).
  lia.
Qed.

Lemma digits_fuel_pos fuel n : 1 <= digits_fuel fuel n.
Proof.
  revert n. induction fuel as [|fuel IH]; intros n; cbn [digits_fuel]; [lia|].
  destruct (n <? 10); [lia|]. specialize (IH (n / 10)). lia.
Qed.

(** Whatever the value, "%.1f" prints at least three characters. *)
Lemma fixed1_len_min (x : Q) : 3 <= fixed1_len x.
Proof.
  unfold fixed1_len, dec_digits. pose proof (digits_fuel_pos 320 (round_even (Qabs x * 10) / 10)).
  destruct (Qle_bool 0 x); lia.
Qed.

Lemma sprintf_label_fits name x :
  (0 <= x <= 100)%Q -> (String.length name <= 248)%nat ->
  exists n, sprintf_label name x = Ok n /\ n + 1 <= TEXT_SIZE.
Proof.
  intros Hx Hl. pose proof (fixed1_len_percent x Hx). unfold sprintf_label.
  rewrite (proj2 (Z.leb_le _ _)) by (unfold TEXT_SIZE; lia). eexists; split; [reflexivity|].
  unfold TEXT_SIZE; lia.
Qed.

Lemma sprintf_label_overflow name x :
  (251 <= String.length name)%nat -> sprintf_label name x = Undefined "sprintf writes past the end of text[256]".
Proof.
  intros Hl. pose proof (fixed1_len_min x). unfold sprintf_label.
  rewrite (proj2 (Z.leb_gt _ _)) by (unfold TEXT_SIZE; lia). reflexivity.
Qed.
