(* ===== verification/Capture.v ===== *)
(** * [cv::VideoCapture] as a state machine

    A capture is the device it was opened on, whether it is open, the
    properties set on it and the number of reads made so far.  The device
    says whether it can be opened, which FOURCC codes its driver honours,
    its default code, the result of its [n]-th grab (a decoded frame,
    or [None] for a failed grab), and the width, height and frame rate
    it settles on when asked for one.  The operations are those the camera
    class calls: construction by index with [CAP_V4L2], [isOpened], [set],
    [get], [operator>>] and [release].  [cap_step] runs one operation and
    [cap_reach] is its reflexive-transitive closure: a released capture
    stays released and only ever reads empty frames.

    [fourcc] is [cv::VideoWriter::fourcc]: four characters packed
    little-endian; the [int] value when the last one is below 128. *)

From Stdlib Require Import ZArith Lia String Ascii List.
From stdpp Require Import base decidable numbers.
From S2P Require Import Prelude Mat.

Import ListNotations.
Open Scope Z_scope.

Inductive cap_prop := CAP_PROP_FRAME_WIDTH | CAP_PROP_FRAME_HEIGHT | CAP_PROP_FPS | CAP_PROP_FOURCC.

#[export] Instance cap_prop_eq_dec : EqDecision cap_prop.
Proof. solve_decision. Defined.

(** [dev_adjust p v] is the value the driver settles on, and reports
    through [get], when it is asked for [v] in property [p] (width,
    height, frame rate): V4L2 drivers round an unsupported mode to the
    nearest one they have. *)
Record device := Device {
  dev_present : bool;
  dev_accepts_fourcc : Z -> bool;
  dev_default_fourcc : Z;
  dev_grab : nat -> option mat;
  dev_adjust : cap_prop -> Z -> Z
}.

(** A driver that has every mode it is asked for. *)
Definition exact_modes : cap_prop -> Z -> Z := fun _ v => v.

Record props := Props { p_width : Z; p_height : Z; p_fps : Z; p_fourcc : Z }.

Record capture := Capture {
  cap_dev : device;
  cap_opened : bool;
  cap_props : props;
  cap_pos : nat
}.


(** ** FOURCC codes *)

(** [VideoWriter::fourcc(c1, c2, c3, c4)]:
    [(c1 & 255) + ((c2 & 255) << 8) + ((c3 & 255) << 16) + ((c4 & 255) << 24)].
    The value is the [int] one when [c4] is below 128; above, the [int]
    shift overflows.  The program only packs "MJPG", whose last character
    is [G].  A device's own codes are V4L2 [__u32] values of the same
    layout, and [fourcc] also writes those. *)
Definition fourcc (c1 c2 c3 c4 : ascii) : Z :=
  let b (c : ascii) := Z.land (Z.of_nat (nat_of_ascii c)) 255 in
  b c1 + Z.shiftl (b c2) 8 + Z.shiftl (b c3) 16 + Z.shiftl (b c4) 24.

Definition MJPG : Z := fourcc "M" "J" "P" "G".

(** Byte [k] of a code. *)
Definition fourcc_byte (code : Z) (k : Z) : Z := Z.land (Z.shiftr code (8 * k)) 255.

(** ** Operations *)

(** [cv::VideoCapture(index, cv::CAP_V4L2)] on the device at [index]. *)
Definition capture_open (dev : device) : capture :=
  Capture dev (dev_present dev) (Props 0 0 0 (dev_default_fourcc dev)) 0.

Definition isOpened (c : capture) : bool := cap_opened c.

Definition set_prop (p : cap_prop) (v : Z) (q : props) : props :=
  match p with
  | CAP_PROP_FRAME_WIDTH => Props v (p_height q) (p_fps q) (p_fourcc q)
  | CAP_PROP_FRAME_HEIGHT => Props (p_width q) v (p_fps q) (p_fourcc q)
  | CAP_PROP_FPS => Props (p_width q) (p_height q) v (p_fourcc q)
  | CAP_PROP_FOURCC => Props (p_width q) (p_height q) (p_fps q) v
  end.

(** [capture.set(p, v)]: refused on a closed capture, and for a FOURCC the
    driver does not honour (the format in force is kept); a width, height
    or frame rate is negotiated with the driver, which keeps the value it
    settles on. *)
Definition cap_set (p : cap_prop) (v : Z) (c : capture) : bool * capture :=
  if negb (cap_opened c) then (false, c)
  else if bool_decide (p = CAP_PROP_FOURCC) then
    if dev_accepts_fourcc (cap_dev c) v
    then (true, Capture (cap_dev c) true (set_prop p v (cap_props c)) (cap_pos c))
    else (false, c)
  else (true, Capture (cap_dev c) true (set_prop p (dev_adjust (cap_dev c) p v) (cap_props c)) (cap_pos c)).

Definition get_prop (p : cap_prop) (q : props) : Z :=
  match p with
  | CAP_PROP_FRAME_WIDTH => p_width q
  | CAP_PROP_FRAME_HEIGHT => p_height q
  | CAP_PROP_FPS => p_fps q
  | CAP_PROP_FOURCC => p_fourcc q
  end.

(** [capture.get(p)]: what the driver reports, 0 on a closed capture. *)
Definition cap_get (p : cap_prop) (c : capture) : Z :=
  if cap_opened c then get_prop p (cap_props c) else 0.

(** [capture >> frame]: the next grab of the device, or an empty matrix
    when the grab fails or the capture is closed. *)
Definition cap_read (c : capture) : mat * capture :=
  if cap_opened c then
    let c' := Capture (cap_dev c) true (cap_props c) (S (cap_pos c)) in
    match dev_grab (cap_dev c) (cap_pos c) with
    | Some m => (m, c')
    | None => (empty_mat, c')
    end
  else (empty_mat, c).

(** [capture.release()]. *)
Definition cap_release (c : capture) : capture :=
  Capture (cap_dev c) false (cap_props c) (cap_pos c).

(** ** The state machine *)

Inductive cap_op := OpSet (p : cap_prop) (v : Z) | OpRead | OpRelease.

Definition cap_step (o : cap_op) (c : capture) : capture :=
  match o with
  | OpSet p v => snd (cap_set p v c)
  | OpRead => snd (cap_read c)
  | OpRelease => cap_release c
  end.

Inductive cap_reach : capture -> capture -> Prop :=
| cap_reach_refl c : cap_reach c c
| cap_reach_step c o c' : cap_reach (cap_step o c) c' -> cap_reach c c'.

(** ** Lemmas *)

Lemma cap_read_closed c : cap_opened c = false -> cap_read c = (empty_mat, c).
Proof. intros H. unfold cap_read. now rewrite H. Qed.

Lemma cap_set_closed p v c : cap_opened c = false -> cap_set p v c = (false, c).
Proof. intros H. unfold cap_set. now rewrite H. Qed.

Lemma cap_step_dev o c : cap_dev (cap_step o c) = cap_dev c.
Proof.
  destruct o; simpl; [unfold cap_set | unfold cap_read | reflexivity].
  - destruct (negb _); [reflexivity|]. destruct (bool_decide _); [destruct (dev_accepts_fourcc _ _)|]; reflexivity.
  - destruct (cap_opened c); [destruct (dev_grab _ _)|]; reflexivity.
Qed.

Lemma cap_step_closed o c : cap_opened c = false -> cap_opened (cap_step o c) = false.
Proof.
  intros H. destruct o; simpl.
  - now rewrite cap_set_closed.
  - now rewrite cap_read_closed.
  - reflexivity.
Qed.

Lemma cap_read_pos c :
  cap_opened c = true -> cap_pos (snd (cap_read c)) = S (cap_pos c).
Proof. intros H. unfold cap_read. rewrite H. now destruct (dev_grab _ _). Qed.

Lemma cap_read_frame c :
  cap_opened c = true ->
  fst (cap_read c) = match dev_grab (cap_dev c) (cap_pos c) with Some m => m | None => empty_mat end.
Proof. intros H. unfold cap_read. rewrite H. now destruct (dev_grab _ _). Qed.

Lemma cap_read_opened c : cap_opened (snd (cap_read c)) = cap_opened c.
Proof. unfold cap_read. destruct (cap_opened c) eqn:E; [now destruct (dev_grab _ _)|exact E]. Qed.

Lemma cap_read_dev c : cap_dev (snd (cap_read c)) = cap_dev c.
Proof. exact (cap_step_dev OpRead c). Qed.

Lemma cap_read_props c : cap_props (snd (cap_read c)) = cap_props c.
Proof. unfold cap_read. destruct (cap_opened c); [now destruct (dev_grab _ _)|reflexivity]. Qed.

Lemma cap_reach_trans a b c : cap_reach a b -> cap_reach b c -> cap_reach a c.
Proof. induction 1 as [a|a o b _ IH]; intros H; [exact H|]. eapply cap_reach_step, IH, H. Qed.

Lemma cap_reach_read c : cap_reach c (snd (cap_read c)).
Proof. apply (cap_reach_step c OpRead), cap_reach_refl. Qed.

(** Along the state machine the device never changes and the position
    never decreases. *)
Lemma cap_reach_dev_pos c c' :
  cap_reach c c' -> cap_dev c' = cap_dev c /\ (cap_pos c <= cap_pos c')%nat.
Proof.
  induction 1 as [c|c o c' _ [IHd IHp]]; [split; reflexivity|].
  rewrite cap_step_dev in IHd. split; [exact IHd|].
  enough ((cap_pos c <= cap_pos (cap_step o c))%nat) by lia.
  destruct o; simpl; [unfold cap_set | unfold cap_read | reflexivity].
  - destruct (negb _); [reflexivity|]. destruct (bool_decide _); [destruct (dev_accepts_fourcc _ _)|]; simpl; lia.
  - destruct (cap_opened c); [destruct (dev_grab _ _)|]; simpl; lia.
Qed.

#[export] Hint Resolve cap_read_closed cap_set_closed cap_step_closed : fisheye.

Lemma cap_step_closed_eq o c :
  cap_opened c = false -> cap_step o c = Capture (cap_dev c) false (cap_props c) (cap_pos c).
Proof.
  intros H. destruct c as [d op p n]; simpl in H; subst op.
  destruct o; simpl; [unfold cap_set | unfold cap_read |]; reflexivity.
Qed.

Lemma ascii_byte (a : ascii) : Z.land (Z.of_nat (nat_of_ascii a)) 255 = Z.of_nat (nat_of_ascii a).
Proof.
  pose proof (nat_ascii_bounded a).
  change 255 with (Z.ones 8). rewrite Z.land_ones by lia. apply Z.mod_small.
  change (2 ^ 8) with 256. lia.
Qed.

Lemma fourcc_arith c1 c2 c3 c4 :
  fourcc c1 c2 c3 c4 =
  Z.of_nat (nat_of_ascii c1) + 256 * (Z.of_nat (nat_of_ascii c2) +
  256 * (Z.of_nat (nat_of_ascii c3) + 256 * Z.of_nat (nat_of_ascii c4))).
Proof.
  unfold fourcc. rewrite !ascii_byte, !Z.shiftl_mul_pow2 by lia.
  change (2 ^ 8) with 256. change (2 ^ 16) with 65536. change (2 ^ 24) with 16777216. lia.
Qed.

(** The low byte and the rest of a little-endian number. *)
Lemma byte_split a x : 0 <= a < 256 -> (a + 256 * x) mod 256 = a /\ (a + 256 * x) / 256 = x.
Proof.
  intros Ha. rewrite Z.mul_comm. split.
  - rewrite Z.mod_add by lia. now apply Z.mod_small.
  - rewrite Z.div_add by lia. rewrite Z.div_small by lia. lia.
Qed.

Lemma ascii_range (a : ascii) : 0 <= Z.of_nat (nat_of_ascii a) < 256.
Proof. pose proof (nat_ascii_bounded a). lia. Qed.

Lemma fourcc_byte_div code k : 0 <= k -> fourcc_byte code k = (code / 2 ^ (8 * k)) mod 256.
Proof.
  intros Hk. unfold fourcc_byte. change 255 with (Z.ones 8).
  rewrite Z.land_ones, Z.shiftr_div_pow2 by lia. reflexivity.
Qed.

(** * Theorems *)

(** A released capture is a terminal state of the capture state
    machine: whatever operations follow, it stays closed on the same
    device at the same position, and every read yields an empty frame. *)
Theorem released_capture_terminal c c' :
  cap_reach c c' -> cap_opened c = false ->
  cap_opened c' = false /\ cap_dev c' = cap_dev c /\ cap_pos c' = cap_pos c /\
  cap_read c' = (empty_mat, c').
Proof.
  induction 1 as [c|c o c' _ IH]; intros Hc.
  - repeat split; auto. now apply cap_read_closed.
  - rewrite cap_step_closed_eq in IH by exact Hc. destruct (IH eq_refl) as (H1 & H2 & H3 & H4).
    repeat split; simpl in *; auto; congruence.
Qed.

(** [VideoWriter::fourcc] packs its four characters little-endian:
    byte [k] of the code is character [k + 1]. *)
Theorem fourcc_roundtrip c1 c2 c3 c4 :
  fourcc_byte (fourcc c1 c2 c3 c4) 0 = Z.of_nat (nat_of_ascii c1) /\
  fourcc_byte (fourcc c1 c2 c3 c4) 1 = Z.of_nat (nat_of_ascii c2) /\
  fourcc_byte (fourcc c1 c2 c3 c4) 2 = Z.of_nat (nat_of_ascii c3) /\
  fourcc_byte (fourcc c1 c2 c3 c4) 3 = Z.of_nat (nat_of_ascii c4).
Proof.
  rewrite !fourcc_byte_div, fourcc_arith by lia.
  change (2 ^ (8 * 0)) with 1. change (2 ^ (8 * 1)) with 256.
  change (2 ^ (8 * 2)) with (256 * 256). change (2 ^ (8 * 3)) with (256 * 256 * 256).
  rewrite Z.div_1_r, <- !Z.div_div by lia.
  pose proof (ascii_range c1) as H1. pose proof (ascii_range c2) as H2.
  pose proof (ascii_range c3) as H3. pose proof (ascii_range c4) as H4.
  set (a := Z.of_nat (nat_of_ascii c1)) in *. set (b := Z.of_nat (nat_of_ascii c2)) in *.
  set (c := Z.of_nat (nat_of_ascii c3)) in *. set (d := Z.of_nat (nat_of_ascii c4)) in *.
  destruct (byte_split a (b + 256 * (c + 256 * d)) H1) as [-> ->].
  destruct (byte_split b (c + 256 * d) H2) as [-> ->].
  destruct (byte_split c d H3) as [-> ->].
  repeat split; auto. now apply Z.mod_small.
Qed.

(** ** Witnesses *)

Lemma released_capture_terminal_witness :
  let c := cap_release (capture_open (Device true (fun _ => true) MJPG (fun _ => Some empty_mat) exact_modes)) in
  cap_opened (cap_step OpRead (cap_step (OpSet CAP_PROP_FPS 30) (cap_step OpRead c))) = false.
Proof.
  intros c. apply (released_capture_terminal c); [|reflexivity].
  apply (cap_reach_step c OpRead), (cap_reach_step _ (OpSet CAP_PROP_FPS 30)),
        (cap_reach_step _ OpRead), cap_reach_refl.
Defined.
