(* ===== verification/Letterbox.v ===== *)
(** * The letterbox of [FisheyeCamera::GetRgbFrame(int&&)]

    Lines 79-104 of fisheye_camera.cpp: the scaled width and height that
    keep the aspect ratio with the longer side equal to [desired_size]
    (C [int] arithmetic: the product can overflow, the quotient
    truncates), the bilinear resize, the black [desired_size] square, the
    centring offsets, the copy into the centred region and the
    conversion to RGB.  [scaled_w] and [scaled_h] are the same quantities
    in exact integer arithmetic; the theorems relate the two, bound them,
    and describe every pixel of the result. *)

From Stdlib Require Import ZArith Lia String Morphisms.
From stdpp Require Import base decidable numbers.
From S2P Require Import Prelude Mat OpenCV.

Open Scope Z_scope.

(** ** The geometry, as the code computes it *)

(** Lines 81-87: [(new_width, new_height)]. *)
Definition scaled_size (desired_size rows cols : Z) : res (Z * Z) :=
  if rows >? cols then
    do p <- c_mul cols desired_size;
    do new_width <- c_div p rows;
    ret (new_width, desired_size)
  else
    do p <- c_mul rows desired_size;
    do new_height <- c_div p cols;
    ret (desired_size, new_height).

(** Lines 97-98: [(x_offset, y_offset)]. *)
Definition offsets (desired_size new_width new_height : Z) : res (Z * Z) :=
  do dx <- c_sub desired_size new_width;
  do x_offset <- c_div dx 2;
  do dy <- c_sub desired_size new_height;
  do y_offset <- c_div dy 2;
  ret (x_offset, y_offset).

(** ** The same quantities in exact arithmetic *)

Definition scaled_w (d rows cols : Z) : Z := if rows >? cols then cols * d / rows else d.
Definition scaled_h (d rows cols : Z) : Z := if rows >? cols then d else rows * d / cols.

(** The product the code forms fits an [int]. *)
Definition no_overflow (d rows cols : Z) : Prop := Z.min rows cols * d <= INT_MAX.

(** The region the scaled image is copied to. *)
Definition content_rect (d rows cols : Z) : rect :=
  Rect ((d - scaled_w d rows cols) / 2) ((d - scaled_h d rows cols) / 2)
       (scaled_w d rows cols) (scaled_h d rows cols).

(** ** The image pipeline *)

Section Pipeline.
Context `{CvOps}.

(** Lines 79-104, from the undistorted image to the RGB square. *)
Definition letterbox (desired_size : Z) (undistortedImage : mat) : res mat :=
  do '(new_width, new_height) <- scaled_size desired_size (rows undistortedImage) (cols undistortedImage);
  do scaledImage <- resize undistortedImage new_width new_height;
  let squareImage := zeros desired_size desired_size in
  do '(x_offset, y_offset) <- offsets desired_size new_width new_height;
  do squareImage' <- copyTo_roi scaledImage squareImage
                      (Rect x_offset y_offset (cols scaledImage) (rows scaledImage));
  cvtColor_BGR2RGB squareImage'.

End Pipeline.

(** ** Inputs for the witnesses *)

(** A 1920x1080 frame, the constructor's size, and a 1x1000 strip. *)
Definition hd_img : mat := Mat 1080 1920 (fun _ _ => Pixel 1 2 3).
Definition tall_img : mat := Mat 1000 1 (fun _ _ => Pixel 1 2 3).

(** ** Lemmas on the geometry *)

Section Geometry.
Variables d rows cols : Z.
Hypothesis Hd : 0 < d.
Hypothesis Hr : 0 < rows.
Hypothesis Hc : 0 < cols.

Lemma scaled_bounds :
  0 <= scaled_w d rows cols <= d /\ 0 <= scaled_h d rows cols <= d.
Proof.
  unfold scaled_w, scaled_h. zcase; split; try lia.
  - split; [apply Z.div_pos|apply Z.div_le_upper_bound]; nia.
  - split; [apply Z.div_pos|apply Z.div_le_upper_bound]; nia.
Qed.

Lemma scaled_max : Z.max (scaled_w d rows cols) (scaled_h d rows cols) = d.
Proof.
  pose proof scaled_bounds as [Hw Hh]. revert Hw Hh. unfold scaled_w, scaled_h. zcase; lia.
Qed.

Lemma scaled_size_exact :
  no_overflow d rows cols ->
  scaled_size d rows cols = Ok (scaled_w d rows cols, scaled_h d rows cols).
Proof.
  unfold no_overflow, scaled_size, scaled_w, scaled_h. intros Hno.
  zcase; simpl.
  - rewrite c_mul_nonneg by nia. simpl. now rewrite c_div_nonneg by nia.
  - rewrite c_mul_nonneg by nia. simpl. now rewrite c_div_nonneg by nia.
Qed.

Lemma scaled_size_overflow :
  ~ no_overflow d rows cols ->
  scaled_size d rows cols = Undefined "signed integer overflow".
Proof.
  unfold no_overflow, scaled_size. intros Hno.
  zcase; simpl; unfold c_mul; rewrite c_int_undef; try reflexivity.
  - rewrite Z.min_r in Hno by lia. unfold INT_MIN, INT_MAX in *. nia.
  - rewrite Z.min_l in Hno by lia. unfold INT_MIN, INT_MAX in *. nia.
Qed.

End Geometry.

Lemma offsets_exact d nw nh :
  0 <= nw <= d -> 0 <= nh <= d -> d <= INT_MAX ->
  offsets d nw nh = Ok ((d - nw) / 2, (d - nh) / 2).
Proof.
  intros Hw Hh Hd. unfold offsets. simpl.
  rewrite c_sub_le by lia. simpl. rewrite c_div_nonneg by lia. simpl.
  rewrite c_sub_le by lia. simpl. now rewrite c_div_nonneg by lia.
Qed.

#[export] Hint Resolve scaled_size_exact offsets_exact : fisheye.

(** ** The letterboxed image *)

Section Image.
Context `{CvOps}.

Lemma content_rect_inside d rows cols :
  0 < d -> 0 < rows -> 0 < cols -> roi_inside (zeros d d) (content_rect d rows cols) = true.
Proof.
  intros Hd Hr Hc. pose proof (scaled_bounds d rows cols Hd Hr Hc) as [Hw Hh].
  apply roi_inside_spec. unfold content_rect; simpl.
  pose proof (half_split (d - scaled_w d rows cols)).
  pose proof (half_split (d - scaled_h d rows cols)). lia.
Qed.

(** Every pixel of the result, when no assertion fails. *)
Lemma letterbox_exact d img :
  0 < d <= INT_MAX -> 0 < rows img -> 0 < cols img -> no_overflow d (rows img) (cols img) ->
  0 < scaled_w d (rows img) (cols img) -> 0 < scaled_h d (rows img) (cols img) ->
  letterbox d img =
  Ok (Mat d d (fun r c =>
        let R := content_rect d (rows img) (cols img) in
        swap_rb (if in_rect R r c then resize_linear img (rh R) (rw R) (r - ry R) (c - rx R)
                 else black))).
Proof.
  intros Hd Hr Hc Hno Hw Hh. pose proof (scaled_bounds d _ _ (proj1 Hd) Hr Hc) as [Bw Bh].
  unfold letterbox. rewrite scaled_size_exact by (exact Hno || lia). simpl.
  rewrite resize_ok by (auto using mat_empty_false). simpl.
  rewrite offsets_exact by lia. simpl.
  pose proof (content_rect_inside d _ _ (proj1 Hd) Hr Hc) as Hin.
  unfold content_rect in Hin. rewrite copyTo_roi_ok by (simpl; auto). simpl.
  rewrite cvtColor_ok by (apply mat_empty_false; simpl; lia). reflexivity.
Qed.

(** Whatever the input, a letterbox that succeeds is [d] by [d]. *)
Lemma letterbox_dims d img out :
  letterbox d img = Ok out -> rows out = d /\ cols out = d.
Proof.
  unfold letterbox. simpl.
  destruct (scaled_size _ _ _) as [[nw nh]| | |]; simpl; try discriminate.
  destruct (resize img nw nh) as [sc| | |]; simpl; try discriminate.
  destruct (offsets d nw nh) as [[xo yo]| | |]; simpl; try discriminate.
  unfold copyTo_roi. destruct (roi_inside _ _); simpl; [|discriminate].
  unfold cvtColor_BGR2RGB.
  destruct (_ && _); simpl; destruct (mat_empty _); intros E; res_inv; simpl; auto.
Qed.

(** An image so elongated that its short side scales to 0 pixels fails
    the assertion of [cv::resize]. *)
Lemma letterbox_degenerate d img :
  0 < d -> 0 < rows img -> 0 < cols img -> no_overflow d (rows img) (cols img) ->
  (scaled_w d (rows img) (cols img) = 0 \/ scaled_h d (rows img) (cols img) = 0) ->
  letterbox d img = Abort "resize: inv_scale_x > 0".
Proof.
  intros Hd Hr Hc Hno H0. unfold letterbox. rewrite scaled_size_exact by (exact Hno || lia). simpl.
  rewrite resize_abort_dsize by (auto using mat_empty_false; lia). reflexivity.
Qed.

(** A letterbox that succeeds is the one of [letterbox_exact]. *)
Lemma letterbox_ok_inv d img out :
  0 < d <= INT_MAX -> 0 < rows img -> 0 < cols img -> no_overflow d (rows img) (cols img) ->
  letterbox d img = Ok out ->
  0 < scaled_w d (rows img) (cols img) /\ 0 < scaled_h d (rows img) (cols img) /\
  out = Mat d d (fun r c =>
          let R := content_rect d (rows img) (cols img) in
          swap_rb (if in_rect R r c then resize_linear img (rh R) (rw R) (r - ry R) (c - rx R)
                   else black)).
Proof.
  intros Hd Hr Hc Hno E.
  pose proof (scaled_bounds d _ _ (proj1 Hd) Hr Hc) as [Bw Bh].
  destruct (Z.eq_dec (scaled_w d (rows img) (cols img)) 0) as [W0|W0];
    [rewrite letterbox_degenerate in E by (first [lia | assumption | now left]); discriminate|].
  destruct (Z.eq_dec (scaled_h d (rows img) (cols img)) 0) as [H0|H0];
    [rewrite letterbox_degenerate in E by (first [lia | assumption | now right]); discriminate|].
  rewrite letterbox_exact in E by (auto; lia). injection E as <-. split; [lia|]. split; [lia|reflexivity].
Qed.

Context `{!CvLaws}.

#[export] Instance letterbox_proper : Proper (eq ==> (≡) ==> res_equiv (≡)) letterbox.
Proof.
  intros d ? <- a b Hab. unfold letterbox. simpl.
  rewrite (rows_proper a b Hab), (cols_proper a b Hab).
  destruct (scaled_size d (rows b) (cols b)) as [[nw nh]| | |]; simpl; [|reflexivity..].
  apply res_bind_equiv with (R := (≡)); [now apply resize_proper|].
  intros sa sb Hs. destruct (offsets d nw nh) as [[xo yo]| | |]; simpl; [|reflexivity..].
  rewrite (rows_proper sa sb Hs), (cols_proper sa sb Hs).
  apply res_bind_equiv with (R := (≡)); [now apply copyTo_roi_proper|].
  intros ta tb Ht. now apply cvtColor_proper.
Qed.

End Image.

(** * Theorems *)

Section LetterboxTheorems.
Context `{CvOps}.

(** C4. Every pixel of a successful letterbox: inside the content
    rectangle, the RGB of the resized image; everywhere else in the
    [d] by [d] square, black. *)
Theorem letterbox_pixels d img out :
  0 < d <= INT_MAX -> 0 < rows img -> 0 < cols img -> no_overflow d (rows img) (cols img) ->
  letterbox d img = Ok out ->
  rows out = d /\ cols out = d /\
  forall r c,
    let R := content_rect d (rows img) (cols img) in
    px out r c = if in_rect R r c
                 then swap_rb (resize_linear img (rh R) (rw R) (r - ry R) (c - rx R))
                 else black.
Proof.
  intros Hd Hr Hc Hno E. destruct (letterbox_ok_inv d img out Hd Hr Hc Hno E) as (_ & _ & ->).
  split; [reflexivity|]. split; [reflexivity|]. intros r c R. simpl.
  destruct (in_rect _ r c); reflexivity.
Qed.

End LetterboxTheorems.

(** C13. The offsets lines 97-98 compute from the scaled size of lines
    81-87 centre the scaled image in the square: it lies inside, one of
    its sides is the full side [d], and on each axis the left (top)
    margin is never larger than the right (bottom) one, and smaller by
    at most one pixel. *)
Theorem offsets_centred d rows cols :
  0 < d <= INT_MAX -> 0 < rows -> 0 < cols -> no_overflow d rows cols ->
  exists w h x y,
    scaled_size d rows cols = Ok (w, h) /\ offsets d w h = Ok (x, y) /\
    0 <= x /\ x + w <= d /\ 0 <= y /\ y + h <= d /\
    x <= d - (x + w) <= x + 1 /\ y <= d - (y + h) <= y + 1 /\
    (w = d \/ h = d).
Proof.
  intros Hd Hr Hc Hno. pose proof (scaled_bounds d rows cols (proj1 Hd) Hr Hc) as [Bw Bh].
  pose proof (scaled_max d rows cols (proj1 Hd) Hr Hc) as Hmax.
  pose proof (half_split (d - scaled_w d rows cols) ltac:(lia)).
  pose proof (half_split (d - scaled_h d rows cols) ltac:(lia)).
  exists (scaled_w d rows cols), (scaled_h d rows cols),
    ((d - scaled_w d rows cols) / 2), ((d - scaled_h d rows cols) / 2).
  rewrite scaled_size_exact, offsets_exact by (lia || assumption).
  split; [reflexivity|]. split; [reflexivity|]. lia.
Qed.

(** C14. The scaled size keeps the aspect ratio: the longer side becomes
    [d] and the shorter one is the exact scaled length rounded down. *)
Theorem scaled_size_aspect d rows cols :
  0 < d -> 0 < rows -> 0 < cols -> no_overflow d rows cols ->
  exists w h, scaled_size d rows cols = Ok (w, h) /\
    (cols < rows -> h = d /\ w * rows <= cols * d < (w + 1) * rows) /\
    (rows <= cols -> w = d /\ h * cols <= rows * d < (h + 1) * cols).
Proof.
  intros Hd Hr Hc Hno. rewrite scaled_size_exact by assumption.
  eexists _, _. split; [reflexivity|]. unfold scaled_w, scaled_h.
  pose proof (div_bracket (cols * d) rows Hr). pose proof (div_bracket (rows * d) cols Hc).
  split; intros Hlt; zcase; split; try lia.
Qed.

(** C15. With [desired_size = 640], the product [rows * 640] (or
    [cols * 640]) of lines 83 and 86 overflows exactly when the shorter
    side of the frame exceeds 3355443 pixels. *)
Theorem scaled_size_overflow_640 rows cols :
  0 < rows -> 0 < cols ->
  (scaled_size 640 rows cols = Undefined "signed integer overflow" <-> 3355443 < Z.min rows cols).
Proof.
  intros Hr Hc. destruct (Z_le_gt_dec (Z.min rows cols) 3355443) as [Hle|Hgt].
  - rewrite scaled_size_exact by (unfold no_overflow, INT_MAX; simpl; lia).
    split; [discriminate | lia].
  - rewrite scaled_size_overflow by (unfold no_overflow, INT_MAX; simpl; lia). split; [intros _; lia | reflexivity].
Qed.

Section Degenerate.
Context `{CvOps}.

(** C16. A frame more than 640 times taller than wide, or wider than
    tall, scales its short side to 0 pixels, and [cv::resize] aborts. *)
Theorem letterbox_aborts_elongated img :
  0 < rows img <= INT_MAX -> 0 < cols img <= INT_MAX ->
  (640 * cols img < rows img \/ 640 * rows img < cols img) ->
  letterbox 640 img = Abort "resize: inv_scale_x > 0".
Proof.
  intros Hr Hc Hel. apply letterbox_degenerate; try lia.
  - unfold no_overflow, INT_MAX in *. simpl in *. lia.
  - unfold scaled_w, scaled_h.
    zcase; [left; apply Z.div_small; lia | right; apply Z.div_small; lia].
Qed.

End Degenerate.

Section RoundTrip.
Context `{CvOps}.

(** C25. Reading the content rectangle back out of a successful
    letterbox through an ROI and converting it back from RGB gives, up to
    [≡], the image [cv::resize] produced on line 90: the padding and the
    conversion lose nothing. *)
Theorem letterbox_roi_roundtrip d img out :
  0 < d <= INT_MAX -> 0 < rows img -> 0 < cols img -> no_overflow d (rows img) (cols img) ->
  letterbox d img = Ok out ->
  let R := content_rect d (rows img) (cols img) in
  res_equiv (≡) (res_bind (roi out R) cvtColor_BGR2RGB) (resize img (rw R) (rh R)).
Proof.
  intros Hd Hr Hc Hno E R.
  destruct (letterbox_ok_inv d img out Hd Hr Hc Hno E) as (Hw & Hh & ->).
  pose proof (content_rect_inside d _ _ (proj1 Hd) Hr Hc) as Hin.
  unfold roi. replace (roi_inside _ R) with true by (symmetry; exact Hin). cbn [res_bind].
  rewrite cvtColor_ok by (apply mat_empty_false; exact Hh || exact Hw).
  rewrite resize_ok by (auto using mat_empty_false). cbn [res_equiv].
  split; [reflexivity|]. split; [reflexivity|]. intros r c [Br Bc]. cbn [rows cols px] in *.
  cbv zeta. fold R. rewrite swap_rb_involutive.
  replace (in_rect R (r + ry R) (c + rx R)) with true
    by (symmetry; apply in_rect_spec; unfold R, content_rect in *; simpl in *; lia).
  f_equal; lia.
Qed.

End RoundTrip.

(** ** Witnesses *)

#[local] Existing Instance cv_nearest.

Lemma letterbox_pixels_witness :
  let out := value_or empty_mat (letterbox 640 hd_img) in
  rows out = 640 /\ px out 10 300 = black /\ px out 200 300 = Pixel 3 2 1.
Proof.
  intros out.
  destruct (letterbox_pixels 640 hd_img out ltac:(unfold INT_MAX; simpl; lia) ltac:(simpl; lia)
              ltac:(simpl; lia) ltac:(unfold no_overflow, INT_MAX; simpl; lia) eq_refl) as (R & _ & P).
  pose proof (P 10 300) as P1. pose proof (P 200 300) as P2. cbv zeta in P1, P2.
  rewrite P1, P2. split; [exact R|]. vm_compute. split; reflexivity.
Defined.

Lemma offsets_centred_witness :
  exists w h x y, scaled_size 640 1080 1920 = Ok (w, h) /\ offsets 640 w h = Ok (x, y) /\ y = 140.
Proof.
  destruct (offsets_centred 640 1080 1920 ltac:(unfold INT_MAX; simpl; lia) ltac:(lia) ltac:(lia)
              ltac:(unfold no_overflow, INT_MAX; simpl; lia))
    as (w & h & x & y & Es & Eo & _).
  exists w, h, x, y. split; [exact Es|]. split; [exact Eo|].
  vm_compute in Es. injection Es as <- <-. vm_compute in Eo. injection Eo as _ <-. reflexivity.
Defined.

Lemma scaled_size_aspect_witness : exists w h, scaled_size 640 1080 1920 = Ok (w, h) /\ w = 640.
Proof.
  destruct (scaled_size_aspect 640 1080 1920 ltac:(lia) ltac:(lia) ltac:(lia)
              ltac:(unfold no_overflow, INT_MAX; simpl; lia)) as (w & h & E & _ & Hle).
  exists w, h. split; [exact E|]. apply Hle. lia.
Defined.

Lemma scaled_size_overflow_640_witness :
  scaled_size 640 3355444 4000000 = Undefined "signed integer overflow".
Proof. apply (scaled_size_overflow_640 3355444 4000000 ltac:(lia) ltac:(lia)). simpl. lia. Defined.

Lemma letterbox_aborts_elongated_witness : letterbox 640 tall_img = Abort "resize: inv_scale_x > 0".
Proof.
  apply letterbox_aborts_elongated; unfold INT_MAX; simpl; lia.
Defined.

Lemma letterbox_roi_roundtrip_witness :
  let out := value_or empty_mat (letterbox 640 hd_img) in
  res_equiv (≡) (res_bind (roi out (Rect 0 140 640 360)) cvtColor_BGR2RGB)
    (resize hd_img 640 360).
Proof.
  exact (letterbox_roi_roundtrip 640 hd_img _ ltac:(unfold INT_MAX; simpl; lia) ltac:(simpl; lia)
           ltac:(simpl; lia) ltac:(unfold no_overflow, INT_MAX; simpl; lia) eq_refl).
Defined.
