(* ===== verification/FisheyeCamera.v ===== *)
(** * The class [FisheyeCamera] (fisheye_camera.h, fisheye_camera.cpp)

    The object is its four members: the capture [capture_], the remap
    tables [map1_] and [map2_], and [size_].  Each method takes the object
    and returns it updated, in the monad [M io] of [Prelude] and [Io]
    (the destructor returns only the released capture: the object's
    lifetime ends):
    the constructor can [exit], every method can abort on a failed OpenCV
    assertion, and the effects (log lines, image files, windows) go to the
    trace.  [Refresh] loops until a grab fails or a key is pressed; it is
    given fuel, one unit per iteration, and returns [None] when the fuel
    runs out with the loop still running.

    [cam_wf] is the invariant the constructor establishes and every
    method keeps: non-empty tables of the size [size_].  [run_calls] runs
    a sequence of method calls, the way an owner of the object uses it. *)

From Stdlib Require Import ZArith QArith Lia String Ascii List Morphisms.
From stdpp Require Import base decidable numbers.
From S2P Require Import Prelude Mat OpenCV Io Capture Letterbox.

Import ListNotations.
Open Scope Z_scope.

Record fisheye_camera := FisheyeCameraObj {
  capture_ : capture;
  map1_ : fmat;
  map2_ : fmat;
  size_ : size
}.

Definition with_capture (self : fisheye_camera) (c : capture) : fisheye_camera :=
  FisheyeCameraObj c (map1_ self) (map2_ self) (size_ self).

(** The intrinsics both calls of lines 25-27 accept: a 3x3 [K], and a
    [D] that is empty or a row or column of four coefficients. *)
Definition intrinsics_ok (K D : dmat) : bool :=
  (drows K =? 3) && (dcols K =? 3) &&
  ((dtotal D =? 0) || (((drows D =? 1) || (dcols D =? 1)) && (dtotal D =? 4))).

Section Methods.
Context `{CvOps}.

(** [FisheyeCamera::FisheyeCamera(index, K, D)], lines 7-28: the device
    at [index] is [dev_at index]. *)
Definition FisheyeCamera_new (dev_at : Z -> device) (index : Z) (K D : dmat)
  : M io fisheye_camera :=
  let capture := capture_open (dev_at index) in
  let size_ := Size 1920 1080 in
  do _ <- emit (Log INFO "Instantiate a FisheyeCamera object");
  if negb (isOpened capture) then
    do _ <- emit (Log ERROR "Error opening video stream or file");
    exit_ EXIT_FAILURE
  else
    let c1 := snd (cap_set CAP_PROP_FRAME_WIDTH 1920 capture) in
    let c2 := snd (cap_set CAP_PROP_FRAME_HEIGHT 1080 c1) in
    let c3 := snd (cap_set CAP_PROP_FPS 30 c2) in
    let c4 := snd (cap_set CAP_PROP_FOURCC MJPG c3) in
    do fourcc <- lift (double_to_int (cap_get CAP_PROP_FOURCC c4));
    do _ <- (if negb (fourcc =? MJPG) then emit (Log WARN "Set video format failed")
             else ret tt);
    do newK <- lift (getOptimalNewCameraMatrix K D size_ 1 size_ false);
    do '(map1, map2) <- lift (fisheye_initUndistortRectifyMap K D (DMat 0 0 []) newK size_);
    ret (FisheyeCameraObj c4 map1 map2 size_).

(** [FisheyeCamera::~FisheyeCamera()], lines 30-34.  The object's
    lifetime ends with it: no object is returned, only the released
    capture, the state of the device the object leaves behind. *)
Definition FisheyeCamera_delete (self : fisheye_camera) : M io capture :=
  do _ <- emit (Log INFO "Release sources.");
  let capture := cap_release (capture_ self) in
  do _ <- emit DestroyAllWindows;
  ret capture.

(** [FisheyeCamera::Refresh()], lines 36-50, one unit of fuel per
    iteration of [while (true)]. *)
Fixpoint Refresh (fuel : nat) (self : fisheye_camera) : M io (option fisheye_camera) :=
  match fuel with
  | O => ret None
  | S fuel' =>
    let '(frame, c) := cap_read (capture_ self) in
    let self' := with_capture self c in
    if mat_empty frame then ret (Some self')
    else
      do undistortedImage <- lift (remap frame (map1_ self) (map2_ self));
      do _ <- emit (ImShow "Fisheye camera" undistortedImage);
      do key <- waitKey 1;
      if 0 <=? key then ret (Some self') else Refresh fuel' self'
  end.

(** [FisheyeCamera::GetRgbFrame()], lines 52-66: [None] is [nullptr]. *)
Definition GetRgbFrame (self : fisheye_camera) : M io (option mat * fisheye_camera) :=
  let '(frame, c) := cap_read (capture_ self) in
  let self' := with_capture self c in
  if mat_empty frame then
    do _ <- emit (Log WARN "frame is empty");
    ret (None, self')
  else
    do undistortedImage <- lift (remap frame (map1_ self) (map2_ self));
    do tmp <- lift (cvtColor_BGR2RGB undistortedImage);
    do _ <- emit (ImWrite "origin.png" frame);
    do _ <- emit (ImWrite "un.png" undistortedImage);
    ret (Some tmp, self').

(** [FisheyeCamera::GetRgbFrame(int&&)], lines 68-108.  The argument is
    not read: line 79 declares its own [desired_size = 640]. *)
Definition GetRgbFrame_n (derired_size : Z) (self : fisheye_camera)
  : M io (option mat * fisheye_camera) :=
  let '(frame, c) := cap_read (capture_ self) in
  let self' := with_capture self c in
  if mat_empty frame then
    do _ <- emit (Log WARN "frame is empty");
    ret (None, self')
  else
    do _ <- emit (ImWrite "111.png" frame);
    do undistortedImage <- lift (remap frame (map1_ self) (map2_ self));
    let desired_size := 640 in
    do tmp <- lift (letterbox desired_size undistortedImage);
    ret (Some tmp, self').

(** The calls an owner can make on a constructed object. *)
Inductive call :=
| CallRefresh (fuel : nat)
| CallGetRgbFrame
| CallGetRgbFrameN (n : Z).

Definition run_call (k : call) (self : fisheye_camera) : M io fisheye_camera :=
  match k with
  | CallRefresh fuel =>
      do r <- Refresh fuel self;
      ret (match r with Some s => s | None => self end)
  | CallGetRgbFrame => do '(_, s) <- GetRgbFrame self; ret s
  | CallGetRgbFrameN n => do '(_, s) <- GetRgbFrame_n n self; ret s
  end.

Fixpoint run_calls (ks : list call) (self : fisheye_camera) : M io fisheye_camera :=
  match ks with
  | [] => ret self
  | k :: ks' => do s <- run_call k self; run_calls ks' s
  end.

(** The undistorted frame, on a well-formed object. *)
Definition undistort (self : fisheye_camera) (frame : mat) : mat :=
  Mat (frows (map1_ self)) (fcols (map1_ self))
      (fun r c => sample_linear frame (fpx (map1_ self) r c) (fpx (map2_ self) r c)).

End Methods.

(** ** The object invariant *)

Definition cam_wf (self : fisheye_camera) : Prop :=
  fmat_empty (map1_ self) = false /\
  frows (map1_ self) = height (size_ self) /\ fcols (map1_ self) = width (size_ self) /\
  frows (map2_ self) = height (size_ self) /\ fcols (map2_ self) = width (size_ self).

(** The tables and the size, which no method may change. *)
Definition tables (self : fisheye_camera) : fmat * fmat * size :=
  (map1_ self, map2_ self, size_ self).

(** The grab at position [i] of a device yields a non-empty frame. *)
Definition grab_ok (dev : device) (i : nat) : bool :=
  match dev_grab dev i with Some m => negb (mat_empty m) | None => false end.

(** The frame the next grab of the object yields. *)
Definition grabbed (self : fisheye_camera) : mat := fst (cap_read (capture_ self)).

(** The frame a [GetRgbFrame] outcome returns. *)
Definition frame_of (r : res (option mat * fisheye_camera)) : mat :=
  match r with Ok (Some m, _) => m | _ => empty_mat end.

(** The value part of a method's outcome. *)
Definition result_of {A B} (r : res (A * B)) : res A := res_bind r (fun p => Ok (fst p)).

(** Iteration [i] of [Refresh] (counted from the current state) leaves
    the loop: its grab fails, or [waitKey] returns a key. *)
Definition refresh_stops (self : fisheye_camera) (s : io) (i : nat) : bool :=
  negb (grab_ok (cap_dev (capture_ self)) (cap_pos (capture_ self) + i))
  || (0 <=? keys s (keypos s + i)).

(** The frame [GetRgbFrame(int&&)] returns on tables of size 1920x1080:
    the 640x360 resize of the undistorted frame in rows 140 to 499, black
    elsewhere, in RGB. *)
Definition letterboxed `{CvOps} (self : fisheye_camera) (frame : mat) : mat :=
  Mat 640 640 (fun r c =>
    swap_rb (if in_rect (Rect 0 140 640 360) r c
             then resize_linear (undistort self frame) 360 640 (r - 140) (c - 0)
             else black)).

(** No iteration before the [n]-th leaves the loop. *)
Definition no_stop_before (self : fisheye_camera) (s : io) (n : nat) : bool :=
  forallb (fun i => negb (refresh_stops self s i)) (seq 0 n).

(** The frame iteration [i] of [Refresh] (counted from the current
    state) grabs. *)
Definition grab_at (self : fisheye_camera) (i : nat) : mat :=
  match dev_grab (cap_dev (capture_ self)) (cap_pos (capture_ self) + i) with
  | Some m => m
  | None => empty_mat
  end.

(** The windows the first [n] iterations of [Refresh] show (line 45). *)
Definition refresh_shows `{CvOps} (self : fisheye_camera) (n : nat) : list event :=
  map (fun i => ImShow "Fisheye camera" (undistort self (grab_at self i))) (seq 0 n).

(** The number of iterations that show a frame when iteration [n] is the
    first to leave the loop: it shows one too when its grab succeeded and
    the loop is left on a key. *)
Definition shown_until (self : fisheye_camera) (n : nat) : nat :=
  n + (if grab_ok (cap_dev (capture_ self)) (cap_pos (capture_ self) + n) then 1 else 0).

(** ** A concrete setup, used by the witnesses *)

(** A uniformly gray 1920x1080 BGR frame. *)
Definition gray_frame : mat := Mat 1080 1920 (fun _ _ => Pixel 128 128 128).

(** A device whose first [n_ok] grabs yield [f] and whose later grabs fail. *)
Definition stream_device (n_ok : nat) (f : mat) : device :=
  Device true (fun _ => true) MJPG (fun i => if Nat.ltb i n_ok then Some f else None) exact_modes.

(** A device that never stops delivering [f]. *)
Definition endless_device (f : mat) : device :=
  Device true (fun _ => true) MJPG (fun _ => Some f) exact_modes.

(** Identity tables of the constructor's size. *)
Definition id_map1 : fmat := FMat 1080 1920 (fun _ c => inject_Z c).
Definition id_map2 : fmat := FMat 1080 1920 (fun r _ => inject_Z r).

Definition demo_cam (n_ok : nat) (f : mat) : fisheye_camera :=
  FisheyeCameraObj (capture_open (stream_device n_ok f)) id_map1 id_map2 (Size 1920 1080).

Definition endless_cam : fisheye_camera :=
  FisheyeCameraObj (capture_open (endless_device gray_frame)) id_map1 id_map2 (Size 1920 1080).

(** A 1280x720 frame, smaller than the tables. *)
Definition small_frame : mat := Mat 720 1280 (fun _ _ => Pixel 10 20 30).

(** A camera matrix and four fisheye coefficients of the right shapes. *)
Definition demo_K : dmat := DMat 3 3 [500; 0; 960; 0; 500; 540; 0; 0; 1]%Q.
Definition demo_D : dmat := DMat 4 1 [0; 0; 0; 0]%Q.

(** A device whose driver refuses MJPG and keeps a code with its top
    bit set. *)
Definition high_fourcc_device : device :=
  Device true (fun _ => false) (fourcc "Y" "U" "Y" (ascii_of_nat 200)) (fun _ => Some gray_frame) exact_modes.

(** A device whose driver has no 1920x1080 mode and settles on 1280x720
    at 25 frames per second. *)
Definition hd720_device : device :=
  Device true (fun _ => true) MJPG (fun _ => Some small_frame)
    (fun p v => match p with
                | CAP_PROP_FRAME_WIDTH => 1280
                | CAP_PROP_FRAME_HEIGHT => 720
                | CAP_PROP_FPS => 25
                | CAP_PROP_FOURCC => v
                end).

(** A device whose driver refuses MJPG and keeps YUYV. *)
Definition yuyv_device : device :=
  Device true (fun _ => false) (fourcc "Y" "U" "Y" "V") (fun _ => Some gray_frame) exact_modes.

(** No key is ever pressed; [key_at n] presses one at the [n]-th call. *)
Definition io_nokey : io := Io [] (fun _ => -1) 0.
Definition io_key_at (n : nat) : io := Io [] (fun i => if Nat.eqb i n then 27 else -1) 0.

(** ** Unfolding lemmas *)

(** Run the constructor up to its first case split: whether the device
    opened. *)
Ltac ctor_open := unfold FisheyeCamera_new, isOpened, capture_open, cap_set, cap_get; mrun.

Section Lemmas.
Context `{CvOps}.

Lemma wf_remap self frame :
  cam_wf self ->
  remap frame (map1_ self) (map2_ self) =
  Ok (Mat (frows (map1_ self)) (fcols (map1_ self))
         (fun r c => sample_linear frame (fpx (map1_ self) r c) (fpx (map2_ self) r c))).
Proof. intros (He & Hr & Hc & Hr2 & Hc2). apply remap_ok; congruence. Qed.

Lemma GetRgbFrame_n_empty n self s :
  mat_empty (grabbed self) = true ->
  GetRgbFrame_n n self s =
  (Ok (None, with_capture self (snd (cap_read (capture_ self)))),
   Io (out s ++ [Log WARN "frame is empty"]) (keys s) (keypos s)).
Proof.
  unfold GetRgbFrame_n, grabbed. destruct (cap_read _) as [frame c]; simpl.
  intros E. now rewrite E.
Qed.

Lemma GetRgbFrame_n_grab n self s :
  cam_wf self -> mat_empty (grabbed self) = false ->
  GetRgbFrame_n n self s =
  (res_bind (letterbox 640 (undistort self (grabbed self)))
            (fun tmp => Ok (Some tmp, with_capture self (snd (cap_read (capture_ self))))),
   Io (out s ++ [ImWrite "111.png" (grabbed self)]) (keys s) (keypos s)).
Proof.
  intros Hwf. unfold GetRgbFrame_n, grabbed. destruct (cap_read _) as [frame c]; simpl.
  intros E. rewrite E. simpl. unfold M_bind; simpl.
  rewrite wf_remap by exact Hwf. simpl.
  now destruct (letterbox 640 _).
Qed.

Lemma GetRgbFrame_empty self s :
  mat_empty (grabbed self) = true ->
  GetRgbFrame self s =
  (Ok (None, with_capture self (snd (cap_read (capture_ self)))),
   Io (out s ++ [Log WARN "frame is empty"]) (keys s) (keypos s)).
Proof.
  unfold GetRgbFrame, grabbed. destruct (cap_read _) as [frame c]; simpl.
  intros E. now rewrite E.
Qed.

Lemma GetRgbFrame_grab self s :
  cam_wf self -> mat_empty (grabbed self) = false ->
  0 < frows (map1_ self) -> 0 < fcols (map1_ self) ->
  GetRgbFrame self s =
  (Ok (Some (Mat (frows (map1_ self)) (fcols (map1_ self))
               (fun r c => swap_rb (sample_linear (grabbed self) (fpx (map1_ self) r c) (fpx (map2_ self) r c)))),
       with_capture self (snd (cap_read (capture_ self)))),
   Io (out s ++ [ImWrite "origin.png" (grabbed self);
                 ImWrite "un.png" (undistort self (grabbed self))]) (keys s) (keypos s)).
Proof.
  intros Hwf. unfold GetRgbFrame, grabbed, undistort. destruct (cap_read _) as [frame c]; simpl.
  intros E Hr Hc. rewrite E. unfold M_bind; simpl.
  rewrite wf_remap by exact Hwf. simpl.
  rewrite cvtColor_ok by (apply mat_empty_false; simpl; lia). simpl.
  now rewrite <- app_assoc.
Qed.

(** A method only moves the capture along its state machine, by reads;
    the rest of the object is untouched. *)
Lemma Refresh_frame fuel self s self' s' :
  Refresh fuel self s = (Ok (Some self'), s') ->
  exists c, self' = with_capture self c /\ cap_reach (capture_ self) c.
Proof.
  revert self s. induction fuel as [|fuel IH]; intros self s; simpl; [intros E; now res_inv|].
  pose proof (cap_reach_read (capture_ self)) as Hr.
  destruct (cap_read (capture_ self)) as [frame c]; simpl in Hr.
  destruct (mat_empty frame); simpl; [intros E; res_inv; eauto|].
  unfold M_bind; simpl. destruct (remap _ _ _) as [u| | |]; simpl; try (intros E; now res_inv).
  destruct (0 <=? keys s (keypos s)); simpl; [intros E; res_inv; eauto|].
  intros E. destruct (IH _ _ E) as (c' & -> & Hc'). exists c'. split; [reflexivity|].
  exact (cap_reach_trans _ _ _ Hr Hc').
Qed.

Lemma Refresh_tables fuel self s self' s' :
  Refresh fuel self s = (Ok (Some self'), s') -> tables self' = tables self.
Proof. intros E. now destruct (Refresh_frame _ _ _ _ _ E) as (c & -> & _). Qed.

Lemma run_call_frame k self s self' s' :
  run_call k self s = (Ok self', s') ->
  exists c, self' = with_capture self c /\ cap_reach (capture_ self) c.
Proof.
  pose proof (cap_reach_read (capture_ self)) as Hr.
  destruct k as [fuel| |n]; simpl; unfold M_bind.
  - destruct (Refresh fuel self s) as [[[r|]| | |] s1] eqn:E; simpl; intros E'; res_inv;
      [eapply Refresh_frame; eauto|].
    match goal with |- exists c, ?x = with_capture ?x c /\ _ =>
      exists (capture_ x); split; [now destruct x | apply cap_reach_refl] end.
  - unfold GetRgbFrame. destruct (cap_read _) as [frame c]; simpl in Hr.
    destruct (mat_empty frame); simpl; [intros E; res_inv; eauto|].
    unfold M_bind; simpl. destruct (remap _ _ _) as [u| | |]; simpl; try (intros E; now res_inv).
    destruct (cvtColor_BGR2RGB u); simpl; intros E; res_inv; eauto.
  - unfold GetRgbFrame_n. destruct (cap_read _) as [frame c]; simpl in Hr.
    destruct (mat_empty frame); simpl; [intros E; res_inv; eauto|].
    unfold M_bind; simpl. destruct (remap _ _ _) as [u| | |]; simpl; try (intros E; now res_inv).
    destruct (letterbox 640 u); simpl; intros E; res_inv; eauto.
Qed.

(** The value [GetRgbFrame(int&&)] returns depends on the next frame and
    the tables only. *)
Lemma GetRgbFrame_n_result n self s :
  result_of (fst (GetRgbFrame_n n self s)) =
  if mat_empty (grabbed self) then Ok None
  else res_bind (remap (grabbed self) (map1_ self) (map2_ self))
         (fun u => res_bind (letterbox 640 u) (fun t => Ok (Some t))).
Proof.
  unfold GetRgbFrame_n, grabbed. destruct (cap_read _) as [frame c]; simpl.
  destruct (mat_empty frame); simpl; [reflexivity|]. unfold M_bind; simpl.
  destruct (remap _ _ _) as [u| | |]; simpl; try reflexivity.
  now destruct (letterbox 640 u).
Qed.

(** A successful call leaves the object with the capture one read on. *)
Lemma GetRgbFrame_n_next n self s r self' s' :
  GetRgbFrame_n n self s = (Ok (r, self'), s') ->
  self' = with_capture self (snd (cap_read (capture_ self))).
Proof.
  unfold GetRgbFrame_n. destruct (cap_read _) as [frame c]; simpl; unfold M_bind.
  destruct (mat_empty frame); simpl; [intros E; now res_inv|].
  destruct (remap _ _ _) as [u| | |]; simpl; try (intros E; now res_inv).
  destruct (letterbox 640 u); simpl; intros E; now res_inv.
Qed.

Lemma run_call_tables k self s self' s' :
  run_call k self s = (Ok self', s') -> tables self' = tables self.
Proof. intros E. now destruct (run_call_frame _ _ _ _ _ E) as (c & -> & _). Qed.

Lemma grabbed_empty self :
  cap_opened (capture_ self) = false \/ grab_ok (cap_dev (capture_ self)) (cap_pos (capture_ self)) = false ->
  mat_empty (grabbed self) = true.
Proof.
  unfold grabbed, grab_ok, cap_read. intros [E|E]; rewrite ?E; [reflexivity|].
  destruct (cap_opened _); [|reflexivity].
  destruct (dev_grab _ _); simpl; [|reflexivity]. now apply negb_false_iff.
Qed.

Lemma grabbed_ok self :
  cap_opened (capture_ self) = true -> grab_ok (cap_dev (capture_ self)) (cap_pos (capture_ self)) = true ->
  mat_empty (grabbed self) = false.
Proof.
  unfold grabbed, grab_ok, cap_read. intros E1 E2. rewrite E1.
  destruct (dev_grab _ _); simpl; [|discriminate]. now apply negb_true_iff.
Qed.

(** One iteration of [Refresh] that neither fails to grab nor sees a key. *)
Lemma Refresh_step fuel self s :
  cam_wf self -> cap_opened (capture_ self) = true -> refresh_stops self s 0 = false ->
  Refresh (S fuel) self s =
  Refresh fuel (with_capture self (snd (cap_read (capture_ self))))
          (Io (out s ++ [ImShow "Fisheye camera" (undistort self (grabbed self))]) (keys s) (S (keypos s))).
Proof.
  intros Hwf Ho Hs. unfold refresh_stops in Hs. rewrite !Nat.add_0_r in Hs.
  apply orb_false_iff in Hs as [Hg Hk]. apply negb_false_iff in Hg.
  pose proof (grabbed_ok self Ho Hg) as Hne. unfold grabbed in *.
  simpl. destruct (cap_read (capture_ self)) as [frame c]; simpl in *.
  rewrite Hne. unfold M_bind; simpl. rewrite wf_remap by exact Hwf. simpl.
  rewrite Hk. reflexivity.
Qed.

Lemma grabbed_grab_at self :
  cap_opened (capture_ self) = true -> grabbed self = grab_at self 0.
Proof. intros Ho. unfold grabbed, grab_at. rewrite cap_read_frame, Nat.add_0_r by exact Ho. reflexivity. Qed.

Lemma grab_at_shift self i :
  cap_opened (capture_ self) = true ->
  grab_at (with_capture self (snd (cap_read (capture_ self)))) i = grab_at self (S i).
Proof. intros Ho. unfold grab_at. simpl. rewrite cap_read_dev, cap_read_pos by exact Ho. now rewrite Nat.add_succ_r. Qed.

Lemma refresh_shows_S self n :
  cap_opened (capture_ self) = true ->
  refresh_shows self (S n) =
  ImShow "Fisheye camera" (undistort self (grabbed self)) ::
  refresh_shows (with_capture self (snd (cap_read (capture_ self)))) n.
Proof.
  intros Ho. unfold refresh_shows. rewrite grabbed_grab_at by exact Ho. cbn [seq map]. f_equal.
  rewrite <- seq_shift, map_map. apply map_ext. intros i. now rewrite grab_at_shift.
Qed.

(** The iteration that leaves the loop: a failed grab shows nothing, a
    key press after a good grab shows that frame. *)
Lemma Refresh_stop fuel self s :
  cam_wf self -> cap_opened (capture_ self) = true -> refresh_stops self s 0 = true ->
  Refresh (S fuel) self s =
  (Ok (Some (with_capture self (snd (cap_read (capture_ self))))),
   Io (out s ++ refresh_shows self (shown_until self 0)) (keys s) (keypos s + shown_until self 0)).
Proof.
  intros Hwf Ho Hs. unfold refresh_stops, shown_until in *. rewrite !Nat.add_0_r in *.
  destruct (grab_ok _ _) eqn:Hg; simpl in Hs.
  - pose proof (grabbed_ok self Ho Hg) as Hne. change (0 + 1)%nat with 1%nat.
    rewrite (refresh_shows_S self 0 Ho). unfold grabbed in *. simpl.
    destruct (cap_read (capture_ self)) as [frame c]; simpl in *.
    rewrite Hne. unfold M_bind; simpl. rewrite wf_remap by exact Hwf. simpl.
    rewrite Hs. now rewrite Nat.add_1_r.
  - pose proof (grabbed_empty self (or_intror Hg)) as He. unfold grabbed in He.
    simpl. destruct (cap_read (capture_ self)) as [frame c]; simpl in *. rewrite He.
    cbn. now rewrite app_nil_r, Nat.add_0_r.
Qed.

Lemma refresh_stops_shift self s i :
  cap_opened (capture_ self) = true ->
  refresh_stops (with_capture self (snd (cap_read (capture_ self))))
                (Io (out s ++ [ImShow "Fisheye camera" (undistort self (grabbed self))]) (keys s) (S (keypos s))) i =
  refresh_stops self s (S i).
Proof.
  intros Ho. unfold refresh_stops. simpl.
  rewrite cap_read_dev, cap_read_pos by exact Ho. now rewrite !Nat.add_succ_r.
Qed.

Lemma no_stop_before_spec self s n :
  no_stop_before self s n = true <-> forall i, (i < n)%nat -> refresh_stops self s i = false.
Proof.
  unfold no_stop_before. rewrite forallb_forall. split.
  - intros Hall i Hi. apply negb_true_iff, Hall, in_seq. lia.
  - intros Hall i Hi. apply in_seq in Hi. apply negb_true_iff, Hall. lia.
Qed.

Lemma shown_until_shift self n :
  cap_opened (capture_ self) = true ->
  shown_until (with_capture self (snd (cap_read (capture_ self)))) n = (shown_until self (S n) - 1)%nat /\
  (1 <= shown_until self (S n))%nat.
Proof.
  intros Ho. unfold shown_until. simpl. rewrite cap_read_dev, cap_read_pos by exact Ho.
  rewrite Nat.add_succ_r. destruct (grab_ok _ _); lia.
Qed.

Lemma cam_wf_with_capture self c : cam_wf (with_capture self c) <-> cam_wf self.
Proof. reflexivity. Qed.

(** The run of [Refresh] whose iteration [n] is the first to leave the
    loop: the windows shown, the keys read, the frames consumed. *)
Lemma Refresh_run n fuel self s :
  cam_wf self -> cap_opened (capture_ self) = true ->
  refresh_stops self s n = true -> (forall i, (i < n)%nat -> refresh_stops self s i = false) ->
  (n < fuel)%nat ->
  exists self',
    Refresh fuel self s =
      (Ok (Some self'),
       Io (out s ++ refresh_shows self (shown_until self n)) (keys s) (keypos s + shown_until self n)) /\
    cap_pos (capture_ self') = (cap_pos (capture_ self) + S n)%nat /\ tables self' = tables self.
Proof.
  induction n as [|n IH] in fuel, self, s |- *; intros Hwf Ho Hn Hbefore Hf;
    (destruct fuel as [|fuel]; [lia|]).
  - rewrite Refresh_stop by assumption. eexists; split; [reflexivity|].
    simpl. rewrite cap_read_pos by exact Ho. split; [lia|reflexivity].
  - rewrite Refresh_step by (auto; apply Hbefore; lia).
    assert (Ho' : cap_opened (capture_ (with_capture self (snd (cap_read (capture_ self))))) = true)
      by (simpl; now rewrite cap_read_opened).
    destruct (IH fuel (with_capture self (snd (cap_read (capture_ self))))
                (Io (out s ++ [ImShow "Fisheye camera" (undistort self (grabbed self))]) (keys s) (S (keypos s)))
                ltac:(now apply cam_wf_with_capture) Ho'
                ltac:(now rewrite refresh_stops_shift)
                ltac:(intros i Hi; rewrite refresh_stops_shift by exact Ho; apply Hbefore; lia)
                ltac:(lia)) as (self' & E & Hp & Ht).
    destruct (shown_until_shift self n Ho) as [Hk Hk1].
    exists self'. split; [|split].
    + rewrite E, Hk. destruct (shown_until self (S n)) as [|k] eqn:Ek; [lia|].
      rewrite (refresh_shows_S self k Ho). cbn [out keys keypos]. rewrite Nat.sub_1_r. simpl Nat.pred.
      rewrite <- app_assoc. f_equal. f_equal. lia.
    + rewrite Hp. simpl. rewrite cap_read_pos by exact Ho. lia.
    + rewrite Ht. reflexivity.
Qed.

Lemma GetRgbFrame_n_returns n self :
  returns (fun r : option mat * fisheye_camera =>
             forall out, fst r = Some out -> rows out = 640 /\ cols out = 640)
          (GetRgbFrame_n n self).
Proof.
  intros s [tmp o] s'. unfold GetRgbFrame_n. destruct (cap_read _) as [frame c].
  destruct (mat_empty frame); mrun; [intros E; inversion E; discriminate|].
  destruct (remap _ _ _) as [u| | |]; mrun; try (intros E; inversion E; fail).
  destruct (letterbox 640 u) as [sq| | |] eqn:L; mrun; intros E; inversion E; subst.
  intros out' [= <-]. eapply letterbox_dims; eauto.
Qed.

(** [intrinsics_ok] is the conjunction of the assertions of
    [getOptimalNewCameraMatrix] and of the first assertion of
    [fisheye::initUndistortRectifyMap]. *)
Lemma intrinsics_ok_split K D :
  intrinsics_ok K D =
  (drows K =? 3) && (dcols K =? 3) && dist_coeffs_ok D && ((dtotal D =? 0) || (dtotal D =? 4)).
Proof.
  unfold intrinsics_ok, dist_coeffs_ok. cbn [existsb].
  destruct (drows K =? 3), (dcols K =? 3); simpl; [|reflexivity..].
  destruct (dtotal D =? 0), (dtotal D =? 4), (drows D =? 1), (dcols D =? 1),
    (dtotal D =? 5), (dtotal D =? 8), (dtotal D =? 12), (dtotal D =? 14); reflexivity.
Qed.

Lemma FisheyeCamera_new_exit dev_at index K D s :
  dev_present (dev_at index) = false ->
  FisheyeCamera_new dev_at index K D s =
  (Exit EXIT_FAILURE,
   Io (out s ++ [Log INFO "Instantiate a FisheyeCamera object";
                 Log ERROR "Error opening video stream or file"]) (keys s) (keypos s)).
Proof.
  intros Hp. unfold FisheyeCamera_new, isOpened, capture_open. mrun. rewrite Hp. mrun.
  now rewrite <- app_assoc.
Qed.

Lemma FisheyeCamera_delete_run self s :
  FisheyeCamera_delete self s =
  (Ok (cap_release (capture_ self)),
   Io (out s ++ [Log INFO "Release sources."; DestroyAllWindows]) (keys s) (keypos s)).
Proof. unfold FisheyeCamera_delete. mrun. now rewrite <- app_assoc. Qed.

Lemma GetRgbFrame_n_1080p n self s :
  cam_wf self -> size_ self = Size 1920 1080 ->
  cap_opened (capture_ self) = true -> grab_ok (cap_dev (capture_ self)) (cap_pos (capture_ self)) = true ->
  GetRgbFrame_n n self s =
  (Ok (Some (letterboxed self (grabbed self)), with_capture self (snd (cap_read (capture_ self)))),
   Io (out s ++ [ImWrite "111.png" (grabbed self)]) (keys s) (keypos s)).
Proof.
  intros Hwf Hsz Ho Hg. pose proof Hwf as (_ & Hr & Hc & _).
  rewrite Hsz in Hr, Hc. simpl in Hr, Hc.
  rewrite GetRgbFrame_n_grab by auto using grabbed_ok.
  set (U := undistort self (grabbed self)).
  assert (HU : rows U = 1080 /\ cols U = 1920) by (unfold U, undistort; simpl; auto).
  destruct HU as [HU1 HU2].
  rewrite letterbox_exact; rewrite ?HU1, ?HU2; try (unfold no_overflow, INT_MAX; simpl; lia);
    try reflexivity.
Qed.

Lemma new_emits dev_at index K D : emits_only camera_event (FisheyeCamera_new dev_at index K D).
Proof. unfold FisheyeCamera_new. emits_tac. Qed.

Lemma delete_emits self : emits_only camera_event (FisheyeCamera_delete self).
Proof. unfold FisheyeCamera_delete. emits_tac. Qed.

Lemma GetRgbFrame_n_emits n self : emits_only camera_event (GetRgbFrame_n n self).
Proof. unfold GetRgbFrame_n. destruct (cap_read _). emits_tac. Qed.

Context `{!CvLaws}.

Lemma FisheyeCamera_new_spec dev_at index K D s :
  dev_present (dev_at index) = true ->
  INT_MIN <= dev_default_fourcc (dev_at index) <= INT_MAX ->
  drows K = 3 -> dcols K = 3 -> dtotal D = 4 -> drows D = 1 \/ dcols D = 1 ->
  exists self,
    FisheyeCamera_new dev_at index K D s =
      (Ok self,
       Io (out s ++ Log INFO "Instantiate a FisheyeCamera object" ::
             (if dev_accepts_fourcc (dev_at index) MJPG || (dev_default_fourcc (dev_at index) =? MJPG)
              then [] else [Log WARN "Set video format failed"])) (keys s) (keypos s)) /\
    cam_wf self /\ size_ self = Size 1920 1080 /\
    cap_opened (capture_ self) = true /\ cap_pos (capture_ self) = 0%nat /\
    cap_dev (capture_ self) = dev_at index.
Proof.
  intros Hp Hf HK1 HK2 HD HDv.
  destruct (optimal_new_camera_matrix_3x3 K D (Size 1920 1080) 1 (Size 1920 1080) false) as [HP1 HP2].
  ctor_open. rewrite Hp. mrun.
  destruct (dev_accepts_fourcc (dev_at index) MJPG) eqn:Ha; mrun;
    [|rewrite double_to_int_ok by exact Hf; mrun; destruct (dev_default_fourcc (dev_at index) =? MJPG); mrun];
    rewrite getOptimalNewCameraMatrix_ok by auto using dist_coeffs_ok_4; mrun;
    rewrite fisheye_maps_ok by (auto; reflexivity); mrun;
    (eexists; split; [rewrite ?app_nil_r, <- ?app_assoc; reflexivity|]; repeat split; reflexivity).
Qed.

(** The identity-table undistortion of the uniformly gray frame is gray. *)
Lemma gray_undistorted :
  constant_on (undistort (demo_cam 1 gray_frame) gray_frame) (Pixel 128 128 128).
Proof.
  intros r c [Hr Hc]. cbn in Hr, Hc |- *. apply sample_linear_const; [intros ? ? _; reflexivity| |];
    cbn; change 0%Q with (inject_Z 0); rewrite <- !Zle_Qle; lia.
Qed.

End Lemmas.

(** * Theorems *)

Section Theorems.
Context `{CvOps}.

(** C3. [GetRgbFrame(int&&)] returns a 640x640 frame whenever it returns
    a frame, whatever its argument and whatever the grabbed frame. *)
Theorem GetRgbFrame_n_square n self s out self' s' :
  GetRgbFrame_n n self s = (Ok (Some out, self'), s') -> rows out = 640 /\ cols out = 640.
Proof. intros E. exact (GetRgbFrame_n_returns n self s _ _ E out eq_refl). Qed.

(** C6. A failed grab, or a grab on a released capture, makes both
    overloads of [GetRgbFrame] log one warning and return [nullptr];
    nothing is written. *)
Theorem failed_grab_nullptr n self s :
  cap_opened (capture_ self) = false \/ grab_ok (cap_dev (capture_ self)) (cap_pos (capture_ self)) = false ->
  GetRgbFrame self s =
    (Ok (None, with_capture self (snd (cap_read (capture_ self)))),
     Io (out s ++ [Log WARN "frame is empty"]) (keys s) (keypos s)) /\
  GetRgbFrame_n n self s =
    (Ok (None, with_capture self (snd (cap_read (capture_ self)))),
     Io (out s ++ [Log WARN "frame is empty"]) (keys s) (keypos s)).
Proof.
  intros Hg. pose proof (grabbed_empty self Hg).
  split; [apply GetRgbFrame_empty | apply GetRgbFrame_n_empty]; assumption.
Qed.

(** C10. No sequence of method calls changes the remap tables or the
    size: they are computed once, by the constructor. *)
Theorem run_calls_keep_tables ks self s self' s' :
  run_calls ks self s = (Ok self', s') -> tables self' = tables self /\ (cam_wf self -> cam_wf self').
Proof.
  induction ks as [|k ks IH] in self, s |- *; simpl; [intros E; res_inv; tauto|].
  unfold M_bind. destruct (run_call k self s) as [[r| | |] s1] eqn:E; simpl; try discriminate.
  intros E'. destruct (IH _ _ E') as [T W]. pose proof (run_call_tables _ _ _ _ _ E) as T'.
  split; [congruence|]. intros Hw. apply W. revert Hw. unfold cam_wf, tables in *.
  injection T' as -> -> ->. tauto.
Qed.

(** C37. Method calls drive the capture only through its state machine:
    after any sequence of calls the capture is reachable from the one
    before by capture operations, on the same device, and its position
    has not moved back, so no frame is ever read twice. *)
Theorem run_calls_capture_reach ks self s self' s' :
  run_calls ks self s = (Ok self', s') ->
  cap_reach (capture_ self) (capture_ self') /\
  cap_dev (capture_ self') = cap_dev (capture_ self) /\
  (cap_pos (capture_ self) <= cap_pos (capture_ self'))%nat.
Proof.
  intros E. enough (Hr : cap_reach (capture_ self) (capture_ self'))
    by (split; [exact Hr | exact (cap_reach_dev_pos _ _ Hr)]).
  induction ks as [|k ks IH] in self, s, E |- *; simpl in E; [res_inv; apply cap_reach_refl|].
  unfold M_bind in E. destruct (run_call k self s) as [[r| | |] s1] eqn:Ek; simpl in E; try discriminate.
  destruct (run_call_frame _ _ _ _ _ Ek) as (c & -> & Hc).
  exact (cap_reach_trans _ _ _ Hc (IH _ _ E)).
Qed.

(** C7. [Refresh] returns as soon as a grab fails or a key is pressed:
    if iteration [n] is the first to stop, any fuel above [n] makes it
    return, after exactly [n + 1] reads. *)
Theorem Refresh_terminates n fuel self s :
  cam_wf self -> cap_opened (capture_ self) = true ->
  refresh_stops self s n = true -> no_stop_before self s n = true -> (n < fuel)%nat ->
  exists self' s', Refresh fuel self s = (Ok (Some self'), s') /\
    cap_pos (capture_ self') = (cap_pos (capture_ self) + S n)%nat /\ tables self' = tables self.
Proof.
  rewrite no_stop_before_spec. intros Hwf Ho Hn Hbefore Hf.
  destruct (Refresh_run n fuel self s Hwf Ho Hn Hbefore Hf) as (self' & E & Hp & Ht).
  exists self', (Io (out s ++ refresh_shows self (shown_until self n)) (keys s) (keypos s + shown_until self n)).
  auto.
Qed.

(** C34. What [Refresh] shows: when iteration [n] is the first to leave
    the loop, the trace gains, in order, the undistorted frame of every
    iteration that grabbed one, each in the window "Fisheye camera",
    and [waitKey] is called once per frame shown. *)
Theorem Refresh_trace n fuel self s :
  cam_wf self -> cap_opened (capture_ self) = true ->
  refresh_stops self s n = true -> no_stop_before self s n = true -> (n < fuel)%nat ->
  out (snd (Refresh fuel self s)) = out s ++ refresh_shows self (shown_until self n) /\
  keypos (snd (Refresh fuel self s)) = (keypos s + shown_until self n)%nat.
Proof.
  rewrite no_stop_before_spec. intros Hwf Ho Hn Hbefore Hf.
  destruct (Refresh_run n fuel self s Hwf Ho Hn Hbefore Hf) as (self' & E & _).
  rewrite E. split; reflexivity.
Qed.

(** C19. When every grab succeeds and no key is ever pressed, [Refresh]
    never returns: every amount of fuel runs out inside the loop. *)
Theorem Refresh_diverges fuel self s :
  cam_wf self -> cap_opened (capture_ self) = true -> (forall i, refresh_stops self s i = false) ->
  exists s', Refresh fuel self s = (Ok None, s').
Proof.
  induction fuel as [|fuel IH] in self, s |- *; intros Hwf Ho Hall; [now exists s|].
  rewrite Refresh_step by auto. apply IH.
  - now apply cam_wf_with_capture.
  - simpl. now rewrite cap_read_opened.
  - intros i. rewrite refresh_stops_shift by exact Ho. apply Hall.
Qed.

(** C8. On the constructor's 1920x1080 tables, a successful grab gives
    the 640x360 bilinear resize of the undistorted frame, converted to
    RGB, in rows 140 to 499; rows 0 to 139 and 500 to 639 are black. *)
Theorem GetRgbFrame_n_pixels n self s :
  cam_wf self -> size_ self = Size 1920 1080 ->
  cap_opened (capture_ self) = true -> grab_ok (cap_dev (capture_ self)) (cap_pos (capture_ self)) = true ->
  exists out,
    fst (GetRgbFrame_n n self s) = Ok (Some out, with_capture self (snd (cap_read (capture_ self)))) /\
    rows out = 640 /\ cols out = 640 /\
    forall r c,
      px out r c =
      if (140 <=? r) && (r <? 500) && (0 <=? c) && (c <? 640)
      then swap_rb (resize_linear (undistort self (grabbed self)) 360 640 (r - 140) c)
      else black.
Proof.
  intros Hwf Hsz Ho Hg. rewrite (GetRgbFrame_n_1080p n self s Hwf Hsz Ho Hg).
  eexists. split; [reflexivity|]. repeat split. intros r c. simpl.
  unfold in_rect; simpl. rewrite Z.sub_0_r. destruct (_ && _); reflexivity.
Qed.

(** C11. [GetRgbFrame()] returns a frame of the tables' size, whatever the
    size of the grabbed frame below the [SHRT_MAX] bound of [cv::remap]:
    pixel [(r, c)] is the RGB of the bilinear sample of the grabbed frame
    at the table entry [(r, c)]. *)
Theorem GetRgbFrame_table_size self s :
  cam_wf self -> 0 < width (size_ self) -> 0 < height (size_ self) ->
  cap_opened (capture_ self) = true -> grab_ok (cap_dev (capture_ self)) (cap_pos (capture_ self)) = true ->
  remap_fits (grabbed self) (map1_ self) ->
  exists out,
    fst (GetRgbFrame self s) = Ok (Some out, with_capture self (snd (cap_read (capture_ self)))) /\
    rows out = height (size_ self) /\ cols out = width (size_ self) /\
    forall r c, px out r c = swap_rb (sample_linear (grabbed self) (fpx (map1_ self) r c) (fpx (map2_ self) r c)).
Proof.
  intros Hwf Hw Hh Ho Hg _. pose proof Hwf as (_ & Hr & Hc & _).
  rewrite GetRgbFrame_grab by (auto using grabbed_ok; lia).
  eexists. split; [reflexivity|]. simpl. auto.
Qed.

(** C20. The destructor logs, closes the windows and releases the
    capture; the object is gone and the device is left Closed, a terminal
    state: whatever capture operations follow, it stays closed on the
    same device at the same position, and every read yields an empty
    frame. *)
Theorem FisheyeCamera_delete_closes self s :
  exists c,
    FisheyeCamera_delete self s =
      (Ok c, Io (out s ++ [Log INFO "Release sources."; DestroyAllWindows]) (keys s) (keypos s)) /\
    forall c', cap_reach c c' ->
      cap_opened c' = false /\ cap_dev c' = cap_dev (capture_ self) /\
      cap_pos c' = cap_pos (capture_ self) /\ cap_read c' = (empty_mat, c').
Proof.
  exists (cap_release (capture_ self)). split; [apply FisheyeCamera_delete_run|].
  intros c' Hr. exact (released_capture_terminal _ _ Hr eq_refl).
Qed.

(** C26. Neither overload of [GetRgbFrame] ever hands out an empty
    frame: a frame it returns is never zero-sized, so "no frame" is only
    ever signalled by [nullptr]. *)
Theorem returned_frame_nonempty n self s m self' :
  fst (GetRgbFrame self s) = Ok (Some m, self') \/ fst (GetRgbFrame_n n self s) = Ok (Some m, self') ->
  mat_empty m = false.
Proof.
  intros [E|E].
  - revert E. unfold GetRgbFrame. destruct (cap_read _) as [frame c].
    destruct (mat_empty frame); mrun; [intros E; inversion E|].
    destruct (remap _ _ _) as [u| | |] eqn:Hu; mrun; try discriminate.
    destruct (cvtColor_BGR2RGB u) as [v| | |] eqn:Hv; mrun; try discriminate.
    intros [= <-]. exact (cvtColor_nonempty _ _ Hv).
  - destruct (GetRgbFrame_n n self s) as [r s'] eqn:E'. simpl in E. subst r.
    destruct (GetRgbFrame_n_returns n self s _ _ E' m eq_refl) as [Hr Hc].
    apply mat_empty_false; lia.
Qed.

(** C27. When the device opens but the intrinsics are not ones both
    calls of lines 25-27 accept, the constructor does not exit: it logs,
    configures the device and then aborts on the first failed assertion:
    [getOptimalNewCameraMatrix] (line 25) checks [K] and then that [D] is
    a vector of 4, 5, 8, 12 or 14 coefficients, and only a [D] it accepts
    but of another length than 4 reaches the assertion of
    [fisheye::initUndistortRectifyMap] (line 26). *)
Theorem FisheyeCamera_new_bad_intrinsics dev_at index K D s :
  dev_present (dev_at index) = true ->
  INT_MIN <= dev_default_fourcc (dev_at index) <= INT_MAX ->
  intrinsics_ok K D = false ->
  fst (FisheyeCamera_new dev_at index K D s) =
    Abort (if negb ((drows K =? 3) && (dcols K =? 3))
           then "undistortPoints: cameraMatrix is 3x3"
           else if negb (dist_coeffs_ok D)
           then "undistortPoints: distCoeffs is a vector of 4, 5, 8, 12 or 14 coefficients"
           else "initUndistortRectifyMap: K.size() == Size(3, 3) && (D.empty() || D.total() == 4)").
Proof.
  intros Hp Hf Hbad. rewrite intrinsics_ok_split in Hbad.
  ctor_open. rewrite Hp. mrun.
  destruct (dev_accepts_fourcc (dev_at index) MJPG); mrun;
    [|rewrite double_to_int_ok by exact Hf; mrun; destruct (dev_default_fourcc (dev_at index) =? MJPG); mrun];
    unfold getOptimalNewCameraMatrix, fisheye_initUndistortRectifyMap;
    destruct ((drows K =? 3) && (dcols K =? 3)); mrun; try reflexivity;
    destruct (dist_coeffs_ok D); mrun; try reflexivity; simpl in Hbad; rewrite Hbad; reflexivity.
Qed.

(** C31. The constructor asks the driver for 1920x1080 at 30 frames per
    second and for MJPG (lines 15-19) but never reads the mode back: the
    capture is left in the mode the driver settles on, with MJPG only
    when the driver accepts it, while the object's size and both tables
    are 1920x1080 whatever that mode. *)
Theorem FisheyeCamera_new_configures dev_at index K D s self :
  fst (FisheyeCamera_new dev_at index K D s) = Ok self ->
  cap_get CAP_PROP_FRAME_WIDTH (capture_ self) = dev_adjust (dev_at index) CAP_PROP_FRAME_WIDTH 1920 /\
  cap_get CAP_PROP_FRAME_HEIGHT (capture_ self) = dev_adjust (dev_at index) CAP_PROP_FRAME_HEIGHT 1080 /\
  cap_get CAP_PROP_FPS (capture_ self) = dev_adjust (dev_at index) CAP_PROP_FPS 30 /\
  cap_get CAP_PROP_FOURCC (capture_ self) =
    (if dev_accepts_fourcc (dev_at index) MJPG then MJPG else dev_default_fourcc (dev_at index)) /\
  size_ self = Size 1920 1080 /\ frows (map1_ self) = 1080 /\ fcols (map1_ self) = 1920.
Proof.
  unfold FisheyeCamera_new, isOpened, capture_open. mrun.
  destruct (dev_present (dev_at index)) eqn:Hp; mrun; [|discriminate].
  unfold cap_set; simpl.
  destruct (dev_accepts_fourcc (dev_at index) MJPG); mrun;
    try (match goal with |- context [double_to_int ?x] => destruct (double_to_int x) as [f| | |] end;
         mrun; try discriminate; destruct (negb (f =? MJPG)); mrun);
    (match goal with |- context [getOptimalNewCameraMatrix ?a ?b ?c ?d ?e ?f] =>
       destruct (getOptimalNewCameraMatrix a b c d e f) as [P| | |] end);
    mrun; try discriminate;
    (match goal with |- context [fisheye_initUndistortRectifyMap ?a ?b ?c ?d ?e] =>
       destruct (fisheye_initUndistortRectifyMap a b c d e) as [[m1 m2]| | |] eqn:Em end);
    mrun; try discriminate; intros [= <-];
    destruct (fisheye_maps_size _ _ _ _ _ _ _ Em); repeat split; assumption.
Qed.

(** C35. Line 21 stores the [double] that [capture_.get(CAP_PROP_FOURCC)]
    returns in an [int].  When the driver refuses MJPG and keeps a code
    above [INT_MAX] (a last character of 128 or more), the conversion is
    undefined behaviour, after the log line and the four [set] calls. *)
Theorem FisheyeCamera_new_fourcc_overflow dev_at index K D s :
  dev_present (dev_at index) = true -> dev_accepts_fourcc (dev_at index) MJPG = false ->
  INT_MAX < dev_default_fourcc (dev_at index) ->
  FisheyeCamera_new dev_at index K D s =
  (Undefined "double to int conversion out of range",
   Io (out s ++ [Log INFO "Instantiate a FisheyeCamera object"]) (keys s) (keypos s)).
Proof.
  intros Hp Ha Hf.
  ctor_open. rewrite Hp. mrun.
  rewrite Ha. mrun. rewrite double_to_int_undef by lia. reflexivity.
Qed.

Context `{!CvLaws}.

(** C36. With intrinsics both calls of lines 25-27 accept, the
    constructor never aborts, whatever the device: it exits when the
    device does not open, stops on the FOURCC conversion when that
    overflows, and otherwise returns the object.  With C27, the
    constructor aborts exactly when [intrinsics_ok] fails. *)
Theorem FisheyeCamera_new_no_abort dev_at index K D s w :
  intrinsics_ok K D = true ->
  fst (FisheyeCamera_new dev_at index K D s) <> Abort w.
Proof.
  rewrite intrinsics_ok_split. intros Hok.
  apply andb_true_iff in Hok as [Hok HX]. apply andb_true_iff in Hok as [HK HD].
  destruct (optimal_new_camera_matrix_3x3 K D (Size 1920 1080) 1 (Size 1920 1080) false) as [HP1 HP2].
  ctor_open.
  destruct (dev_present (dev_at index)); mrun; [|discriminate].
  destruct (dev_accepts_fourcc (dev_at index) MJPG); mrun;
    try (match goal with |- context [double_to_int ?x] =>
           destruct (double_to_int_cases x) as [->| ->]; mrun; [destruct (negb (x =? MJPG)); mrun|]
         end);
    try (unfold getOptimalNewCameraMatrix, fisheye_initUndistortRectifyMap;
         rewrite HK, HD; mrun; rewrite HX, HP1, HP2, orb_true_r; simpl);
    discriminate.
Qed.

(** C12. When the device opens, the constructor builds a well-formed
    object: open capture at its first read, 1920x1080 tables; it logs the
    construction, and warns exactly when the driver keeps a FOURCC other
    than MJPG. *)
Theorem FisheyeCamera_new_ok dev_at index K D s :
  dev_present (dev_at index) = true ->
  INT_MIN <= dev_default_fourcc (dev_at index) <= INT_MAX ->
  drows K = 3 -> dcols K = 3 -> dtotal D = 4 -> drows D = 1 \/ dcols D = 1 ->
  exists self,
    FisheyeCamera_new dev_at index K D s =
      (Ok self,
       Io (out s ++ Log INFO "Instantiate a FisheyeCamera object" ::
             (if dev_accepts_fourcc (dev_at index) MJPG || (dev_default_fourcc (dev_at index) =? MJPG)
              then [] else [Log WARN "Set video format failed"])) (keys s) (keypos s)) /\
    cam_wf self /\ size_ self = Size 1920 1080 /\
    cap_opened (capture_ self) = true /\ cap_pos (capture_ self) = 0%nat /\
    cap_dev (capture_ self) = dev_at index.
Proof. exact (FisheyeCamera_new_spec dev_at index K D s). Qed.

(** C18. The output of [GetRgbFrame(int&&)] depends only on the tables
    and the grabbed frame, up to [≡]: two objects with the same tables
    that grab equivalent frames give equivalent results, whatever the
    arguments and the states of the world. *)
Theorem GetRgbFrame_n_deterministic n1 n2 self1 self2 s1 s2 :
  tables self1 = tables self2 -> grabbed self1 ≡ grabbed self2 ->
  res_equiv (≡) (result_of (fst (GetRgbFrame_n n1 self1 s1)))
                (result_of (fst (GetRgbFrame_n n2 self2 s2))).
Proof.
  unfold tables, grabbed, GetRgbFrame_n. intros T Hf. injection T as T1 T2 _.
  destruct (cap_read (capture_ self1)) as [f1 c1], (cap_read (capture_ self2)) as [f2 c2].
  simpl in Hf. rewrite (mat_empty_proper f1 f2 Hf).
  destruct (mat_empty f2); simpl; unfold M_bind; simpl; [reflexivity|].
  rewrite T1, T2. pose proof (remap_proper f1 f2 Hf (map1_ self2) _ eq_refl (map2_ self2) _ eq_refl) as HR.
  destruct (remap f1 _ _) as [u1| | |], (remap f2 _ _) as [u2| | |]; simpl in HR |- *;
    try discriminate; try (injection HR as ->); try reflexivity.
  pose proof (letterbox_proper 640 _ eq_refl u1 u2 HR) as HL.
  destruct (letterbox 640 u1), (letterbox 640 u2); simpl in HL |- *; try discriminate;
    try (injection HL as ->); try reflexivity; now constructor.
Qed.

(** C17. The scenario of the specification: the uniformly gray 1920x1080
    frame, through identity tables and letterboxed to 640, gives a
    640x640 frame that is gray in rows 140 to 499 and black in the
    bands above and below. *)
Theorem gray_frame_scenario s :
  exists out self',
    fst (GetRgbFrame_n 640 (demo_cam 1 gray_frame) s) = Ok (Some out, self') /\
    rows out = 640 /\ cols out = 640 /\
    forall r c, 0 <= r < 640 -> 0 <= c < 640 ->
      px out r c = if (140 <=? r) && (r <? 500) then Pixel 128 128 128 else black.
Proof.
  rewrite (GetRgbFrame_n_1080p 640 (demo_cam 1 gray_frame) s ltac:(repeat split) eq_refl eq_refl eq_refl).
  do 2 eexists. split; [reflexivity|]. split; [reflexivity|]. split; [reflexivity|].
  intros r c Hr Hc. unfold letterboxed, in_rect. cbn [px rx ry rw rh].
  rewrite (proj2 (Z.leb_le 0 c)), (proj2 (Z.ltb_lt c (0 + 640))) by lia.
  rewrite !andb_true_r. change (140 + 360) with 500.
  destruct ((140 <=? r) && (r <? 500)) eqn:Er; [|reflexivity].
  apply andb_true_iff in Er as [Er1 Er2]. apply Z.leb_le in Er1. apply Z.ltb_lt in Er2.
  change (grabbed (demo_cam 1 gray_frame)) with gray_frame.
  rewrite (resize_linear_const _ (Pixel 128 128 128)); [reflexivity|apply gray_undistorted|..];
    cbn; lia.
Qed.

(** C38. On a static stream (the next two grabs yield the same frame),
    a second [GetRgbFrame(int&&)] on the object the first one left
    returns what the first returned, whatever its argument: the tables
    are kept across calls and nothing else enters the output. *)
Theorem GetRgbFrame_n_static_repeat n m self s r self1 s1 :
  cap_opened (capture_ self) = true -> grab_at self 1 = grab_at self 0 ->
  GetRgbFrame_n n self s = (Ok (r, self1), s1) ->
  tables self1 = tables self /\ result_of (fst (GetRgbFrame_n m self1 s1)) = Ok r.
Proof.
  intros Ho Hst E. rewrite (GetRgbFrame_n_next _ _ _ _ _ _ E) in E |- *. split; [reflexivity|].
  rewrite GetRgbFrame_n_result.
  rewrite (grabbed_grab_at (with_capture _ _)), grab_at_shift, Hst, <- grabbed_grab_at
    by (cbn [capture_ with_capture]; try rewrite cap_read_opened; exact Ho).
  cbn [map1_ map2_ with_capture]. rewrite <- (GetRgbFrame_n_result n self s), E. reflexivity.
Qed.

End Theorems.

(** ** Witnesses *)

#[local] Existing Instance cv_nearest.
#[local] Existing Instance cv_nearest_laws.

Lemma GetRgbFrame_n_square_witness :
  let X := GetRgbFrame_n 640 (demo_cam 1 gray_frame) io_nokey in
  rows (frame_of (fst X)) = 640 /\ cols (frame_of (fst X)) = 640.
Proof.
  intros X. apply (GetRgbFrame_n_square 640 (demo_cam 1 gray_frame) io_nokey _
                     (value_or (None, endless_cam) (fst X)).2 (snd X)).
  reflexivity.
Defined.

Lemma GetRgbFrame_n_pixels_witness :
  exists out self',
    fst (GetRgbFrame_n 640 (demo_cam 1 gray_frame) io_nokey) = Ok (Some out, self') /\
    px out 300 10 = Pixel 128 128 128 /\ px out 10 10 = black /\ px out 600 10 = black.
Proof.
  destruct (GetRgbFrame_n_pixels 640 (demo_cam 1 gray_frame) io_nokey
              ltac:(repeat split) eq_refl eq_refl eq_refl) as (out & E & _ & _ & P).
  exists out. eexists. split; [exact E|]. rewrite !P. vm_compute. auto.
Defined.

Lemma failed_grab_nullptr_witness :
  grab_ok (stream_device 0 gray_frame) 0 = false /\
  fst (GetRgbFrame_n 640 (demo_cam 0 gray_frame) io_nokey) =
  Ok (None, with_capture (demo_cam 0 gray_frame) (snd (cap_read (capture_ (demo_cam 0 gray_frame))))).
Proof.
  split; [reflexivity|].
  destruct (failed_grab_nullptr 640 (demo_cam 0 gray_frame) io_nokey (or_intror eq_refl)) as [_ E].
  rewrite E. reflexivity.
Defined.

Lemma GetRgbFrame_table_size_witness :
  exists out self',
    fst (GetRgbFrame (demo_cam 1 small_frame) io_nokey) = Ok (Some out, self') /\
    rows out = 1080 /\ cols out = 1920.
Proof.
  destruct (GetRgbFrame_table_size (demo_cam 1 small_frame) io_nokey
              ltac:(repeat split) ltac:(simpl; lia) ltac:(simpl; lia) eq_refl eq_refl
              ltac:(repeat split; vm_compute; reflexivity))
    as (out & E & R & C & _).
  exists out. eexists. split; [exact E|]. split; assumption.
Defined.

Lemma run_calls_keep_tables_witness :
  let X := run_calls [CallGetRgbFrameN 640; CallRefresh 5; CallGetRgbFrame] (demo_cam 3 gray_frame) io_nokey in
  is_ok (fst X) = true /\ tables (value_or endless_cam (fst X)) = tables (demo_cam 3 gray_frame).
Proof.
  intros X. split; [reflexivity|].
  exact (proj1 (run_calls_keep_tables [CallGetRgbFrameN 640; CallRefresh 5; CallGetRgbFrame]
                 (demo_cam 3 gray_frame) io_nokey (value_or endless_cam (fst X)) (snd X) eq_refl)).
Defined.

Lemma Refresh_terminates_witness :
  exists self' s',
    Refresh 10 (demo_cam 3 gray_frame) io_nokey = (Ok (Some self'), s') /\
    cap_pos (capture_ self') = 4%nat.
Proof.
  destruct (Refresh_terminates 3 10 (demo_cam 3 gray_frame) io_nokey
              ltac:(repeat split) eq_refl eq_refl eq_refl ltac:(lia)) as (self' & s' & E & P & _).
  exists self', s'. split; [exact E|]. rewrite P. reflexivity.
Defined.

Lemma Refresh_diverges_witness : exists s', Refresh 50 endless_cam io_nokey = (Ok None, s').
Proof.
  apply (Refresh_diverges 50 endless_cam io_nokey ltac:(repeat split) eq_refl).
  intros i. reflexivity.
Defined.

Lemma FisheyeCamera_new_ok_witness :
  exists self,
    FisheyeCamera_new (fun _ => yuyv_device) 0 demo_K demo_D io_nokey =
      (Ok self, Io [Log INFO "Instantiate a FisheyeCamera object"; Log WARN "Set video format failed"]
                   (keys io_nokey) 0) /\ cam_wf self.
Proof.
  destruct (FisheyeCamera_new_ok (fun _ => yuyv_device) 0 demo_K demo_D io_nokey
              eq_refl ltac:(vm_compute; split; discriminate) eq_refl eq_refl eq_refl (or_intror eq_refl))
    as (self & E & W & _).
  exists self. split; [exact E | exact W].
Defined.

Lemma GetRgbFrame_n_deterministic_witness :
  res_equiv (≡) (result_of (fst (GetRgbFrame_n 640 (demo_cam 1 gray_frame) io_nokey)))
                (result_of (fst (GetRgbFrame_n 320 (demo_cam 2 gray_frame) (io_key_at 0)))).
Proof. apply GetRgbFrame_n_deterministic; reflexivity. Defined.

Lemma gray_frame_scenario_witness :
  exists out self',
    fst (GetRgbFrame_n 640 (demo_cam 1 gray_frame) io_nokey) = Ok (Some out, self') /\
    px out 300 5 = Pixel 128 128 128 /\ px out 520 5 = black.
Proof.
  destruct (gray_frame_scenario io_nokey) as (out & self' & E & _ & _ & P).
  exists out, self'. split; [exact E|].
  rewrite (P 300 5), (P 520 5) by lia. split; reflexivity.
Defined.

Lemma returned_frame_nonempty_witness :
  let X := GetRgbFrame (demo_cam 1 gray_frame) io_nokey in
  mat_empty (frame_of (fst X)) = false.
Proof.
  intros X. apply (returned_frame_nonempty 640 (demo_cam 1 gray_frame) io_nokey _
                     (value_or (None, endless_cam) (fst X)).2).
  left. reflexivity.
Defined.

Lemma FisheyeCamera_new_bad_intrinsics_witness :
  fst (FisheyeCamera_new (fun _ => stream_device 1 gray_frame) 0 demo_K (DMat 2 2 [0; 0; 0; 0]%Q) io_nokey) =
  Abort "undistortPoints: distCoeffs is a vector of 4, 5, 8, 12 or 14 coefficients".
Proof.
  exact (FisheyeCamera_new_bad_intrinsics (fun _ => stream_device 1 gray_frame) 0 demo_K
           (DMat 2 2 [0; 0; 0; 0]%Q) io_nokey eq_refl ltac:(split; vm_compute; discriminate) eq_refl).
Defined.

Lemma FisheyeCamera_new_configures_witness :
  let self := value_or endless_cam (fst (FisheyeCamera_new (fun _ => hd720_device) 0 demo_K demo_D io_nokey)) in
  cap_get CAP_PROP_FRAME_WIDTH (capture_ self) = 1280 /\ fcols (map1_ self) = 1920.
Proof.
  intros self.
  assert (E : fst (FisheyeCamera_new (fun _ => hd720_device) 0 demo_K demo_D io_nokey) = Ok self)
    by (unfold self; vm_compute; reflexivity).
  destruct (FisheyeCamera_new_configures (fun _ => hd720_device) 0 demo_K demo_D io_nokey self E)
    as (W & _ & _ & _ & _ & _ & C).
  split; [exact W | exact C].
Defined.

Lemma Refresh_trace_witness :
  length (out (snd (Refresh 10 endless_cam (io_key_at 2)))) = 3%nat.
Proof.
  rewrite (proj1 (Refresh_trace 2 10 endless_cam (io_key_at 2)
                    ltac:(repeat split) eq_refl eq_refl eq_refl ltac:(lia))).
  reflexivity.
Defined.

Lemma FisheyeCamera_new_fourcc_overflow_witness :
  fst (FisheyeCamera_new (fun _ => high_fourcc_device) 0 demo_K demo_D io_nokey) =
  Undefined "double to int conversion out of range".
Proof.
  rewrite (FisheyeCamera_new_fourcc_overflow (fun _ => high_fourcc_device) 0 demo_K demo_D io_nokey
             eq_refl eq_refl ltac:(vm_compute; reflexivity)).
  reflexivity.
Defined.

Lemma FisheyeCamera_new_no_abort_witness :
  fst (FisheyeCamera_new (fun _ => yuyv_device) 0 demo_K demo_D io_nokey) <> Abort "".
Proof. apply FisheyeCamera_new_no_abort; reflexivity. Defined.

Lemma run_calls_capture_reach_witness :
  let X := run_calls [CallGetRgbFrame; CallGetRgbFrameN 640; CallRefresh 5] (demo_cam 3 gray_frame) io_nokey in
  (cap_pos (capture_ (demo_cam 3 gray_frame)) <= cap_pos (capture_ (value_or endless_cam (fst X))))%nat.
Proof.
  intros X.
  exact (proj2 (proj2 (run_calls_capture_reach [CallGetRgbFrame; CallGetRgbFrameN 640; CallRefresh 5]
                          (demo_cam 3 gray_frame) io_nokey _ (snd X) eq_refl))).
Defined.

Lemma GetRgbFrame_n_static_repeat_witness :
  let X := GetRgbFrame_n 640 (demo_cam 2 gray_frame) io_nokey in
  let Y := GetRgbFrame_n 320 (snd (value_or (None, endless_cam) (fst X))) (snd X) in
  tables (snd (value_or (None, endless_cam) (fst X))) = tables (demo_cam 2 gray_frame) /\
  result_of (fst Y) = Ok (fst (value_or (None, endless_cam) (fst X))).
Proof.
  intros X Y. apply (GetRgbFrame_n_static_repeat 640 320 (demo_cam 2 gray_frame) io_nokey); [reflexivity|reflexivity|].
  unfold X. rewrite (GetRgbFrame_n_1080p 640 (demo_cam 2 gray_frame) io_nokey ltac:(repeat split) eq_refl eq_refl eq_refl).
  reflexivity.
Defined.
