(* ===== verification/Main.v ===== *)
(** * [main] (main.cc)

    [main] builds the camera from the intrinsics [K_main] and [D_main],
    checks the command line, sets up the YOLOv8 runtime, grabs one
    letterboxed frame, runs inference on it and draws a box and a label
    for each detection.  The runtime (yolov8.h, postprocess.h) is not part
    of the sources: [Yolov8Api] is its interface, a typeclass of the
    return codes and results the runtime gives; the calls themselves are
    recorded in the trace.  [argv] is the list of arguments, so [argc] is
    its length.  A [return] from [main] runs the destructor of the camera;
    [exit] does not.  The dereference of the [shared_ptr] returned by
    [GetRgbFrame(640)] is undefined behaviour when it is [nullptr]. *)

From Stdlib Require Import ZArith QArith Lia String List.
From stdpp Require Import base decidable numbers.
From S2P Require Import Prelude Mat OpenCV Io Format Capture Letterbox FisheyeCamera.

Import ListNotations.
Open Scope Z_scope.

(** [object_detect_result]: class, box and confidence. *)
Record detection := Det {
  cls_id : Z;
  box_left : Z; box_top : Z; box_right : Z; box_bottom : Z;
  prop : Q
}.

Inductive image_format := IMAGE_FORMAT_RGB888.

(** [image_buffer_t]: [virt_addr] is the pixel buffer of a frame. *)
Record image_buffer := ImageBuffer {
  ib_width : Z; ib_height : Z; ib_size : Z; ib_format : image_format;
  ib_virt_addr : mat
}.

Class Yolov8Api := {
  (** return code of [init_yolov8_model(model_path, &ctx)] *)
  init_yolov8_model : string -> Z;
  (** return code of [release_yolov8_model(&ctx)] *)
  release_yolov8_model : Z;
  (** return code and detections of [inference_yolov8_model] *)
  inference_yolov8_model : image_buffer -> Z * list detection;
  coco_cls_to_name : Z -> string
}.

(** Lines 35-37. *)
Definition K_main : dmat :=
  DMat 3 3 [518.5206194361012; 0.0; 932.0926791943779; 0.0;
            518.0241546073428; 507.22695301062527; 0.0; 0.0; 1.0]%Q.

(** Lines 40-42. *)
Definition D_main : dmat :=
  DMat 4 1 [-0.09556402717747697; 0.012374049436718767;
            -0.010465758469831311; 0.0033159128053917544]%Q.

Section Main.
Context `{CvOps} `{Yolov8Api}.

(** One iteration of the loop of lines 99-114: the [printf], the
    rectangle, the [sprintf] of the label into [text] and the text. *)
Definition draw_detection (d : detection) : M io unit :=
  let name := coco_cls_to_name (cls_id d) in
  do _ <- emit (Printf "%s @ (%d %d %d %d) %.3f\n"
                  [CStr name; CInt (box_left d); CInt (box_top d);
                   CInt (box_right d); CInt (box_bottom d); CDbl (prop d)]);
  let x1 := box_left d in
  let y1 := box_top d in
  let x2 := box_right d in
  let y2 := box_bottom d in
  do w <- lift (c_sub x2 x1);
  do h <- lift (c_sub y2 y1);
  do _ <- emit (DrawRectangle x1 y1 w h COLOR_BLUE 3);
  do _ <- lift (sprintf_label name (prop d * 100));
  do ty <- lift (c_sub y1 20);
  emit (DrawText "%s %.1f%%" [CStr name; CDbl (prop d * 100)] x1 ty COLOR_RED 10).

Fixpoint draw_detections (ds : list detection) : M io unit :=
  match ds with
  | [] => ret tt
  | d :: ds' => do _ <- draw_detection d; draw_detections ds'
  end.

(** Lines 58-66 and 86-95: the two failure branches, which release the
    model and [exit]. *)
Definition release_and_exit {A} : M io A :=
  do _ <- emit (RuntimeCall "release_yolov8_model");
  let ret := release_yolov8_model in
  do _ <- (if negb (ret =? 0)
           then emit (Printf "release_yolov8_model fail! ret=%d\n" [CInt ret])
           else Prelude.ret tt);
  exit_ EXIT_FAILURE.

(** [main(argc, argv)], lines 32-124, with the camera at index 0 being
    [dev_at 0]. *)
Definition main (argv : list string) (dev_at : Z -> device) : M io Z :=
  let argc := Z.of_nat (length argv) in
  do fisheye_camera <- FisheyeCamera_new dev_at 0 K_main D_main;
  if negb (argc =? 3) then
    do _ <- (match argv with
             | argv0 :: _ => emit (Printf "%s <model_path> <image_path>\n" [CStr argv0])
             | [] => lift (Undefined "printf(%s) of a null argv[0]")
             end);
    do _ <- FisheyeCamera_delete fisheye_camera;
    ret (-1)
  else
    let model_path := nth 1 argv ""%string in
    do _ <- emit (RuntimeCall "init_post_process");
    do _ <- emit (RuntimeCall "init_yolov8_model");
    let ret0 := init_yolov8_model model_path in
    if negb (ret0 =? 0) then
      do _ <- emit (Printf "init_yolov8_model fail! ret=%d model_path=%s\n"
                      [CInt ret0; CStr model_path]);
      release_and_exit
    else
      do wh <- lift (c_mul 640 640);
      do size <- lift (c_mul wh 3);
      do '(tmp, fisheye_camera) <- GetRgbFrame_n 640 fisheye_camera;
      match tmp with
      | None => lift (Undefined "tmp->ptr() on a null shared_ptr")
      | Some frame =>
        let src_image := ImageBuffer 640 640 size IMAGE_FORMAT_RGB888 frame in
        do _ <- emit (Inference 640 640 size frame);
        let '(ret1, od_results) := inference_yolov8_model src_image in
        if negb (ret1 =? 0) then
          do _ <- emit (Printf "init_yolov8_model fail! ret=%d\n" [CInt ret1]);
          do _ <- emit (RuntimeCall "deinit_post_process");
          release_and_exit
        else
          do _ <- draw_detections od_results;
          do _ <- emit (WriteImage "out.png");
          do _ <- FisheyeCamera_delete fisheye_camera;
          ret 0
      end.

(** The events of one iteration of the drawing loop, when its [int]
    arithmetic does not overflow. *)
Definition draw_events (d : detection) : list event :=
  let name := coco_cls_to_name (cls_id d) in
  [Printf "%s @ (%d %d %d %d) %.3f\n"
     [CStr name; CInt (box_left d); CInt (box_top d); CInt (box_right d); CInt (box_bottom d);
      CDbl (prop d)];
   DrawRectangle (box_left d) (box_top d) (box_right d - box_left d) (box_bottom d - box_top d)
     COLOR_BLUE 3;
   DrawText "%s %.1f%%" [CStr name; CDbl (prop d * 100)] (box_left d) (box_top d - 20) COLOR_RED 10].

(** The label of a detection fits [text]. *)
Definition label_fits (d : detection) : bool :=
  is_ok (sprintf_label (coco_cls_to_name (cls_id d)) (prop d * 100)).

End Main.

(** The [int] expressions of the drawing loop fit an [int]. *)
Definition box_ok (d : detection) : bool :=
  in_int (box_right d - box_left d) && in_int (box_bottom d - box_top d) && in_int (box_top d - 20).

Section DrawOk.
Context `{Yolov8Api}.

(** One iteration of the drawing loop has defined behaviour. *)
Definition draw_ok (d : detection) : bool := box_ok d && label_fits d.

End DrawOk.

(** The buffer handed to inference is a 640x640 frame of the size
    [width * height * 3] it declares. *)
Definition inference_ok (e : event) : Prop :=
  match e with
  | Inference w h sz img => w = 640 /\ h = 640 /\ sz = w * h * 3 /\ rows img = h /\ cols img = w
  | _ => True
  end.

(** The log lines of a successful construction. *)
Definition ctor_log (dev : device) : list event :=
  Log INFO "Instantiate a FisheyeCamera object" ::
  (if dev_accepts_fourcc dev MJPG || (dev_default_fourcc dev =? MJPG) then []
   else [Log WARN "Set video format failed"]).

(** The frame the first grab of a device yields. *)
Definition first_grab (dev : device) : mat :=
  match dev_grab dev 0 with Some m => m | None => empty_mat end.

(** ** A concrete runtime, used by the witnesses *)

Definition demo_dets : list detection :=
  [Det 0 100 150 300 400 (9 # 10); Det 16 10 200 50 260 (1 # 2)].

(** A runtime whose calls all succeed and that reports [demo_dets]. *)
Definition demo_runtime : Yolov8Api := {|
  init_yolov8_model := fun _ => 0;
  release_yolov8_model := 0;
  inference_yolov8_model := fun _ => (0, demo_dets);
  coco_cls_to_name := fun id => if id =? 0 then "person"%string else "dog"%string
|}.

(** A device that does not open. *)
Definition no_camera : device := Device false (fun _ => true) MJPG (fun _ => None) exact_modes.

(** A runtime whose class names are 251 characters long. *)
Definition long_name_runtime : Yolov8Api := {|
  init_yolov8_model := fun _ => 0;
  release_yolov8_model := 0;
  inference_yolov8_model := fun _ => (0, demo_dets);
  coco_cls_to_name := fun _ => String.concat "" (List.repeat "x"%string 251)
|}.

(** Runtimes whose set-up, or whose inference, fails with -1. *)
Definition failing_init_runtime : Yolov8Api := {|
  init_yolov8_model := fun _ => -1;
  release_yolov8_model := 0;
  inference_yolov8_model := fun _ => (0, []);
  coco_cls_to_name := fun _ => "person"%string
|}.

Definition failing_inference_runtime : Yolov8Api := {|
  init_yolov8_model := fun _ => 0;
  release_yolov8_model := 0;
  inference_yolov8_model := fun _ => (-1, []);
  coco_cls_to_name := fun _ => "person"%string
|}.

Definition demo_argv : list string := ["yolov8_demo"; "model.rknn"; "bus.jpg"]%string.

#[local] Arguments FisheyeCamera_new : simpl never.
#[local] Arguments FisheyeCamera_delete : simpl never.
#[local] Arguments GetRgbFrame_n : simpl never.

(** ** Lemmas *)

Section MainLemmas.
Context `{CvOps} `{Yolov8Api}.

Lemma draw_detections_run ds s :
  forallb draw_ok ds = true ->
  draw_detections ds s = (Ok tt, Io (out s ++ flat_map draw_events ds) (keys s) (keypos s)).
Proof.
  induction ds as [|d ds IH] in s |- *; intros Hb; simpl.
  - cbn. now rewrite app_nil_r.
  - apply andb_true_iff in Hb as [Hd Hds]. apply andb_true_iff in Hd as [Hd Hl].
    unfold box_ok in Hd. apply andb_true_iff in Hd as [Hd H3]. apply andb_true_iff in Hd as [H1 H2].
    unfold label_fits in Hl. destruct (sprintf_label _ _) as [n| | |] eqn:Hs; try discriminate.
    cbn [draw_detections]. unfold draw_detection, c_sub. cbv zeta. rewrite Hs. mrun.
    rewrite (c_int_in _ H1), (c_int_in _ H2), (c_int_in _ H3). mrun.
    rewrite IH by exact Hds. cbn. now rewrite <- !app_assoc.
Qed.

(** A confidence in [0, 1] and a class name of at most 248 characters
    give a label that fits [text]. *)
Lemma label_fits_percent d :
  (0 <= prop d <= 1)%Q -> (String.length (coco_cls_to_name (cls_id d)) <= 248)%nat ->
  label_fits d = true.
Proof.
  intros [Hlo Hhi] Hl. unfold label_fits.
  assert (Hx : (0 <= prop d * 100 <= 100)%Q).
  { split; [apply Qmult_le_0_compat; [exact Hlo | discriminate]|].
    change 100%Q with (1 * 100)%Q at 2. apply Qmult_le_compat_r; [exact Hhi | discriminate]. }
  destruct (sprintf_label_fits _ _ Hx Hl) as (n & -> & _). reflexivity.
Qed.

Lemma draw_detections_emits ds : emits_only drawing_event (draw_detections ds).
Proof.
  induction ds as [|d ds IH]; cbn [draw_detections]; [apply ret_only|].
  apply bind_only; [|intros; exact IH]. unfold draw_detection. emits_tac.
Qed.

Lemma release_and_exit_emits {A} :
  emits_only (fun e => e = RuntimeCall "release_yolov8_model" \/ drawing_event e) (@release_and_exit _ A).
Proof. unfold release_and_exit. emits_tac. Qed.

End MainLemmas.

(** The opening steps shared by the runs of [main] past the [argc]
    check: build the camera with [FisheyeCamera_new_spec] ... *)
Ltac main_camera Hp Hf :=
  match goal with |- context [main _ ?dev_at ?s] =>
    destruct (FisheyeCamera_new_spec dev_at 0 K_main D_main s Hp Hf eq_refl eq_refl eq_refl (or_intror eq_refl))
      as (cam & Ecam & Hwf & Hsz & Ho & Hpos & Hdev)
  end.

(** ... pass [argc == 3] ... *)
Ltac main_argc Hl :=
  unfold main; mstart;
  match goal with E : FisheyeCamera_new _ _ _ _ _ = _ |- _ => rewrite E end;
  match goal with |- context [Z.of_nat (length ?a) =? 3] =>
    replace (Z.of_nat (length a) =? 3) with true by (now rewrite Hl)
  end; cbn.

(** ... and, after a successful model set-up, compute the buffer size
    and grab the first frame, which the device yields. *)
Ltac main_first_grab Hi :=
  rewrite Hi; cbn;
  replace (c_mul 640 640) with (Ok 409600) by reflexivity;
  replace (c_mul 409600 3) with (Ok 1228800) by reflexivity; cbn;
  match goal with
  | Hwf : cam_wf ?cam, Hsz : size_ ?cam = _, Ho : cap_opened (capture_ ?cam) = true,
    Hdev : cap_dev (capture_ ?cam) = ?dev, Hpos : cap_pos (capture_ ?cam) = 0%nat |- _ =>
      rewrite (GetRgbFrame_n_1080p 640 cam _ Hwf Hsz Ho ltac:(now rewrite Hdev, Hpos)); cbn;
      replace (grabbed cam) with (first_grab dev)
        by (unfold grabbed, first_grab; rewrite cap_read_frame, Hdev, Hpos by exact Ho; reflexivity)
  end.

Section SuccessRun.
Context `{CvOps} `{!CvLaws} `{Yolov8Api}.

(** The run of [main] when everything succeeds, with the camera the
    constructor builds. *)
Lemma main_success_run argv dev_at s :
  length argv = 3%nat -> dev_present (dev_at 0) = true ->
  INT_MIN <= dev_default_fourcc (dev_at 0) <= INT_MAX ->
  init_yolov8_model (nth 1 argv ""%string) = 0 -> grab_ok (dev_at 0) 0 = true ->
  (forall ib, fst (inference_yolov8_model ib) = 0) ->
  (forall ib, forallb draw_ok (snd (inference_yolov8_model ib)) = true) ->
  exists cam,
    fst (FisheyeCamera_new dev_at 0 K_main D_main s) = Ok cam /\ cam_wf cam /\
    size_ cam = Size 1920 1080 /\
    let frame := letterboxed cam (first_grab (dev_at 0)) in
    main argv dev_at s =
    (Ok 0,
     Io (out s ++ ctor_log (dev_at 0) ++
         [RuntimeCall "init_post_process"; RuntimeCall "init_yolov8_model";
          ImWrite "111.png" (first_grab (dev_at 0)); Inference 640 640 1228800 frame] ++
         flat_map draw_events
           (snd (inference_yolov8_model (ImageBuffer 640 640 1228800 IMAGE_FORMAT_RGB888 frame))) ++
         [WriteImage "out.png"; Log INFO "Release sources."; DestroyAllWindows])
        (keys s) (keypos s)).
Proof.
  intros Hl Hp Hf Hi Hg Hr Hb. main_camera Hp Hf.
  exists cam. split; [now rewrite Ecam|]. split; [exact Hwf|]. split; [exact Hsz|]. cbv zeta.
  main_argc Hl. main_first_grab Hi.
  set (ib := ImageBuffer 640 640 1228800 IMAGE_FORMAT_RGB888 (letterboxed cam (first_grab (dev_at 0)))).
  specialize (Hr ib). specialize (Hb ib).
  destruct (inference_yolov8_model ib) as [ret1 dets]; simpl in Hr, Hb |- *. subst ret1. cbn.
  rewrite draw_detections_run by exact Hb. cbn.
  unfold ctor_log. now rewrite <- !app_assoc.
Qed.

End SuccessRun.

(** Weaken what a camera method or [release_and_exit] emits to any
    property that holds of all those events. *)
Ltac camera_only H :=
  apply only_weaken with camera_event; [intros []; simpl; tauto | apply H].
Ltac release_only :=
  apply only_weaken with (fun e => e = RuntimeCall "release_yolov8_model" \/ drawing_event e);
  [intros e [-> | He]; [simpl; trivial | destruct e; simpl in *; tauto] | apply release_and_exit_emits].


(** * Theorems *)

Section MainTheorems.
Context `{CvOps} `{!CvLaws} `{Yolov8Api}.

(** C22. With no camera, [main] exits with [EXIT_FAILURE] from inside the
    camera's constructor, whatever its arguments: the camera is built
    before [argc] is checked, so a wrong command line is never reported
    and the usage line is never printed. *)
Theorem main_camera_before_args argv dev_at s :
  dev_present (dev_at 0) = false ->
  main argv dev_at s =
  (Exit EXIT_FAILURE,
   Io (out s ++ [Log INFO "Instantiate a FisheyeCamera object";
                 Log ERROR "Error opening video stream or file"]) (keys s) (keypos s)).
Proof.
  intros Hp. unfold main. mstart.
  now rewrite FisheyeCamera_new_exit by exact Hp.
Qed.

(** C23. With a camera and a command line of the wrong length, [main]
    prints the usage line, runs the camera's destructor and returns -1. *)
Theorem main_usage argv0 args dev_at s :
  length args <> 2%nat -> dev_present (dev_at 0) = true ->
  INT_MIN <= dev_default_fourcc (dev_at 0) <= INT_MAX ->
  main (argv0 :: args) dev_at s =
  (Ok (-1),
   Io (out s ++ ctor_log (dev_at 0) ++
       [Printf "%s <model_path> <image_path>\n" [CStr argv0];
        Log INFO "Release sources."; DestroyAllWindows]) (keys s) (keypos s)).
Proof.
  intros Hl Hp Hf.
  destruct (FisheyeCamera_new_spec dev_at 0 K_main D_main s Hp Hf eq_refl eq_refl eq_refl (or_intror eq_refl))
    as (cam & E & _).
  unfold main. mstart. rewrite E.
  replace (Z.of_nat (length (argv0 :: args)) =? 3) with false
    by (symmetry; apply Z.eqb_neq; simpl; lia).
  cbn. rewrite FisheyeCamera_delete_run. cbn. unfold ctor_log.
  now rewrite <- !app_assoc.
Qed.

(** C9. When the first grab fails, [main] dereferences the [nullptr]
    that [GetRgbFrame(640)] returns: undefined behaviour. *)
Theorem main_null_deref argv dev_at s :
  length argv = 3%nat -> dev_present (dev_at 0) = true ->
  INT_MIN <= dev_default_fourcc (dev_at 0) <= INT_MAX ->
  init_yolov8_model (nth 1 argv ""%string) = 0 -> grab_ok (dev_at 0) 0 = false ->
  fst (main argv dev_at s) = Undefined "tmp->ptr() on a null shared_ptr".
Proof.
  intros Hl Hp Hf Hi Hg. main_camera Hp Hf. main_argc Hl. rewrite Hi. cbn.
  rewrite GetRgbFrame_n_empty by (apply grabbed_empty; right; now rewrite Hdev, Hpos).
  cbn. reflexivity.
Qed.

(** C21. The complete run of [main] when everything succeeds: the camera
    is built, the runtime set up, one frame letterboxed and passed to
    inference in a 640x640 buffer of 1228800 bytes, every detection
    printed and drawn, the image written and the camera destroyed.  The
    model is never released and the post-processing never torn down on
    this path: [release_yolov8_model] and [deinit_post_process] appear
    only in the failure branches. *)
Theorem main_success_trace argv dev_at s :
  length argv = 3%nat -> dev_present (dev_at 0) = true ->
  INT_MIN <= dev_default_fourcc (dev_at 0) <= INT_MAX ->
  init_yolov8_model (nth 1 argv ""%string) = 0 -> grab_ok (dev_at 0) 0 = true ->
  (forall ib, fst (inference_yolov8_model ib) = 0) ->
  (forall ib, forallb draw_ok (snd (inference_yolov8_model ib)) = true) ->
  exists frame,
    rows frame = 640 /\ cols frame = 640 /\
    main argv dev_at s =
    (Ok 0,
     Io (out s ++ ctor_log (dev_at 0) ++
         [RuntimeCall "init_post_process"; RuntimeCall "init_yolov8_model";
          ImWrite "111.png" (first_grab (dev_at 0)); Inference 640 640 1228800 frame] ++
         flat_map draw_events
           (snd (inference_yolov8_model (ImageBuffer 640 640 1228800 IMAGE_FORMAT_RGB888 frame))) ++
         [WriteImage "out.png"; Log INFO "Release sources."; DestroyAllWindows])
        (keys s) (keypos s)).
Proof.
  intros Hl Hp Hf Hi Hg Hr Hb.
  destruct (main_success_run argv dev_at s Hl Hp Hf Hi Hg Hr Hb) as (cam & _ & _ & _ & E).
  exists (letterboxed cam (first_grab (dev_at 0))). split; [reflexivity|]. split; [reflexivity|].
  exact E.
Qed.

(** C24. On every run of [main], whatever its outcome, each call of the
    inference runtime is given a 640x640 frame in a buffer declared
    640x640 of [640 * 640 * 3] bytes: the buffer [main] fills in and the
    frame [GetRgbFrame(640)] returns always agree. *)
Theorem main_inference_buffer argv dev_at : emits_only inference_ok (main argv dev_at).
Proof.
  unfold main. cbv zeta.
  apply bind_only; [camera_only (new_emits dev_at 0 K_main D_main)|]. intros cam.
  destruct (negb _).
  - apply bind_only; [destruct argv; emits_tac|]. intros _.
    apply bind_only; [camera_only (delete_emits cam)|]. intros _. apply ret_only.
  - apply bind_only; [emits_tac|]. intros _. apply bind_only; [emits_tac|]. intros _.
    destruct (negb _).
    + apply bind_only; [emits_tac|]. intros _. release_only.
    + apply bind_only_post with (Q := fun wh => c_mul 640 640 = Ok wh);
        [apply lift_only | apply lift_returns |]. intros wh Hwh.
      apply bind_only_post with (Q := fun sz => c_mul wh 3 = Ok sz);
        [apply lift_only | apply lift_returns |]. intros sz Hsz.
      vm_compute in Hwh. injection Hwh as <-. vm_compute in Hsz. injection Hsz as <-.
      eapply bind_only_post; [camera_only (GetRgbFrame_n_emits 640 cam) | apply GetRgbFrame_n_returns |].
      intros [[frame|] cam'] Hdims; cbv beta iota; [|apply lift_only].
      destruct (Hdims frame eq_refl) as [Hr Hc].
      apply bind_only; [apply emit_only; simpl; auto|]. intros _.
      destruct (inference_yolov8_model _) as [ret1 dets]. destruct (negb _).
      * apply bind_only; [emits_tac|]. intros _. apply bind_only; [emits_tac|]. intros _.
        release_only.
      * apply bind_only.
        { apply only_weaken with drawing_event; [intros []; simpl; tauto | apply draw_detections_emits]. }
        intros _. apply bind_only; [emits_tac|]. intros _.
        apply bind_only; [camera_only (delete_emits cam')|]. intros _. apply ret_only.
Qed.

(** C32. When the model cannot be set up, [main] prints the failure,
    releases the model and calls [exit]: the camera's destructor never
    runs, so the capture is never released and the windows never
    closed. *)
Theorem main_init_failure argv dev_at s :
  length argv = 3%nat -> dev_present (dev_at 0) = true ->
  INT_MIN <= dev_default_fourcc (dev_at 0) <= INT_MAX ->
  init_yolov8_model (nth 1 argv ""%string) <> 0 ->
  main argv dev_at s =
  (Exit EXIT_FAILURE,
   Io (out s ++ ctor_log (dev_at 0) ++
       [RuntimeCall "init_post_process"; RuntimeCall "init_yolov8_model";
        Printf "init_yolov8_model fail! ret=%d model_path=%s\n"
          [CInt (init_yolov8_model (nth 1 argv ""%string)); CStr (nth 1 argv ""%string)];
        RuntimeCall "release_yolov8_model"] ++
       (if release_yolov8_model =? 0 then []
        else [Printf "release_yolov8_model fail! ret=%d\n" [CInt release_yolov8_model]]))
      (keys s) (keypos s)).
Proof.
  intros Hl Hp Hf Hi. main_camera Hp Hf. main_argc Hl.
  replace (init_yolov8_model (nth 1 argv ""%string) =? 0) with false by (symmetry; now apply Z.eqb_neq).
  cbn. destruct (release_yolov8_model =? 0); cbn; unfold ctor_log; now rewrite <- !app_assoc.
Qed.

(** C33. When inference fails, [main] reports it as
    "init_yolov8_model fail!", tears down the post-processing, releases
    the model and calls [exit], again without running the camera's
    destructor. *)
Theorem main_inference_failure argv dev_at s :
  length argv = 3%nat -> dev_present (dev_at 0) = true ->
  INT_MIN <= dev_default_fourcc (dev_at 0) <= INT_MAX ->
  init_yolov8_model (nth 1 argv ""%string) = 0 -> grab_ok (dev_at 0) 0 = true ->
  (forall ib, fst (inference_yolov8_model ib) <> 0) ->
  exists frame ret1,
    ret1 <> 0 /\
    main argv dev_at s =
    (Exit EXIT_FAILURE,
     Io (out s ++ ctor_log (dev_at 0) ++
         [RuntimeCall "init_post_process"; RuntimeCall "init_yolov8_model";
          ImWrite "111.png" (first_grab (dev_at 0)); Inference 640 640 1228800 frame;
          Printf "init_yolov8_model fail! ret=%d\n" [CInt ret1];
          RuntimeCall "deinit_post_process"; RuntimeCall "release_yolov8_model"] ++
         (if release_yolov8_model =? 0 then []
          else [Printf "release_yolov8_model fail! ret=%d\n" [CInt release_yolov8_model]]))
        (keys s) (keypos s)).
Proof.
  intros Hl Hp Hf Hi Hg Hr. main_camera Hp Hf.
  set (ib := ImageBuffer 640 640 1228800 IMAGE_FORMAT_RGB888 (letterboxed cam (first_grab (dev_at 0)))).
  exists (letterboxed cam (first_grab (dev_at 0))), (fst (inference_yolov8_model ib)).
  split; [apply Hr|]. main_argc Hl. main_first_grab Hi. fold ib.
  specialize (Hr ib). destruct (inference_yolov8_model ib) as [ret1 dets]; simpl in Hr |- *.
  replace (ret1 =? 0) with false by (symmetry; now apply Z.eqb_neq). cbn.
  destruct (release_yolov8_model =? 0); cbn; unfold ctor_log; now rewrite <- !app_assoc.
Qed.

End MainTheorems.

Section DrawTheorems.
Context `{CvOps} `{Yolov8Api}.

(** C28. The drawing loop of lines 99-114 has defined behaviour and draws
    every detection when the boxes' [int] arithmetic does not overflow,
    the confidences lie in [0, 1] and the class names have at most 248
    characters: each label, at most 255 bytes with its NUL, fits
    [char text[256]]. *)
Theorem draw_detections_safe ds s :
  forallb box_ok ds = true ->
  Forall (fun d => (0 <= prop d <= 1)%Q /\ (String.length (coco_cls_to_name (cls_id d)) <= 248)%nat) ds ->
  draw_detections ds s = (Ok tt, Io (out s ++ flat_map draw_events ds) (keys s) (keypos s)).
Proof.
  intros Hb Hf. apply draw_detections_run.
  induction Hf as [|d ds [Hp Hl] _ IH]; [reflexivity|].
  simpl in Hb |- *. apply andb_true_iff in Hb as [Hd Hds]. unfold draw_ok.
  rewrite Hd, (label_fits_percent d Hp Hl). exact (IH Hds).
Qed.

(** C29. A class name of 251 characters or more makes the [sprintf] of
    lines 111-112 write past the end of [text]: undefined behaviour,
    after the box has been printed and drawn. *)
Theorem draw_detection_label_overflow d s :
  box_ok d = true -> (251 <= String.length (coco_cls_to_name (cls_id d)))%nat ->
  fst (draw_detection d s) = Undefined "sprintf writes past the end of text[256]".
Proof.
  intros Hd Hl. unfold box_ok in Hd.
  apply andb_true_iff in Hd as [Hd H3]. apply andb_true_iff in Hd as [H1 H2].
  unfold draw_detection, c_sub. cbv zeta. rewrite (sprintf_label_overflow _ _ Hl). mrun.
  rewrite (c_int_in _ H1), (c_int_in _ H2). mrun. reflexivity.
Qed.

End DrawTheorems.

(** ** Witnesses *)

#[local] Existing Instance cv_nearest.
#[local] Existing Instance cv_nearest_laws.
#[local] Existing Instance demo_runtime.

Lemma main_camera_before_args_witness :
  fst (main ["yolov8_demo"]%string (fun _ => no_camera) io_nokey) = Exit EXIT_FAILURE.
Proof. now rewrite main_camera_before_args by reflexivity. Defined.

Lemma main_usage_witness :
  fst (main ["yolov8_demo"]%string (fun _ => stream_device 1 gray_frame) io_nokey) = Ok (-1).
Proof.
  rewrite (main_usage "yolov8_demo"%string [] (fun _ => stream_device 1 gray_frame) io_nokey
             ltac:(simpl; lia) eq_refl ltac:(vm_compute; split; discriminate)).
  reflexivity.
Defined.

Lemma main_null_deref_witness :
  fst (main demo_argv (fun _ => stream_device 0 gray_frame) io_nokey) =
  Undefined "tmp->ptr() on a null shared_ptr".
Proof.
  apply main_null_deref; try reflexivity. vm_compute; split; discriminate.
Defined.

Lemma main_success_trace_witness :
  fst (main demo_argv (fun _ => stream_device 1 gray_frame) io_nokey) = Ok 0.
Proof.
  destruct (main_success_trace demo_argv (fun _ => stream_device 1 gray_frame) io_nokey
              eq_refl eq_refl ltac:(vm_compute; split; discriminate) eq_refl eq_refl
              ltac:(intros; reflexivity) ltac:(intros; reflexivity)) as (frame & _ & _ & E).
  rewrite E. reflexivity.
Defined.

Lemma draw_detections_safe_witness :
  fst (draw_detections demo_dets io_nokey) = Ok tt.
Proof.
  rewrite (draw_detections_safe demo_dets io_nokey eq_refl).
  - reflexivity.
  - repeat constructor; simpl; try discriminate; lia.
Defined.

Lemma draw_detection_label_overflow_witness :
  fst (@draw_detection long_name_runtime (Det 0 100 150 300 400 (9 # 10)) io_nokey) =
  Undefined "sprintf writes past the end of text[256]".
Proof. apply (@draw_detection_label_overflow long_name_runtime); reflexivity. Defined.

Lemma main_init_failure_witness :
  fst (@main cv_nearest failing_init_runtime demo_argv (fun _ => stream_device 1 gray_frame) io_nokey) =
  Exit EXIT_FAILURE.
Proof.
  rewrite (@main_init_failure cv_nearest cv_nearest_laws failing_init_runtime demo_argv
             (fun _ => stream_device 1 gray_frame) io_nokey eq_refl eq_refl
             ltac:(vm_compute; split; discriminate) ltac:(discriminate)).
  reflexivity.
Defined.

Lemma main_inference_failure_witness :
  fst (@main cv_nearest failing_inference_runtime demo_argv (fun _ => stream_device 1 gray_frame) io_nokey) =
  Exit EXIT_FAILURE.
Proof.
  destruct (@main_inference_failure cv_nearest cv_nearest_laws failing_inference_runtime demo_argv
              (fun _ => stream_device 1 gray_frame) io_nokey eq_refl eq_refl
              ltac:(vm_compute; split; discriminate) eq_refl eq_refl ltac:(intros; discriminate))
    as (frame & ret1 & _ & E).
  rewrite E. reflexivity.
Defined.
