(* ===== verification/Preprocessor.v ===== *)
(** * The Frame Preprocessor of the specification, and its refinement

    The specification describes one component, the Frame Preprocessor,
    by a contract: acquire-and-letterbox(S) returns "no frame" exactly
    when the source yields none, and otherwise an [S] by [S] image in
    which the source, scaled with its aspect ratio kept and its longer
    side [S], fills a rectangle centred to within one pixel (the smaller
    margin on the top and left), in RGB, and every other pixel is the
    black background.

    [FramePreprocessor] is that interface: the operation, the frame the
    next call reads, the object after the call and the condition under
    which the contract is promised.  [meets_contract S] states the
    contract of acquire-and-letterbox(S) against the interface alone, and
    the client lemmas of Section Client use nothing else.
    [fisheye_preprocessor] is the instance of the class [FisheyeCamera]:
    the operation is [GetRgbFrame(int&&)], the frame is the undistorted
    next grab, and the condition is the invariant [cam_wf] on the
    constructor's 1920x1080 tables.  The refinement theorems show that
    [letterbox] meets the letterbox part of the contract for every target
    size, that [GetRgbFrame(int&&)] meets the contract for 640, and that
    it meets it for no other size; composed with [main], the frame
    handed to inference is that letterbox of the first grab. *)

From Stdlib Require Import ZArith QArith Lia String List.
From stdpp Require Import base decidable numbers.
From S2P Require Import Prelude Mat OpenCV Io Capture Letterbox FisheyeCamera Main.

Open Scope Z_scope.

(** ** The contract *)

(** The rectangle [R] has the aspect ratio of a [rows] by [cols] image,
    its longer side [S] and its shorter side rounded down. *)
Definition aspect_fit (S rows cols : Z) (R : rect) : Prop :=
  (rows <= cols -> rw R = S /\ rh R * cols <= rows * S < (rh R + 1) * cols) /\
  (cols <= rows -> rh R = S /\ rw R * rows <= cols * S < (rw R + 1) * rows).

(** [R] is centred in the [S] by [S] square, the top and left margins
    being the smaller ones when the padding is odd. *)
Definition centred (S : Z) (R : rect) : Prop :=
  2 * rx R <= S - rw R <= 2 * rx R + 1 /\ 2 * ry R <= S - rh R <= 2 * ry R + 1.

Section Contract.
Context `{CvOps}.

(** [out] is the letterbox of [src] into an [S] by [S] square. *)
Definition letterboxed_frame (S : Z) (src out : mat) : Prop :=
  rows out = S /\ cols out = S /\
  exists R, aspect_fit S (rows src) (cols src) R /\ centred S R /\
    forall r c, 0 <= r < S -> 0 <= c < S ->
      px out r c = if in_rect R r c
                   then swap_rb (resize_linear src (rh R) (rw R) (r - ry R) (c - rx R))
                   else black.

(** The result of acquire-and-letterbox(S) when the source yields [src]. *)
Definition acquire_spec (S : Z) (src result : option mat) : Prop :=
  match src, result with
  | None, None => True
  | Some f, Some out => letterboxed_frame S f out
  | _, _ => False
  end.

End Contract.

Class FramePreprocessor (obj : Type) := {
  acquire_letterbox : Z -> obj -> M io (option mat * obj);
  pending_frame : obj -> option mat;
  advance : obj -> obj;
  ready : obj -> Prop
}.

(** Every call on a ready object returns normally, with the object
    advanced by one frame and the result the contract asks for. *)
Definition meets_contract `{CvOps} {obj} `{FramePreprocessor obj} (S : Z) : Prop :=
  forall o s, ready o ->
    exists r, fst (acquire_letterbox S o s) = Ok (r, advance o) /\ acquire_spec S (pending_frame o) r.

(** ** The instance of the class [FisheyeCamera] *)

Section Camera.
Context `{CvOps}.

(** The undistorted frame of the next grab; [None] when the grab fails. *)
Definition camera_pending (self : fisheye_camera) : option mat :=
  if mat_empty (grabbed self) then None else Some (undistort self (grabbed self)).

Definition camera_ready (self : fisheye_camera) : Prop :=
  cam_wf self /\ size_ self = Size 1920 1080.

(** The public interface of fisheye_camera.h, lines 9-16. *)
#[export] Instance fisheye_preprocessor : FramePreprocessor fisheye_camera := {|
  acquire_letterbox := GetRgbFrame_n;
  pending_frame := camera_pending;
  advance self := with_capture self (snd (cap_read (capture_ self)));
  ready := camera_ready
|}.

End Camera.

(** ** Lemmas *)

Section Client.
Context `{CvOps} {obj : Type} `{!FramePreprocessor obj}.
Variable S : Z.
Hypothesis HS : meets_contract S.

(** A client of the interface receives [S] by [S] frames. *)
Lemma contract_square o s out o' :
  ready o -> fst (acquire_letterbox S o s) = Ok (Some out, o') -> rows out = S /\ cols out = S.
Proof.
  intros Hr E. destruct (HS o s Hr) as (r & E' & Hs). rewrite E in E'. injection E' as <- _.
  destruct (pending_frame o) as [f|]; [|contradiction]. now destruct Hs as (? & ? & _).
Qed.

(** ... and "no frame" exactly when the source has none. *)
Lemma contract_no_frame o s :
  ready o -> pending_frame o = None -> fst (acquire_letterbox S o s) = Ok (None, advance o).
Proof.
  intros Hr Hp. destruct (HS o s Hr) as ([out|] & E & Hs); rewrite Hp in Hs; [contradiction|exact E].
Qed.

End Client.

Lemma content_rect_contract d rows cols :
  0 < d -> 0 < rows -> 0 < cols ->
  aspect_fit d rows cols (content_rect d rows cols) /\ centred d (content_rect d rows cols).
Proof.
  intros Hd Hr Hc. pose proof (scaled_bounds d rows cols Hd Hr Hc) as [Bw Bh].
  pose proof (half_split (d - scaled_w d rows cols) ltac:(lia)).
  pose proof (half_split (d - scaled_h d rows cols) ltac:(lia)).
  pose proof (div_bracket (cols * d) rows Hr). pose proof (div_bracket (rows * d) cols Hc).
  unfold aspect_fit, centred, content_rect; simpl. unfold scaled_w, scaled_h in *.
  destruct (rows >? cols) eqn:G; [apply Z.gtb_lt in G | rewrite Z.gtb_ltb, Z.ltb_ge in G];
    split; try split; intros; try lia.
  (* a square image: both branches give a [d] by [d] rectangle *)
  assert (cols = rows) as -> by lia. rewrite Z.mul_comm, Z.div_mul by lia. lia.
Qed.

Section Refinement.
Context `{CvOps}.

(** The image [letterbox_exact] describes meets the contract. *)
Lemma letterbox_formula_frame d img :
  0 < d -> 0 < rows img -> 0 < cols img ->
  letterboxed_frame d img
    (Mat d d (fun r c =>
       let R := content_rect d (rows img) (cols img) in
       swap_rb (if in_rect R r c then resize_linear img (rh R) (rw R) (r - ry R) (c - rx R)
                else black))).
Proof.
  intros Hd Hr Hc. split; [reflexivity|]. split; [reflexivity|].
  exists (content_rect d (rows img) (cols img)).
  destruct (content_rect_contract d _ _ Hd Hr Hc) as [Ha Hce]. split; [exact Ha|]. split; [exact Hce|].
  intros r c _ _. simpl. now destruct (in_rect _ r c).
Qed.

Lemma undistort_dims self frame :
  camera_ready self -> rows (undistort self frame) = 1080 /\ cols (undistort self frame) = 1920.
Proof. intros [(_ & Hr & Hc & _) Hsz]. rewrite Hsz in Hr, Hc. exact (conj Hr Hc). Qed.

Lemma GetRgbFrame_n_meets_640 : @meets_contract _ _ fisheye_preprocessor 640.
Proof.
  intros self s Hready. pose proof Hready as [Hwf _]. cbn [acquire_letterbox pending_frame advance fisheye_preprocessor].
  unfold camera_pending. destruct (mat_empty (grabbed self)) eqn:E.
  - rewrite GetRgbFrame_n_empty by exact E. eexists; split; [reflexivity | exact I].
  - rewrite GetRgbFrame_n_grab by assumption.
    destruct (undistort_dims self (grabbed self) Hready) as [HU1 HU2].
    rewrite letterbox_exact; rewrite ?HU1, ?HU2; try (unfold no_overflow, INT_MAX; simpl; lia);
      try (vm_compute; reflexivity).
    eexists; split; [reflexivity|]. cbn [acquire_spec].
    pose proof (letterbox_formula_frame 640 (undistort self (grabbed self))) as F.
    rewrite HU1, HU2 in F. apply F; lia.
Qed.

(** The frame [GetRgbFrame(int&&)] returns on the constructor's tables
    is the specification's letterbox of the undistorted frame. *)
Lemma letterboxed_meets cam f :
  camera_ready cam -> letterboxed_frame 640 (undistort cam f) (letterboxed cam f).
Proof.
  intros Hr. destruct (undistort_dims cam f Hr) as [HU1 HU2].
  split; [reflexivity|]. split; [reflexivity|]. exists (Rect 0 140 640 360).
  rewrite HU1, HU2. destruct (content_rect_contract 640 1080 1920 ltac:(lia) ltac:(lia) ltac:(lia)) as [Ha Hc].
  change (content_rect 640 1080 1920) with (Rect 0 140 640 360) in Ha, Hc.
  split; [exact Ha|]. split; [exact Hc|].
  intros r c _ _. unfold letterboxed. cbn [px rx ry rw rh]. now destruct (in_rect _ r c).
Qed.

End Refinement.

(** * Theorems *)

Section PreprocessorTheorems.
Context `{CvOps}.

(** C5. [letterbox] refines the letterbox part of the contract: whenever
    it succeeds, for any target size, its result is the [d] by [d] square
    holding the RGB resize of the image in a centred rectangle of the
    image's aspect ratio whose longer side is [d], on a black
    background. *)
Theorem letterbox_refines d img out :
  0 < d <= INT_MAX -> 0 < rows img -> 0 < cols img -> no_overflow d (rows img) (cols img) ->
  letterbox d img = Ok out -> letterboxed_frame d img out.
Proof.
  intros Hd Hr Hc Hno E. destruct (letterbox_ok_inv d img out Hd Hr Hc Hno E) as (_ & _ & ->).
  apply letterbox_formula_frame; lia.
Qed.

(** C1. [GetRgbFrame(int&&)] implements acquire-and-letterbox(640) of
    the specification on every well-formed object with the constructor's
    tables: "no frame" ([nullptr]) exactly when the grab yields an empty
    frame, and otherwise the letterbox of the undistorted frame. *)
Theorem GetRgbFrame_n_refines : @meets_contract _ _ fisheye_preprocessor 640.
Proof. exact GetRgbFrame_n_meets_640. Qed.

(** C2. The contract of acquire-and-letterbox(S) holds for
    [GetRgbFrame(int&&)] exactly when [S = 640]: the argument is never
    read, so for any other target size the frame has the wrong size. *)
Theorem GetRgbFrame_n_contract_iff S : @meets_contract _ _ fisheye_preprocessor S <-> S = 640.
Proof.
  split; [|intros ->; exact GetRgbFrame_n_meets_640].
  intros HS. set (o := demo_cam 1 gray_frame).
  assert (Ho : camera_ready o) by (repeat split).
  pose proof (GetRgbFrame_n_1080p S o io_nokey (proj1 Ho) eq_refl eq_refl eq_refl) as E.
  destruct (contract_square S HS o io_nokey _ _ Ho (f_equal fst E)) as [Hr _].
  exact (eq_sym Hr).
Qed.

Context `{!CvLaws} `{Yolov8Api}.

(** C30. [main] composed with the class: on the success path, the buffer
    [main] hands to inference is the specification's 640x640 letterbox
    of the first frame, undistorted with the tables of the camera [main]
    constructs from [K] and [D]. *)
Theorem main_inference_input_contract argv dev_at s :
  length argv = 3%nat -> dev_present (dev_at 0) = true ->
  INT_MIN <= dev_default_fourcc (dev_at 0) <= INT_MAX ->
  init_yolov8_model (nth 1 argv ""%string) = 0 -> grab_ok (dev_at 0) 0 = true ->
  (forall ib, fst (inference_yolov8_model ib) = 0) ->
  (forall ib, forallb draw_ok (snd (inference_yolov8_model ib)) = true) ->
  exists cam frame,
    fst (FisheyeCamera_new dev_at 0 K_main D_main s) = Ok cam /\
    In (Inference 640 640 1228800 frame) (out (snd (main argv dev_at s))) /\
    letterboxed_frame 640 (undistort cam (first_grab (dev_at 0))) frame.
Proof.
  intros Hl Hp Hf Hi Hg Hr Hb.
  destruct (main_success_run argv dev_at s Hl Hp Hf Hi Hg Hr Hb) as (cam & Ecam & Hwf & Hsz & E).
  exists cam, (letterboxed cam (first_grab (dev_at 0))). split; [exact Ecam|]. split.
  - rewrite E. cbn [snd out]. rewrite !in_app_iff. right. right. left. simpl. tauto.
  - exact (letterboxed_meets cam _ (conj Hwf Hsz)).
Qed.

End PreprocessorTheorems.

(** ** Witnesses *)

#[local] Existing Instance cv_nearest.

Lemma letterbox_refines_witness :
  letterboxed_frame 640 hd_img (value_or empty_mat (letterbox 640 hd_img)).
Proof.
  apply (letterbox_refines 640 hd_img _ ltac:(unfold INT_MAX; simpl; lia) ltac:(simpl; lia)
           ltac:(simpl; lia) ltac:(unfold no_overflow, INT_MAX; simpl; lia)).
  reflexivity.
Defined.

Lemma main_inference_input_contract_witness :
  exists frame,
    In (Inference 640 640 1228800 frame)
       (out (snd (@main cv_nearest demo_runtime demo_argv (fun _ => stream_device 1 gray_frame) io_nokey))).
Proof.
  destruct (@main_inference_input_contract cv_nearest cv_nearest_laws demo_runtime demo_argv
              (fun _ => stream_device 1 gray_frame) io_nokey eq_refl eq_refl
              ltac:(vm_compute; split; discriminate) eq_refl eq_refl
              ltac:(intros; reflexivity) ltac:(intros; reflexivity)) as (cam & frame & _ & Hin & _).
  exists frame. exact Hin.
Defined.
